(** * Gold briefing pipeline: a shallow embedding of the orchestration core

    The development follows four source files:
    - [agents/monetization_agent.py]: opportunity score, success streak,
      cooldown lookup and the strategy ladder;
    - [agents/analytics_agent.py]: the windowed log reader and the streak
      of [pipeline_metrics];
    - [agents/social_agent.py]: the link chosen for social posts;
    - [orchestrator.py]: the data quality gate, the run log, the
      distribution chain and the closing log record.

    Python values are an inductive type, a raised exception is a value of
    [res], the two JSONL logs and the clock are explicit arguments, and the
    orchestrator's [main] runs in a small state monad whose state holds the
    run log and the trace of collaborator calls.  A log is handled as the
    lines its readers see; module [Disk] has the file itself, where a write
    appends bytes, and says when the two agree. *)

From Stdlib Require Import ZArith QArith Qabs String Ascii List Bool Lia.
From Stdlib Require Import DecimalString.
Import ListNotations.
Open Scope string_scope.
Open Scope Z_scope.

(** ** Python values *)

Set Warnings "-register-all".

Module Py.

(** A float is the rational it denotes, or one of the three special values.
    Every finite double is a rational and comparisons between doubles and
    integers are exact in Python, so order tests are faithful. *)
Inductive pyfloat :=
| Fin (q : Q)
| Nan
| PInf
| NInf.

Inductive pyval :=
| VNone
| VBool (b : bool)
| VInt (z : Z)
| VFloat (f : pyfloat)
| VStr (s : string)
| VList (l : list pyval)
| VDict (d : list (string * pyval)).

Inductive exn :=
| TypeError
| KeyError
| AttributeError
| ValueError
| RuntimeError
| ImportError
| OtherError.

(** The outcome of evaluating Python code: a value or a raised exception. *)
Inductive res (A : Type) :=
| Ok (a : A)
| Raise (e : exn).
Arguments Ok {A} a.
Arguments Raise {A} e.

Definition bind {A B} (c : res A) (k : A -> res B) : res B :=
  match c with
  | Ok a => k a
  | Raise e => Raise e
  end.

Notation "x <- c ;; k" := (bind c (fun x => k))
  (at level 61, c at next level, right associativity).

(** [try: c except Exception: h] *)
Definition try_except {A} (c : res A) (h : A) : A :=
  match c with
  | Ok a => a
  | Raise _ => h
  end.

(** Dictionaries keep insertion order; lookup takes the first binding. *)
Fixpoint lookup (k : string) (d : list (string * pyval)) : option pyval :=
  match d with
  | [] => None
  | (k', v) :: d' => if String.eqb k k' then Some v else lookup k d'
  end.

(** [v.get(k, default)]: only dictionaries have [get]. *)
Definition get (v : pyval) (k : string) (default : pyval) : res pyval :=
  match v with
  | VDict d => Ok (match lookup k d with Some x => x | None => default end)
  | _ => Raise AttributeError
  end.

(** [v[k]] on a dictionary. *)
Definition getitem (v : pyval) (k : string) : res pyval :=
  match v with
  | VDict d => match lookup k d with Some x => Ok x | None => Raise KeyError end
  | _ => Raise TypeError
  end.

(** [bool(v)] *)
Definition truthy (v : pyval) : bool :=
  match v with
  | VNone => false
  | VBool b => b
  | VInt z => negb (z =? 0)
  | VFloat (Fin q) => negb (Qnum q =? 0)
  | VFloat _ => true
  | VStr s => negb (String.eqb s "")
  | VList l => match l with [] => false | _ => true end
  | VDict d => match d with [] => false | _ => true end
  end.

(** [a or b] *)
Definition or_else (a b : pyval) : pyval := if truthy a then a else b.

(** The number a value stands for in arithmetic and comparisons; booleans
    are the integers 0 and 1. *)
Definition num_of (v : pyval) : option pyfloat :=
  match v with
  | VBool b => Some (Fin (if b then 1 else 0))
  | VInt z => Some (Fin (inject_Z z))
  | VFloat f => Some f
  | _ => None
  end.

Definition is_num (v : pyval) : bool :=
  match num_of v with Some _ => true | None => false end.

(** [x <= y] on numbers; every comparison with NaN is false. *)
Definition fle (x y : pyfloat) : bool :=
  match x, y with
  | Nan, _ | _, Nan => false
  | NInf, _ => true
  | _, PInf => true
  | Fin a, Fin b => Qle_bool a b
  | _, _ => false
  end.

Definition fabs (x : pyfloat) : pyfloat :=
  match x with
  | Fin q => Fin (Qabs q)
  | Nan => Nan
  | PInf | NInf => PInf
  end.

(** [v >= c] and [v <= c] against a numeric constant [c]. *)
Definition ge (v : pyval) (c : Q) : res bool :=
  match num_of v with
  | Some x => Ok (fle (Fin c) x)
  | None => Raise TypeError
  end.

Definition le (v : pyval) (c : Q) : res bool :=
  match num_of v with
  | Some x => Ok (fle x (Fin c))
  | None => Raise TypeError
  end.

Definition gt (v : pyval) (c : Q) : res bool :=
  match num_of v with
  | Some x => Ok (match x with Nan => false | _ => negb (fle x (Fin c)) end)
  | None => Raise TypeError
  end.

(** [abs(v)] *)
Definition abs (v : pyval) : res pyval :=
  match v with
  | VBool b => Ok (VInt (if b then 1 else 0))
  | VInt z => Ok (VInt (Z.abs z))
  | VFloat f => Ok (VFloat (fabs f))
  | _ => Raise TypeError
  end.

(** [round(q)] for a finite float: to the nearest integer, ties to even. *)
Definition round (q : Q) : Z :=
  let n := Qnum q in
  let d := Zpos (Qden q) in
  let fl := n / d in
  let r2 := 2 * (n mod d) in
  if r2 <? d then fl
  else if d <? r2 then fl + 1
  else if Z.even fl then fl else fl + 1.

(** [v == s] for a string constant [s]. *)
Definition eq_str (v : pyval) (s : string) : bool :=
  match v with
  | VStr s' => String.eqb s' s
  | _ => false
  end.

End Py.
Import Py.

(** ** JSONL logs and the clock *)

(** A line of a log file as [json.loads] sees it, after
    [read_text().strip().splitlines()]: whitespace only, text that does not
    decode, or the decoded value. *)
Inductive log_line :=
| Blank
| Corrupt (raw : string)
| Json (v : pyval).

(** [None] when the file does not exist. *)
Definition file := option (list log_line).

Definition json_loads (l : log_line) : res pyval :=
  match l with
  | Json v => Ok v
  | Blank | Corrupt _ => Raise ValueError
  end.

(** [line.strip()] is empty. *)
Definition is_blank (l : log_line) : bool :=
  match l with
  | Blank => true
  | _ => false
  end.

(** What the readers see after one more record has been written, for a
    file that is absent, empty, or ends in a newline right after its last
    line that is not blank: one more line, the record.  Opening the file in
    append mode creates it when absent.  The writers of the program only
    ever add a JSON text and a newline, so they keep a log in that form;
    [Disk.write] is the write on any file. *)
Definition append_record (f : file) (rec : pyval) : file :=
  match f with
  | None => Some [Json rec]
  | Some ls => Some (ls ++ [Json rec])%list
  end.

(** ** Log files on disk

    Every writer does [open(path, "a")] and writes the JSON text of a record
    followed by a newline; every reader takes
    [read_text().strip().splitlines()].  What a reader finds after a write
    therefore depends on how the file ended before it. *)

Module Disk.

(** The content of a file cut at its newlines: the lines in order, and
    whether the last of them is followed by a newline (an empty content
    has no line). *)
Record content := {
  lines : list log_line;
  closed : bool
}.

(** [None] when the file does not exist. *)
Definition disk := option content.

Fixpoint drop_blank (ls : list log_line) : list log_line :=
  match ls with
  | Blank :: rest => drop_blank rest
  | _ => ls
  end.

(** [text.strip().splitlines()]: the blank lines at either end of the file
    are not seen. *)
Definition strip_lines (ls : list log_line) : list log_line :=
  rev (drop_blank (rev (drop_blank ls))).

(** The lines a reader works on. *)
Definition seen (d : disk) : file :=
  match d with
  | None => None
  | Some c => Some (strip_lines (lines c))
  end.

Section Writing.

(** How [json.loads] reads an unterminated last line followed by the text
    of a record: the two come out as one line. *)
Variable glued : log_line -> pyval -> log_line.

(** [with open(path, "a") as f: f.write(json.dumps(rec) + "\n")] *)
Definition write (d : disk) (rec : pyval) : disk :=
  match d with
  | None => Some {| lines := [Json rec]; closed := true |}
  | Some c =>
      if closed c then
        Some {| lines := (lines c ++ [Json rec])%list; closed := true |}
      else
        match rev (lines c) with
        | [] => Some {| lines := [Json rec]; closed := true |}
        | l :: before =>
            Some {| lines := (rev before ++ [glued l rec])%list;
                    closed := true |}
        end
  end.

End Writing.

(** The file is absent or empty, or it ends in a newline and its last line
    is not blank. *)
Definition tidy (d : disk) : bool :=
  match d with
  | None => true
  | Some c =>
      match rev (lines c) with
      | [] => true
      | l :: _ => closed c && negb (is_blank l)
      end
  end.

End Disk.

(** A naive [datetime], in microseconds from a fixed origin. *)
Definition datetime := Z.

Definition day_us : Z := 86400000000.

(** [timedelta.days]: the floor of the difference in whole days. *)
Definition timedelta_days (delta : Z) : Z := delta / day_us.

(** [datetime.fromisoformat(v)] for a parser [fromisoformat] of strings. *)
Definition parse_ts (fromisoformat : string -> option datetime) (v : pyval)
    : res datetime :=
  match v with
  | VStr s => match fromisoformat s with
              | Some t => Ok t
              | None => Raise ValueError
              end
  | _ => Raise TypeError
  end.

(** ** agents/monetization_agent.py *)

Module Monetization.

Section WithClock.

(** [datetime.fromisoformat], [None] where it raises or yields an aware
    value that cannot be compared with the naive [now()]; and
    [datetime.isoformat]. *)
Variable fromisoformat : string -> option datetime.
Variable isoformat : datetime -> string.

Definition HARD_UPSELL_COOLDOWN_DAYS : Z := 3.
Definition PROMO_COOLDOWN_DAYS : Z := 14.

Definition POST_TYPE_SCORES : list (string * Z) :=
  [ ("trader_intelligence", 95);
    ("macro_outlook", 90);
    ("africa_regional", 80);
    ("week_review", 85);
    ("karat_pricing", 70);
    ("aggregator", 65);
    ("educational", 60) ].

Fixpoint table_get {A} (k : string) (t : list (string * A)) (default : A) : A :=
  match t with
  | [] => default
  | (k', v) :: t' => if String.eqb k k' then v else table_get k t' default
  end.

(** The dictionary [scores] returned by [score_opportunity]. *)
Record scores := {
  volatility : Z;
  rsi_extreme : Z;
  post_type_score : Z;
  ath_proximity : Z;
  streak_bonus : Z;
  total : Z
}.

(** The loop of [_get_success_streak] over [reversed(lines)]. *)
Fixpoint streak_loop (ls : list log_line) (streak : Z) : res Z :=
  match ls with
  | [] => Ok streak
  | line :: rest =>
      rec <- json_loads line ;;
      st <- get rec "status" VNone ;;
      if eq_str st "SUCCESS" then streak_loop rest (streak + 1)
      else Ok streak
  end.

Definition _get_success_streak (run_log : file) : Z :=
  match run_log with
  | None => 0
  | Some lines => try_except (streak_loop (rev lines) 0) 0
  end.

(** The loop of [_days_since_last_upsell] over [reversed(lines)]. *)
Fixpoint upsell_scan (now : datetime) (upsell_type : string)
    (ls : list log_line) : res Z :=
  match ls with
  | [] => Ok 9999
  | line :: rest =>
      rec <- json_loads line ;;
      ut <- get rec "upsell_type" VNone ;;
      if eq_str ut upsell_type then
        tsv <- getitem rec "ts" ;;
        ts <- parse_ts fromisoformat tsv ;;
        Ok (timedelta_days (now - ts))
      else upsell_scan now upsell_type rest
  end.

Definition _days_since_last_upsell (monetization_log : file) (now : datetime)
    (upsell_type : string) : Z :=
  match monetization_log with
  | None => 9999
  | Some lines => try_except (upsell_scan now upsell_type (rev lines)) 9999
  end.

Definition score_opportunity (run_log : file) (data : pyval)
    (post_type : string) : res scores :=
  gold <- get data "gold" (VDict []) ;;
  price <- get gold "price" (VInt 0) ;;
  raw_pct <- get gold "day_chg_pct" (VInt 0) ;;
  pct <- abs (or_else raw_pct (VInt 0)) ;;
  rsi <- get gold "rsi" VNone ;;
  (* 1. volatility *)
  v3 <- ge pct 3 ;;
  v2 <- (if v3 then Ok true else ge pct 2) ;;
  v1 <- (if v2 then Ok true else ge pct 1) ;;
  let s_vol := if v3 then 30 else if v2 then 22 else if v1 then 14 else 5 in
  (* 2. RSI extremes *)
  s_rsi <- (match rsi with
            | VNone => Ok 0
            | _ =>
                hi75 <- ge rsi 75 ;;
                ex <- (if hi75 then Ok true else le rsi 25) ;;
                if ex then Ok 20
                else
                  hi65 <- ge rsi 65 ;;
                  md <- (if hi65 then Ok true else le rsi 35) ;;
                  Ok (if md then 12 else 4)
            end) ;;
  (* 3. post type *)
  let base := table_get post_type POST_TYPE_SCORES 60 in
  let s_type := round (inject_Z base * (1 # 4)) in
  (* 4. ATH proximity *)
  p5 <- ge price 5000 ;;
  p35 <- (if p5 then Ok true else ge price 3500) ;;
  p25 <- (if p35 then Ok true else ge price 2500) ;;
  let s_ath := if p5 then 20 else if p35 then 14 else if p25 then 8 else 3 in
  (* 5. streak bonus *)
  let streak := _get_success_streak run_log in
  let s_streak := if 7 <=? streak then 5 else if 3 <=? streak then 3 else 0 in
  let sum := s_vol + s_rsi + s_type + s_ath + s_streak in
  Ok {| volatility := s_vol; rsi_extreme := s_rsi; post_type_score := s_type;
        ath_proximity := s_ath; streak_bonus := s_streak;
        total := Z.min 100 sum |}.

Definition select_strategy (monetization_log : file) (now : datetime)
    (score : Z) : string :=
  let days_since_hard := _days_since_last_upsell monetization_log now "hard" in
  let days_since_promo := _days_since_last_upsell monetization_log now "promo" in
  if (80 <=? score) && (PROMO_COOLDOWN_DAYS <=? days_since_promo) then "promo"
  else if (65 <=? score) && (HARD_UPSELL_COOLDOWN_DAYS <=? days_since_hard)
  then "hard_upsell"
  else if 45 <=? score then "soft_upsell"
  else if 25 <=? score then "value_reminder"
  else "none".

Definition scores_dict (s : scores) : pyval :=
  VDict [ ("volatility", VInt (volatility s));
          ("rsi_extreme", VInt (rsi_extreme s));
          ("post_type", VInt (post_type_score s));
          ("ath_proximity", VInt (ath_proximity s));
          ("streak_bonus", VInt (streak_bonus s));
          ("total", VInt (total s)) ].

Definition upsell_type_of (strategy : string) : string :=
  if String.eqb strategy "hard_upsell" || String.eqb strategy "promo"
  then strategy else "soft".

(** The record [log_monetization] builds. *)
Definition monetization_record (post_type : string) (score_breakdown : scores)
    (strategy window : string) (today : datetime) : pyval :=
  VDict [ ("ts", VStr (isoformat today));
          ("post_type", VStr post_type);
          ("score", VInt (total score_breakdown));
          ("score_breakdown", scores_dict score_breakdown);
          ("strategy", VStr strategy);
          ("upsell_type", VStr (upsell_type_of strategy));
          ("pricing_window", VStr window) ].

(** [log_monetization], on the lines its readers see: a failed write is
    caught and leaves the log as it was. *)
Definition log_monetization (writable : bool) (monetization_log : file)
    (post_type : string) (score_breakdown : scores) (strategy window : string)
    (today : datetime) : file :=
  if writable then
    append_record monetization_log
      (monetization_record post_type score_breakdown strategy window today)
  else monetization_log.

(** [log_monetization], on the file itself. *)
Definition log_monetization_on_disk
    (glued : log_line -> pyval -> log_line) (writable : bool)
    (monetization_log : Disk.disk) (post_type : string)
    (score_breakdown : scores) (strategy window : string) (today : datetime)
    : Disk.disk :=
  if writable then
    Disk.write glued monetization_log
      (monetization_record post_type score_breakdown strategy window today)
  else monetization_log.

(** *** The pricing window and the entry point *)

(** [today.weekday()] (Monday is 0), the float formatter behind
    [f"{x:spec}"], and the two renderers of HTML copy. *)
Variable weekday_of : datetime -> Z.
Variable fmt : string -> pyfloat -> string.

Definition MONTHLY_PRICE : Z := 9.
Definition ANNUAL_PRICE : Z := 79.
Definition PROMO_PRICE : Z := 59.

(** [f"{n}"] for an integer. *)
Definition show_int (n : Z) : string := NilZero.string_of_int (Z.to_int n).

(** The dictionary [detect_pricing_window] returns. *)
Record pricing_window := {
  window : string;
  reason : string;
  pw_score : Z;
  promo_price : Z;
  annual_price : Z;
  monthly_price : Z
}.

Definition detect_pricing_window (monetization_log : file) (now : datetime)
    (score : Z) (data : pyval) (today : datetime) : res pricing_window :=
  gold <- get data "gold" (VDict []) ;;
  raw_pct <- get gold "day_chg_pct" (VInt 0) ;;
  pct <- abs (or_else raw_pct (VInt 0)) ;;
  let is_monday := weekday_of today =? 0 in
  let is_friday := weekday_of today =? 4 in
  high_vol <- ge pct 2 ;;
  let days_to_promo :=
    Z.max 0 (PROMO_COOLDOWN_DAYS
             - (PROMO_COOLDOWN_DAYS
                - _days_since_last_upsell monetization_log now "promo")) in
  let pct_text := match num_of pct with
                  | Some x => fmt ".1f" x
                  | None => ""
                  end in
  let answer :=
    if (80 <=? score) && high_vol then
      ("NOW", "High volatility (" ++ pct_text ++ "%) + score "
              ++ show_int score ++ "/100 — peak attention moment")
    else if (70 <=? score) && is_monday then
      ("NOW", "Monday + strong score — readers starting the week engaged")
    else if (70 <=? score) && is_friday then
      ("NOW", "Friday + strong score — weekend reading behaviour drives conversions")
    else if 60 <=? score then
      ("SOON", "Score " ++ show_int score
               ++ "/100 — solid conditions, next cooldown clears in "
               ++ show_int days_to_promo ++ "d")
    else
      ("WAIT", "Score " ++ show_int score
               ++ "/100 — hold until a higher-volatility day") in
  Ok {| window := fst answer; reason := snd answer; pw_score := score;
        promo_price := PROMO_PRICE; annual_price := ANNUAL_PRICE;
        monthly_price := MONTHLY_PRICE |}.

(** The dictionary [build_cta_copy] returns. *)
Record cta_copy := {
  subject_addition : string;
  in_post_banner : string;
  email_ps : string
}.

(** [build_cta_copy] and [build_monetization_html_block] render HTML for
    the operator; they are taken as given. *)
Variable build_cta_copy : string -> string -> pyval -> datetime -> res cta_copy.
Variable build_monetization_html_block :
  scores -> string -> cta_copy -> pricing_window -> res string.

(** The dictionary [run] returns. *)
Record monetization_data := {
  md_score : Z;
  md_strategy : string;
  md_cta : cta_copy;
  md_pricing_window : pricing_window;
  md_html_block : string
}.

(** The part of [run] that precedes the log write. *)
Definition run_decide (run_log monetization_log : file) (now : datetime)
    (post_type : string) (data : pyval) (today : datetime)
    : res (scores * string * cta_copy * pricing_window) :=
  score_breakdown <- score_opportunity run_log data post_type ;;
  let score := total score_breakdown in
  let strategy := select_strategy monetization_log now score in
  cta <- build_cta_copy strategy post_type data today ;;
  pw <- detect_pricing_window monetization_log now score data today ;;
  Ok (score_breakdown, strategy, cta, pw).

(** [run]: what it returns or raises, and the monetization log it leaves
    behind either way.  [today] is the date the orchestrator passes in;
    [now] is the clock the cooldown lookups read. *)
Definition run (writable : bool) (run_log monetization_log : file)
    (now : datetime) (post_type : string) (data : pyval) (today : datetime)
    : res monetization_data * file :=
  match run_decide run_log monetization_log now post_type data today with
  | Raise e => (Raise e, monetization_log)
  | Ok (score_breakdown, strategy, cta, pw) =>
      let log' := log_monetization writable monetization_log post_type
                    score_breakdown strategy (window pw) today in
      (html_block <- build_monetization_html_block score_breakdown strategy
                       cta pw ;;
       Ok {| md_score := total score_breakdown; md_strategy := strategy;
             md_cta := cta; md_pricing_window := pw;
             md_html_block := html_block |},
       log')
  end.

End WithClock.

End Monetization.

(** ** agents/analytics_agent.py *)

Module Analytics.

Section WithClock.

Variable fromisoformat : string -> option datetime.

(** The body of the inner [try] of [read_log] for one line: the record and
    whether it falls inside the window. *)
Definition read_line (cutoff : datetime) (line : log_line)
    : res (pyval * bool) :=
  rec <- json_loads line ;;
  tsv <- get rec "ts" (VStr "1970-01-01") ;;
  ts <- parse_ts fromisoformat tsv ;;
  Ok (rec, cutoff <=? ts).

Fixpoint read_loop (cutoff : datetime) (ls : list log_line) : list pyval :=
  match ls with
  | [] => []
  | line :: rest =>
      if is_blank line then read_loop cutoff rest
      else match read_line cutoff line with
           | Ok (rec, true) => rec :: read_loop cutoff rest
           | Ok (_, false) => read_loop cutoff rest
           | Raise _ => read_loop cutoff rest
           end
  end.

Definition read_log (f : file) (now : datetime) (days : Z) : list pyval :=
  match f with
  | None => []
  | Some ls => read_loop (now - days * day_us) ls
  end.

(** [[r for r in runs if r.get("status") == status]], as a count. *)
Fixpoint count_status (status : string) (runs : list pyval) : res Z :=
  match runs with
  | [] => Ok 0
  | r :: rest =>
      st <- get r "status" VNone ;;
      n <- count_status status rest ;;
      Ok (if eq_str st status then n + 1 else n)
  end.

(** The streak loop of [pipeline_metrics] over [reversed(runs)]. *)
Fixpoint metrics_streak_loop (rs : list pyval) (streak : Z) : res Z :=
  match rs with
  | [] => Ok streak
  | r :: rest =>
      st <- get r "status" VNone ;;
      if eq_str st "SUCCESS" then metrics_streak_loop rest (streak + 1)
      else Ok streak
  end.

(** [[r for r in runs if r.get("status") == status]] on dictionaries. *)
Fixpoint with_status (status : string) (runs : list pyval) : list pyval :=
  match runs with
  | [] => []
  | r :: rest =>
      match get r "status" VNone with
      | Ok st => if eq_str st status then r :: with_status status rest
                 else with_status status rest
      | Raise _ => with_status status rest
      end
  end.

(** *** The averages of [pipeline_metrics]

    The values are floating-point summaries; what is kept of them is
    whether computing them raises. *)

(** An integer converts to a float when it rounds to a finite double;
    beyond that Python raises OverflowError. *)
Definition DOUBLE_LIMIT : Z := 2 ^ 1024 - 2 ^ 970.

Definition fits_double (z : Z) : bool := Z.abs z <? DOUBLE_LIMIT.

(** The running total of [sum]: an exact integer until a float comes in. *)
Inductive total :=
| IntTotal (z : Z)
| FloatTotal.

(** [total + v] *)
Definition add_item (t : total) (v : pyval) : res total :=
  match v, t with
  | VBool b, IntTotal s => Ok (IntTotal (s + (if b then 1 else 0)))
  | VBool _, FloatTotal => Ok FloatTotal
  | VInt z, IntTotal s => Ok (IntTotal (s + z))
  | VInt z, FloatTotal => if fits_double z then Ok FloatTotal
                          else Raise OtherError
  | VFloat _, IntTotal s => if fits_double s then Ok FloatTotal
                            else Raise OtherError
  | VFloat _, FloatTotal => Ok FloatTotal
  | _, _ => Raise TypeError
  end.

(** [sum(values)], from 0. *)
Fixpoint sum_items (t : total) (values : list pyval) : res total :=
  match values with
  | [] => Ok t
  | v :: rest => t' <- add_item t v ;; sum_items t' rest
  end.

(** [round(sum(values) / len(values), n) if values else 0] *)
Definition mean_of (values : list pyval) : res unit :=
  match values with
  | [] => Ok tt
  | _ =>
      t <- sum_items (IntTotal 0) values ;;
      match t with
      | IntTotal s =>
          if Z.abs s <? DOUBLE_LIMIT * Z.of_nat (List.length values) then Ok tt
          else Raise OtherError
      | FloatTotal => Ok tt
      end
  end.

(** [Counter(values)]: lists and dictionaries do not hash. *)
Fixpoint count_values (values : list pyval) : res unit :=
  match values with
  | [] => Ok tt
  | (VList _ | VDict _) :: _ => Raise TypeError
  | _ :: rest => count_values rest
  end.

(** [r.get(k, default)] on a dictionary. *)
Definition field (k : string) (default : pyval) (r : pyval) : pyval :=
  match get r k default with
  | Ok v => v
  | Raise _ => default
  end.

(** The success rate, the average of [elapsed_s], the counter of post
    types, the average and range of the truthy gold prices and the average
    of [day_pct], over the successful runs. *)
Definition summaries (success : list pyval) : res unit :=
  _ <- mean_of (map (field "elapsed_s" (VInt 0)) success) ;;
  _ <- count_values (map (field "post_type" (VStr "unknown")) success) ;;
  _ <- mean_of (filter truthy (map (field "gold_price" (VInt 0)) success)) ;;
  mean_of (map (field "day_pct" (VInt 0)) success).

(** The counting fields of the dictionary [pipeline_metrics] returns; the
    averages it also reports are kept as [summaries]. *)
Record metrics := {
  m_total : Z;
  m_success : Z;
  m_failed : Z;
  m_halted : Z;
  m_dry_runs : Z;
  m_streak : Z
}.

Definition pipeline_metrics (run_log : file) (now : datetime) (days : Z)
    : res metrics :=
  let runs := read_log run_log now days in
  ok <- count_status "SUCCESS" runs ;;
  failed <- count_status "FAILED" runs ;;
  halted <- count_status "HALTED" runs ;;
  dry <- count_status "DRY_RUN" runs ;;
  _ <- summaries (with_status "SUCCESS" runs) ;;
  streak <- metrics_streak_loop (rev runs) 0 ;;
  Ok {| m_total := Z.of_nat (List.length runs); m_success := ok;
        m_failed := failed; m_halted := halted; m_dry_runs := dry;
        m_streak := streak |}.

End WithClock.

End Analytics.

(** ** Strings

    A string is a sequence of characters, one [ascii] per character; text
    beyond Latin-1 only occurs inside pieces that are passed around whole. *)

Module Str.

(** [str.isspace] on one character. *)
Definition is_space (c : ascii) : bool :=
  let n := nat_of_ascii c in
  ((9 <=? n) && (n <=? 13) || (28 <=? n) && (n <=? 32)
   || (n =? 133) || (n =? 160))%nat.

Fixpoint lstrip_chars (l : list ascii) : list ascii :=
  match l with
  | [] => []
  | c :: l' => if is_space c then lstrip_chars l' else l
  end.

(** [s.strip()] *)
Definition strip (s : string) : string :=
  string_of_list_ascii
    (rev (lstrip_chars (rev (lstrip_chars (list_ascii_of_string s))))).

Definition len (s : string) : Z := Z.of_nat (String.length s).

(** [s[:k]], with a negative [k] counting from the end. *)
Definition slice_to (s : string) (k : Z) : string :=
  let n := len s in
  let stop := if k <? 0 then Z.max 0 (n + k) else Z.min k n in
  substring 0 (Z.to_nat stop) s.

Fixpoint after_first_space (l : list ascii) : option (list ascii) :=
  match l with
  | [] => None
  | c :: l' => if Ascii.eqb c " " then Some l' else after_first_space l'
  end.

(** [s.rsplit(" ", 1)[0]]: what precedes the last space, or all of [s]. *)
Definition rsplit_head (s : string) : string :=
  match after_first_space (rev (list_ascii_of_string s)) with
  | Some l => string_of_list_ascii (rev l)
  | None => s
  end.

Definition nl : string := String "010" EmptyString.

(** [sep.join(parts)] *)
Fixpoint join (sep : string) (parts : list string) : string :=
  match parts with
  | [] => ""
  | [x] => x
  | x :: rest => x ++ sep ++ join sep rest
  end.

(** [s.startswith(p)] *)
Definition startswith (p s : string) : bool := String.prefix p s.

End Str.

(** ** agents/social_agent.py *)

Module Social.

Definition SITE_URL : string := "https://www.africagoldintelligence.com".
Definition NEWSLETTER_URL : string := "https://www.africagoldintelligence.com".

Section WithText.

(** The text around the link: the hook and hashtags of the tweet, the body
    of the LinkedIn post, the opening lines of the WhatsApp message, and
    [str(v)] for a value placed in an f-string.  Each may raise on market
    data it cannot format. *)
Variable _pick_hook : string -> pyval -> datetime -> res string.
Variable twitter_hashtags : string -> pyval -> res string.
Variable linkedin_body : string -> pyval -> datetime -> res string.
Variable whatsapp_head : string -> pyval -> datetime -> res (list string).
Variable py_str : pyval -> string.

(** The link every builder selects:
    real post URL, then slug-based URL, then the homepage. *)
Definition choose_link (slug : pyval) (resolved_url : option string) : string :=
  match resolved_url with
  | Some u =>
      if truthy (VStr u) then u
      else if truthy slug then SITE_URL ++ "/p/" ++ py_str slug
      else NEWSLETTER_URL
  | None =>
      if truthy slug then SITE_URL ++ "/p/" ++ py_str slug
      else NEWSLETTER_URL
  end.

Definition build_twitter_post (post_type : string) (data : pyval)
    (today : datetime) (slug : pyval) (resolved_url : option string)
    : res string :=
  hook <- _pick_hook post_type data today ;;
  hashtags <- twitter_hashtags post_type data ;;
  let link := choose_link slug resolved_url in
  let tail := Str.nl ++ Str.nl ++ link ++ Str.nl ++ Str.nl ++ hashtags in
  let post := hook ++ tail in
  if 280 <? Str.len post then
    let available := 280 - Str.len tail in
    let hook' := Str.rsplit_head (Str.slice_to hook (available - 3)) ++ "..." in
    Ok (hook' ++ tail)
  else Ok post.

Definition linkedin_hashtags : string :=
  "#Gold #XAU #AfricaGoldIntelligence #GoldInvesting #AfricanMarkets".

Definition build_linkedin_post (post_type : string) (data : pyval)
    (today : datetime) (slug : pyval) (resolved_url : option string)
    : res string :=
  let link := choose_link slug resolved_url in
  body <- linkedin_body post_type data today ;;
  Ok (body ++ "Read the full briefing → " ++ link
        ++ Str.nl ++ Str.nl ++ linkedin_hashtags).

Definition build_whatsapp_message (post_type : string) (data : pyval)
    (today : datetime) (slug : pyval) (resolved_url : option string)
    : res string :=
  let link := choose_link slug resolved_url in
  head <- whatsapp_head post_type data today ;;
  Ok (Str.join Str.nl
        (head ++ [ ""; "📖 Full briefing (free + premium):"; link; "";
                   "_Reply STOP to unsubscribe_" ])%list).

(** [post_url.strip() if post_url and post_url.strip() else None] *)
Definition resolve_url (post_url : pyval) : res (option string) :=
  if truthy post_url then
    match post_url with
    | VStr s => Ok (if truthy (VStr (Str.strip s)) then Some (Str.strip s)
                    else None)
    | _ => Raise AttributeError
    end
  else Ok None.

(** The three texts of the dictionary [run] returns; auto-posting and the
    social log do not change them. *)
Record social_data := {
  twitter : string;
  linkedin : string;
  whatsapp : string
}.

Definition run (post_type : string) (data : pyval) (today : datetime)
    (seo_data : pyval) (post_url : pyval) : res social_data :=
  slug <- (if truthy seo_data then get seo_data "slug" VNone else Ok VNone) ;;
  resolved_url <- resolve_url post_url ;;
  let _slug := match resolved_url with Some _ => slug | None => VNone end in
  tw <- build_twitter_post post_type data today _slug resolved_url ;;
  li <- build_linkedin_post post_type data today _slug resolved_url ;;
  wa <- build_whatsapp_message post_type data today _slug resolved_url ;;
  Ok {| twitter := tw; linkedin := li; whatsapp := wa |}.

End WithText.

End Social.

(** ** orchestrator.py *)

Module Orchestrator.

(** Module-level configuration read from the environment and [sys.argv]. *)
Record config := {
  NOTIFY_PASSWORD : string;
  DRY_RUN : bool;
  AUTO_PUBLISH : bool;
  PRINT_LOG : bool;
  _FORCE_POST_TYPE : option string;
  BEEHIIV_API_KEY : string
}.

Definition PUBLISH_TYPE (cfg : config) : string :=
  if AUTO_PUBLISH cfg then "instant" else "draft".

(** What a call into a collaborator module yields. *)
Inductive outcome (A : Type) :=
| Returned (a : A)
| Failed (e : exn) (msg : string).
Arguments Returned {A} a.
Arguments Failed {A} e msg.

Inductive collaborator :=
| MarketFetch
| AfricaIntelligence
| ContractTransparency
| ContentSynthesis
| SeoAgent
| BeehiivApi
| BeehiivBrowser
| LinkedInGenerator
| PartnershipAgent
| MonetizationAgent
| AnalyticsAgent.

Inductive mail :=
| FailureNotice (stage : string)
| DraftReady (post_id : pyval)
| FullBriefing (free_html premium_html : string).

(** One line written by [print_recent_logs]. *)
Inductive printed :=
| Row (icon : string) (ts status ptype price elapsed : pyval)
| Echo (line : log_line).

(** What [main] itself does, in order.  [Call c] is a call into the entry
    point of collaborator [c], with everything that module does on its own
    account: network traffic, its own log files and, for the analytics
    agent on a Sunday, the weekly report it mails.  [Smtp] is an SMTP
    attempt of [_send_email] in [orchestrator.py]: the notices [main] sends
    to the operator. *)
Inductive event :=
| Call (c : collaborator)
| CallSocial (seo_data post_url : pyval)
| Smtp (m : mail) (delivered : bool)
| Console (rows : list printed)
| Uncaught (e : exn)
| Exit (code : Z).

(** The counters of the closing record that are read off the Africa and
    contract payloads. *)
Record counters := {
  africa_miners : pyval;
  africa_headlines : pyval;
  africa_seasonal : pyval;
  pan_african_margin : pyval;
  contracts_tracked : pyval;
  royalty_gap_usd_m : pyval;
  shadow_tonnes : pyval;
  shadow_value_bn : pyval;
  nationalism_alerts : pyval;
  contract_headlines : pyval
}.

(** The collaborators of one run.  An enrichment stage is the body of one
    [try] statement; the environment fixes what that body meets.
    [fetch_fx_news] is the rest of the market [try] body after the checks on
    the gold quote (auxiliary quotes, the dictionary of FX rates, karat
    prices, news).
    Payloads have the shapes their producers return, and the counters the
    closing record derives from them are given with them.  The LinkedIn,
    social, partnership and analytics stages only feed the operator mail,
    so they appear in the trace alone, each as one call. *)
Record env := {
  now : datetime;
  weekday : Z;
  import_market_agent : option string;
  fetch_gold : pyval;
  fetch_silver : pyval;
  fetch_dxy : pyval;
  fetch_sp500 : pyval;
  fetch_btc : pyval;
  fetch_fx_news : outcome (list (string * pyval) * pyval * pyval);
  africa_run : outcome pyval;
  contract_run : outcome pyval;
  build_content : outcome (string * string);
  seo_run : outcome (pyval * string);
  preview : string;
  beehiiv_create_post : outcome pyval;
  import_beehiiv_browser : bool;
  publish_post : outcome pyval;
  monetization_run : outcome pyval;
  smtp_delivers : bool;
  elapsed_s : pyval;
  payload_counters : option pyval -> option pyval -> counters;
  outreach_drafts : pyval
}.

(** *** The run as a state computation *)

Record pstate := {
  run_log : file;
  trace : list event
}.

Inductive step (A : Type) :=
| Next (a : A)
| Stop.
Arguments Next {A} a.
Arguments Stop {A}.

Definition M (A : Type) := pstate -> step A * pstate.

Definition ret {A} (a : A) : M A := fun st => (Next a, st).

Definition bindM {A B} (c : M A) (k : A -> M B) : M B :=
  fun st =>
    match c st with
    | (Next a, st') => k a st'
    | (Stop, st') => (Stop, st')
    end.

Notation "x <~ c ;; k" := (bindM c (fun x => k))
  (at level 61, c at next level, right associativity).
Notation "c >> k" := (bindM c (fun _ => k))
  (at level 61, right associativity).

Definition emit (e : event) : M unit :=
  fun st => (Next tt, {| run_log := run_log st;
                         trace := (trace st ++ [e])%list |}).

(** [sys.exit(code)] *)
Definition exit {A} (code : Z) : M A :=
  fun st => (Stop, {| run_log := run_log st;
                      trace := (trace st ++ [Exit code])%list |}).

(** An exception no handler catches ends the interpreter with status 1. *)
Definition crash {A} (e : exn) : M A := emit (Uncaught e) >> exit 1.

Definition LABELLED_POST_TYPES : list string :=
  [ "trader_intelligence"; "africa_regional"; "aggregator"; "karat_pricing";
    "macro_outlook"; "educational"; "week_review" ].

(** [DAY_TYPES.get(today.weekday(), "aggregator")] *)
Definition DAY_TYPES (weekday : Z) : string :=
  match weekday with
  | 0 => "trader_intelligence"
  | 1 => "africa_regional"
  | 2 => "aggregator"
  | 3 => "karat_pricing"
  | 4 => "macro_outlook"
  | 5 => "educational"
  | 6 => "week_review"
  | _ => "aggregator"
  end.

Fixpoint mem_str (x : string) (l : list string) : bool :=
  match l with
  | [] => false
  | y :: l' => String.eqb x y || mem_str x l'
  end.

Section WithRuntime.

(** [datetime.isoformat], the float formatter behind [f"{x:spec}"],
    [str(e)] for an exception raised by the interpreter, [round(x, n)],
    and the edits of the free content by the SEO and monetization stages. *)
Variable isoformat : datetime -> string.
Variable fmt : string -> pyfloat -> string.
Variable str_exn : exn -> string.
Variable round_to : Z -> pyval -> pyval.
Variable inject_json_ld : string -> string -> string.
Variable splice_banner : string -> string -> string.

Variable cfg : config.
Variable world : env.

Definition format_num (spec : string) (v : pyval) : res string :=
  match num_of v with
  | Some x => Ok (fmt spec x)
  | None => Raise TypeError
  end.

(** [800 <= price <= 15000] *)
Definition in_band (price : pyval) : res bool :=
  lo <- ge price 800 ;;
  if lo then le price 15000 else Ok false.

Fixpoint missing_fx (fx : pyval) (codes : list string) : res (list string) :=
  match codes with
  | [] => Ok []
  | c :: rest =>
      r <- get fx c VNone ;;
      m <- missing_fx fx rest ;;
      Ok (if truthy r then m else c :: m)
  end.

Definition check_data_quality (data : pyval) : res (list string) :=
  gold <- get data "gold" (VDict []) ;;
  price <- get gold "price" (VInt 0) ;;
  ok <- in_band price ;;
  w_price <- (if ok then Ok []
              else p <- format_num ",.2f" price ;;
                   Ok [ "CRITICAL: Gold price $" ++ p
                        ++ " is outside expected range ($800–$15,000). "
                        ++ "Possible stale or corrupted data. Halting pipeline." ]) ;;
  raw <- get gold "day_chg_pct" VNone ;;
  pct <- abs (or_else raw (VInt 0)) ;;
  big <- gt pct 10 ;;
  w_pct <- (if big then
              p <- format_num ".1f" pct ;;
              Ok [ "WARNING: Daily gold move of " ++ p
                   ++ "% is unusually large (>10%). "
                   ++ "Verify market conditions before publishing." ]
            else Ok []) ;;
  fx <- get data "fx_rates" (VDict []) ;;
  missing <- missing_fx fx [ "ZAR"; "GHS"; "NGN"; "KES" ] ;;
  let w_fx := match missing with
              | [] => []
              | _ => [ "WARNING: FX rates missing for "
                       ++ Str.join ", " missing
                       ++ ". Fallback rates used in karat pricing table." ]
              end in
  news <- get data "news" VNone ;;
  let w_news :=
    if truthy news then []
    else [ "WARNING: No news headlines fetched. RSS feeds may be temporarily down." ] in
  Ok (w_price ++ w_pct ++ w_fx ++ w_news)%list.

(** [log_run]: append one record to the run log; the state holds the log
    as its readers see it (see [append_record]). *)
Definition log_run (status : string) (details : list (string * pyval))
    : M unit :=
  fun st =>
    (Next tt,
     {| run_log := append_record (run_log st)
                     (VDict (("ts", VStr (isoformat (now world)))
                             :: ("status", VStr status) :: details));
        trace := trace st |}).

Definition _send_email (m : mail) : M bool :=
  if negb (truthy (VStr (NOTIFY_PASSWORD cfg))) then ret false
  else emit (Smtp m (smtp_delivers world)) >> ret (smtp_delivers world).

Definition notify_failure (stage : string) : M unit :=
  _send_email (FailureNotice stage) >> ret tt.

Definition notify_draft_ready (post_id : pyval) : M unit :=
  _send_email (DraftReady post_id) >> ret tt.

Definition _send_briefing_email (free_html premium_html : string) : M unit :=
  _send_email (FullBriefing free_html premium_html) >> ret tt.

(** [r.get("ts", "?")[:19]] *)
Definition slice19 (v : pyval) : res pyval :=
  match v with
  | VStr s => Ok (VStr (substring 0 19 s))
  | VList l => Ok (VList (firstn 19 l))
  | _ => Raise TypeError
  end.

(** A value accepts the width specifications [<10] and [<22] when it is a
    string or a number. *)
Definition pads (v : pyval) : res unit :=
  match v with
  | VStr _ | VInt _ | VFloat _ | VBool _ => Ok tt
  | _ => Raise TypeError
  end.

Definition print_line (line : log_line) : printed :=
  try_except
    (r <- json_loads line ;;
     ts0 <- get r "ts" (VStr "?") ;;
     ts <- slice19 ts0 ;;
     status <- get r "status" (VStr "?") ;;
     ptype <- get r "post_type" (VStr "?") ;;
     price <- get r "gold_price" (VStr "?") ;;
     elapsed <- get r "elapsed_s" (VStr "?") ;;
     let icon := if eq_str status "SUCCESS" then "✅"
                 else if eq_str status "DRY_RUN" then "🔬" else "❌" in
     _ <- pads status ;;
     _ <- pads ptype ;;
     Ok (Row icon ts status ptype price elapsed))
    (Echo line).

(** [lines[-n:]] for [n >= 0]. *)
Definition last_lines {A} (n : nat) (lines : list A) : list A :=
  match n with
  | O => lines
  | _ => skipn (List.length lines - n) lines
  end.

Definition print_recent_logs (n : nat) : M unit :=
  fun st =>
    match run_log st with
    | None => emit (Console []) st
    | Some lines => emit (Console (map print_line (last_lines n lines))) st
    end.

(** *** The stages of [main] *)

Definition choose_post_type : string :=
  match _FORCE_POST_TYPE cfg with
  | Some f =>
      if truthy (VStr f) && mem_str f LABELLED_POST_TYPES then f
      else DAY_TYPES (weekday world)
  | None => DAY_TYPES (weekday world)
  end.

(** What the market stage hands on. *)
Record snapshot := {
  data : pyval;
  gold : pyval;
  g_price : pyval;
  g_pct : pyval;
  headlines : Z
}.

(** [len(v)] *)
Definition py_len (v : pyval) : res Z :=
  match v with
  | VList l => Ok (Z.of_nat (List.length l))
  | VDict d => Ok (Z.of_nat (List.length d))
  | VStr s => Ok (Str.len s)
  | _ => Raise TypeError
  end.

(** The [try] body of Agent 1. *)
Definition market_intelligence : outcome snapshot :=
  let gold := fetch_gold world in
  if negb (truthy gold) then
    Failed RuntimeError
      ("Gold price returned empty — Yahoo Finance may be throttled. "
       ++ "Try again in a few minutes.")
  else
    let checked :=
      g_price <- getitem gold "price" ;;
      g_pct <- get gold "day_chg_pct" (VInt 0) ;;
      _ <- ge g_pct 0 ;;
      _ <- format_num ",.2f" g_price ;;
      _ <- format_num ".2f" g_pct ;;
      Ok (g_price, g_pct) in
    match checked with
    | Raise e => Failed e (str_exn e)
    | Ok (g_price, g_pct) =>
        match fetch_fx_news world with
        | Failed e msg => Failed e msg
        | Returned (fx_rates, karat_prices, news) =>
            match py_len news with
            | Raise e => Failed e (str_exn e)
            | Ok n =>
                Returned
                  {| data := VDict [ ("gold", gold);
                                     ("silver", fetch_silver world);
                                     ("dxy", fetch_dxy world);
                                     ("sp500", fetch_sp500 world);
                                     ("btc", fetch_btc world);
                                     ("fx_rates", VDict fx_rates);
                                     ("karat_prices", karat_prices);
                                     ("news", news) ];
                     gold := gold; g_price := g_price; g_pct := g_pct;
                     headlines := n |}
            end
        end
    end.

(** A fatal stage: FAILED record, failure notice, exit status 1. *)
Definition fail_stage {A} (stage error : string) : M A :=
  log_run "FAILED" [ ("stage", VStr stage); ("error", VStr error) ] >>
  notify_failure stage >>
  exit 1.

(** The quality gate: returns the warnings, or halts. *)
Definition anomaly_detection (snap : snapshot) : M (list string) :=
  match check_data_quality (data snap) with
  | Raise e => crash e
  | Ok warnings =>
      match filter (Str.startswith "CRITICAL") warnings with
      | [] => ret warnings
      | _ :: _ =>
          log_run "HALTED" [ ("stage", VStr "anomaly_detection");
                             ("gold_price", g_price snap);
                             ("warnings", VList (map VStr warnings)) ] >>
          notify_failure "anomaly_detection" >>
          exit 1
      end
  end.

(** A best-effort enrichment stage: the payload, or [None] on any error. *)
Definition enrich (c : collaborator) (o : outcome pyval) : M (option pyval) :=
  emit (Call c) >>
  ret (match o with Returned v => Some v | Failed _ _ => None end).

Definition content_synthesis : M (string * string) :=
  emit (Call ContentSynthesis) >>
  match build_content world with
  | Returned htmls => ret htmls
  | Failed e msg => fail_stage "content_synthesis" msg
  end.

Definition seo_default : pyval :=
  VDict [ ("slug", VNone);
          ("tags", VList [ VStr "gold"; VStr "africa"; VStr "markets" ]);
          ("meta_description", VStr (preview world));
          ("internal_links", VList []) ].

(** SEO stage: the metadata and the free content with JSON-LD added. *)
Definition seo (free_html : string) : M (pyval * string) :=
  emit (Call SeoAgent) >>
  ret (match seo_run world with
       | Returned (seo_data, json_ld) =>
           (seo_data, inject_json_ld free_html json_ld)
       | Failed _ _ => (seo_default, free_html)
       end).

Definition dry_run (snap : snapshot) (post_type : string)
    (warnings : list string) : M unit :=
  emit (Call LinkedInGenerator) >>
  log_run "DRY_RUN" [ ("post_type", VStr post_type);
                      ("gold_price", round_to 2 (g_price snap));
                      ("day_pct", round_to 2 (g_pct snap));
                      ("elapsed_s", elapsed_s world);
                      ("warnings", VList (map VStr warnings)) ].

(** What the distribution chain leaves behind. *)
Record delivery := {
  post_id : pyval;
  post_url : pyval;
  beehiiv_ok : bool
}.

Definition no_delivery : delivery :=
  {| post_id := VNone; post_url := VStr ""; beehiiv_ok := false |}.

(** Method 1: the Beehiiv API. *)
Definition api_channel : M delivery :=
  if negb (truthy (VStr (BEEHIIV_API_KEY cfg))) then ret no_delivery
  else
    emit (Call BeehiivApi) >>
    match beehiiv_create_post world with
    | Failed _ _ => ret no_delivery
    | Returned result =>
        match (d <- get result "data" (VDict []) ;;
               id <- get d "id" (VStr "unknown") ;;
               url <- get d "web_url" (VStr "") ;;
               Ok (id, url)) with
        | Ok (id, url) =>
            ret {| post_id := id; post_url := url; beehiiv_ok := true |}
        | Raise _ => ret no_delivery
        end
    end.

(** Method 2: browser automation, only when method 1 did not succeed. *)
Definition browser_channel (d : delivery) : M delivery :=
  if beehiiv_ok d then ret d
  else if negb (import_beehiiv_browser world) then ret d
  else
    emit (Call BeehiivBrowser) >>
    match publish_post world with
    | Failed _ _ => ret d
    | Returned br_result =>
        match (id <- get br_result "post_id" (VStr "browser-post") ;;
               url <- get br_result "post_url" (VStr "") ;;
               Ok (id, url)) with
        | Ok (id, url) =>
            ret {| post_id := id; post_url := url; beehiiv_ok := true |}
        | Raise _ => ret d
        end
    end.

Definition distribution : M delivery :=
  d <~ api_channel ;;
  browser_channel d.

Definition social (seo_data : pyval) (d : delivery) : M unit :=
  emit (CallSocial seo_data (post_url d)).

Definition monetization_default : list (string * pyval) :=
  [ ("score", VInt 0); ("strategy", VStr "none"); ("cta", VDict []);
    ("html_block", VStr "") ].

(** The [try] body of Agent 7: the banner named by the payload is spliced
    into the free content. *)
Definition monetization_body (free_html : string) (v : pyval)
    : res (list (string * pyval) * string) :=
  cta <- get v "cta" (VDict []) ;;
  banner <- get cta "in_post_banner" (VStr "") ;;
  match v with
  | VDict md =>
      if truthy banner then
        match banner with
        | VStr b => Ok (md, splice_banner free_html b)
        | _ => Raise TypeError
        end
      else Ok (md, free_html)
  | _ => Raise AttributeError
  end.

Definition monetization (free_html : string)
    : M (list (string * pyval) * string) :=
  emit (Call MonetizationAgent) >>
  ret (match monetization_run world with
       | Returned v =>
           try_except (monetization_body free_html v)
                      (monetization_default, free_html)
       | Failed _ _ => (monetization_default, free_html)
       end).

Definition dict_get (d : list (string * pyval)) (k : string) (default : pyval)
    : pyval :=
  match lookup k d with
  | Some v => v
  | None => default
  end.

(** The closing record of a run that reached the oversight gate. *)
Definition success_details (snap : snapshot) (post_type : string)
    (warnings : list string) (africa_data contract_data : option pyval)
    (d : delivery) (monetization_data : list (string * pyval))
    : list (string * pyval) :=
  ([ ("post_type", VStr post_type);
     ("post_id", or_else (post_id d) (VStr "email-delivery"));
     ("post_url", or_else (post_url d) (VStr ""));
     ("gold_price", round_to 2 (g_price snap));
     ("day_pct", round_to 2 (g_pct snap));
     ("headlines", VInt (headlines snap)) ]
   ++ (let c := payload_counters world africa_data contract_data in
       [ ("africa_miners", africa_miners c);
         ("africa_headlines", africa_headlines c);
         ("africa_seasonal", africa_seasonal c);
         ("pan_african_margin", pan_african_margin c);
         ("contracts_tracked", contracts_tracked c);
         ("royalty_gap_usd_m", royalty_gap_usd_m c);
         ("shadow_tonnes", shadow_tonnes c);
         ("shadow_value_bn", shadow_value_bn c);
         ("nationalism_alerts", nationalism_alerts c);
         ("contract_headlines", contract_headlines c) ])
   ++ [ ("warnings", VList (map VStr warnings));
        ("elapsed_s", elapsed_s world);
        ("beehiiv_used", VBool (beehiiv_ok d));
        ("publish_type",
         VStr (if beehiiv_ok d then PUBLISH_TYPE cfg else "email-fallback"));
        ("outreach_drafts", outreach_drafts world);
        ("upsell_score", dict_get monetization_data "score" (VInt 0));
        ("upsell_strategy",
         dict_get monetization_data "strategy" (VStr "none")) ])%list.

(** Everything after the SEO stage of a live run. *)
Definition live_run (snap : snapshot) (post_type : string)
    (warnings : list string) (africa_data contract_data : option pyval)
    (seo_data : pyval) (free_html premium_html : string) : M unit :=
  d <~ distribution ;;
  emit (Call LinkedInGenerator) >>
  social seo_data d >>
  emit (Call PartnershipAgent) >>
  m <~ monetization free_html ;;
  emit (Call AnalyticsAgent) >>
  (if beehiiv_ok d then notify_draft_ready (post_id d)
   else _send_briefing_email (snd m) premium_html) >>
  log_run "SUCCESS"
    (success_details snap post_type warnings africa_data contract_data d
       (fst m)).

Definition pipeline (snap : snapshot) (post_type : string) : M unit :=
  warnings <~ anomaly_detection snap ;;
  africa_data <~ enrich AfricaIntelligence (africa_run world) ;;
  contract_data <~ enrich ContractTransparency (contract_run world) ;;
  htmls <~ content_synthesis ;;
  s <~ seo (fst htmls) ;;
  if DRY_RUN cfg then dry_run snap post_type warnings
  else live_run snap post_type warnings africa_data contract_data
         (fst s) (snd s) (snd htmls).

Definition main : M unit :=
  if PRINT_LOG cfg then print_recent_logs 10
  else
    match import_market_agent world with
    | Some msg => fail_stage "import" msg
    | None =>
        emit (Call MarketFetch) >>
        match market_intelligence with
        | Failed _ msg => fail_stage "market_intelligence" msg
        | Returned snap => pipeline snap choose_post_type
        end
    end.

End WithRuntime.

(** What [_send_email] adds to the trace: one SMTP attempt when a
    password is configured, nothing otherwise. *)
Definition mail_trace (cfg : config) (world : env) (m : mail) : list event :=
  if truthy (VStr (NOTIFY_PASSWORD cfg)) then [Smtp m (smtp_delivers world)]
  else [].

(** The state before a run: the log as found on disk, nothing traced. *)
Definition boot (log : file) : pstate := {| run_log := log; trace := [] |}.

Definition field_of (k : string) (line : log_line) : option pyval :=
  match line with
  | Json (VDict d) => lookup k d
  | _ => None
  end.

(** The [status] field of every line of a log. *)
Definition statuses (f : file) : list (option pyval) :=
  match f with
  | None => []
  | Some ls => map (field_of "status") ls
  end.

End Orchestrator.

(** ** Vocabulary of the properties *)

Module Spec.

(** A run record counts as a success when the streak loops say so. *)
Definition is_success (r : pyval) : bool :=
  match get r "status" VNone with
  | Ok st => eq_str st "SUCCESS"
  | Raise _ => false
  end.

(** [n] is the length of the longest suffix of [recs] made of successes
    only: the suffix is all SUCCESS and the record just before it, when
    there is one, is not. *)
Definition max_success_suffix (recs : list pyval) (n : Z) : Prop :=
  exists pre suf,
    recs = (pre ++ suf)%list
    /\ Forall (fun r => is_success r = true) suf
    /\ (pre = [] \/ exists pre' r, pre = (pre' ++ [r])%list
                                   /\ is_success r = false)
    /\ n = Z.of_nat (List.length suf).

(** The lines of a log whose records are the dictionaries [recs]. *)
Definition lines_of (recs : list (list (string * pyval))) : list log_line :=
  map (fun d => Json (VDict d)) recs.

(** One call of [log_monetization]. *)
Record logged_call := {
  lc_writable : bool;
  lc_post_type : string;
  lc_scores : Monetization.scores;
  lc_strategy : string;
  lc_window : string;
  lc_today : datetime
}.

(** The monetization log after the given calls, oldest first. *)
Definition replay (isoformat : datetime -> string) (calls : list logged_call)
    (start : file) : file :=
  fold_left
    (fun f c =>
       Monetization.log_monetization isoformat (lc_writable c) f
         (lc_post_type c) (lc_scores c) (lc_strategy c) (lc_window c)
         (lc_today c))
    calls start.

(** A record carries the promo tag under any of the names the logs use. *)
Definition tagged_promo (rec : pyval) : bool :=
  match rec with
  | VDict d =>
      match lookup "upsell_strategy" d, lookup "strategy" d,
            lookup "upsell_type" d with
      | Some a, _, _ => eq_str a "promo"
      | None, Some b, _ => eq_str b "promo"
      | None, None, Some c => eq_str c "promo"
      | None, None, None => false
      end
  | _ => false
  end.

(** The log holds a promo record stamped fewer than the cooldown ago. *)
Definition recent_promo (fromisoformat : string -> option datetime)
    (log : file) (now : datetime) : bool :=
  match log with
  | None => false
  | Some ls =>
      existsb
        (fun line =>
           match line with
           | Json rec =>
               tagged_promo rec
               && match (tsv <- getitem rec "ts" ;; parse_ts fromisoformat tsv)
                  with
                  | Ok t => (0 <=? timedelta_days (now - t))
                            && (timedelta_days (now - t)
                                <? Monetization.PROMO_COOLDOWN_DAYS)
                  | Raise _ => false
                  end
           | _ => false
           end)
        ls
  end.

(** A line as [log_monetization] writes it: a dictionary whose
    [upsell_type] is one of the three values the writer can produce. *)
Definition written_by_log_monetization (line : log_line) : bool :=
  match line with
  | Json (VDict d) =>
      match lookup "upsell_type" d with
      | Some (VStr u) =>
          String.eqb u "hard_upsell" || String.eqb u "promo"
          || String.eqb u "soft"
      | _ => false
      end
  | _ => false
  end.

(** The strategy ladder with the hard-upsell cooldown test left out. *)
Definition ladder_without_hard_cooldown (days_since_promo score : Z) : string :=
  if (80 <=? score) && (Monetization.PROMO_COOLDOWN_DAYS <=? days_since_promo)
  then "promo"
  else if 65 <=? score then "hard_upsell"
  else if 45 <=? score then "soft_upsell"
  else if 25 <=? score then "value_reminder"
  else "none".

(** The record [d] has [upsell_type == ut], as the cooldown scan tests it. *)
Definition has_upsell_type (ut : string) (d : list (string * pyval)) : bool :=
  match get (VDict d) "upsell_type" VNone with
  | Ok v => eq_str v ut
  | Raise _ => false
  end.

Definition absent_or (ok : pyval -> bool) (o : option pyval) : bool :=
  match o with
  | None => true
  | Some v => ok v
  end.

Definition num_or_none (v : pyval) : bool :=
  match v with
  | VNone => true
  | _ => is_num v
  end.

(** Gold fields that are numeric, None or absent. *)
Definition gold_fields_loose (g : list (string * pyval)) : bool :=
  absent_or num_or_none (lookup "price" g)
  && absent_or num_or_none (lookup "day_chg_pct" g)
  && absent_or num_or_none (lookup "rsi" g).

(** The same, with a price that is numeric or absent. *)
Definition gold_fields_priced (g : list (string * pyval)) : bool :=
  absent_or is_num (lookup "price" g)
  && absent_or num_or_none (lookup "day_chg_pct" g)
  && absent_or num_or_none (lookup "rsi" g).

(** [data] is a dictionary whose [gold] entry is absent or a dictionary
    accepted by [ok]. *)
Definition gold_of_snapshot (ok : list (string * pyval) -> bool)
    (data : pyval) : bool :=
  match data with
  | VDict d =>
      match lookup "gold" d with
      | None => true
      | Some (VDict g) => ok g
      | Some _ => false
      end
  | _ => false
  end.

(** The published-post locator is absent: None, empty or blank. *)
Definition locator_absent (post_url : pyval) : bool :=
  match post_url with
  | VNone => true
  | VStr s => String.eqb (Str.strip s) ""
  | _ => false
  end.

(** SEO metadata from which a slug can be read: nothing, or a dictionary. *)
Definition seo_readable (seo_data : pyval) : bool :=
  match seo_data with
  | VDict _ => true
  | v => negb (truthy v)
  end.

(** The price the quality gate reads: [gold.price], 0 when missing. *)
Definition snapshot_price (data : pyval) : pyval :=
  match data with
  | VDict d =>
      match lookup "gold" d with
      | Some (VDict g) =>
          match lookup "price" g with Some p => p | None => VInt 0 end
      | _ => VInt 0
      end
  | _ => VInt 0
  end.

(** A number that is not within [800, 15000]. *)
Definition outside_band (price : pyval) : bool :=
  match num_of price with
  | Some (Fin q) => negb (Qle_bool 800 q && Qle_bool q 15000)
  | Some _ => true
  | None => false
  end.

(** A snapshot of the shape the market stage builds: [gold] absent or a
    dictionary with a numeric or absent price and a day change that is
    numeric, None or absent; [fx_rates] absent or a dictionary. *)
Definition snapshot_typed (data : pyval) : bool :=
  match data with
  | VDict d =>
      match lookup "gold" d with
      | None => true
      | Some (VDict g) =>
          absent_or is_num (lookup "price" g)
          && absent_or num_or_none (lookup "day_chg_pct" g)
      | Some _ => false
      end
      && match lookup "fx_rates" d with
         | None | Some (VDict _) => true
         | Some _ => false
         end
  | _ => false
  end.

Definition is_critical : string -> bool := Str.startswith "CRITICAL".

Section Runs.

Import Orchestrator.

Variable fmt : string -> pyfloat -> string.
Variable str_exn : exn -> string.
Variable inject_json_ld : string -> string -> string.
Variable cfg : config.
Variable world : env.

(** The run is a live run that reaches the distribution stage: the market
    stage hands on [snap], the quality gate returns [warnings] with no
    CRITICAL among them, and content synthesis returns the two bodies. *)
Definition reaches_distribution (snap : snapshot) (warnings : list string)
    (free_html premium_html : string) : Prop :=
  PRINT_LOG cfg = false
  /\ DRY_RUN cfg = false
  /\ import_market_agent world = None
  /\ market_intelligence fmt str_exn world = Returned snap
  /\ check_data_quality fmt (data snap) = Ok warnings
  /\ filter is_critical warnings = []
  /\ build_content world = Returned (free_html, premium_html).

(** The API is not there: no key, or the call raises. *)
Definition api_unavailable : Prop :=
  BEEHIIV_API_KEY cfg = ""
  \/ exists e msg, beehiiv_create_post world = Failed e msg.

(** Browser automation is not there: module missing, or the call raises. *)
Definition browser_unavailable : Prop :=
  import_beehiiv_browser world = false
  \/ exists e msg, publish_post world = Failed e msg.

(** The mail does not go out: no password, or SMTP fails. *)
Definition mail_undelivered : Prop :=
  NOTIFY_PASSWORD cfg = "" \/ smtp_delivers world = false.

(** The SEO metadata and free content as they leave the SEO stage. *)
Definition after_seo (free_html : string) : pyval * string :=
  match seo_run world with
  | Returned (seo_data, json_ld) => (seo_data, inject_json_ld free_html json_ld)
  | Failed _ _ => (seo_default world, free_html)
  end.

(** The payloads of the two optional intelligence stages. *)
Definition payload (o : outcome pyval) : option pyval :=
  match o with
  | Returned v => Some v
  | Failed _ _ => None
  end.

(** The channel calls of a run in which neither channel delivers. *)
Definition attempted_channels : list event :=
  ((if truthy (VStr (BEEHIIV_API_KEY cfg)) then [Call BeehiivApi] else [])
   ++ (if import_beehiiv_browser world then [Call BeehiivBrowser] else []))%list.

(** The trace up to the distribution stage. *)
Definition trace_before_distribution : list event :=
  [ Call MarketFetch; Call AfricaIntelligence; Call ContractTransparency;
    Call ContentSynthesis; Call SeoAgent ].

(** The trace between distribution and the operator mail. *)
Definition trace_after_distribution (seo_data post_url : pyval) : list event :=
  [ Call LinkedInGenerator; CallSocial seo_data post_url;
    Call PartnershipAgent; Call MonetizationAgent; Call AnalyticsAgent ].

End Runs.

(** A string-valued entry of a dictionary, with the default of [get]. *)
Definition dict_str (d : list (string * pyval)) (k default : string)
    : option string :=
  match lookup k d with
  | Some (VStr s) => Some s
  | Some _ => None
  | None => Some default
  end.

End Spec.

(** ** Further vocabulary *)

Module Notions.

(** The rung of a strategy on the ladder, "none" and anything else at 0. *)
Definition rank (strategy : string) : Z :=
  if String.eqb strategy "promo" then 4
  else if String.eqb strategy "hard_upsell" then 3
  else if String.eqb strategy "soft_upsell" then 2
  else if String.eqb strategy "value_reminder" then 1
  else 0.

(** The volatility points of an absolute day change. *)
Definition volatility_points (pct_abs : pyfloat) : Z :=
  if fle (Fin 3) pct_abs then 30
  else if fle (Fin 2) pct_abs then 22
  else if fle (Fin 1) pct_abs then 14
  else 5.

Definition is_call (e : Orchestrator.event) : bool :=
  match e with
  | Orchestrator.Call _ | Orchestrator.CallSocial _ _ => true
  | _ => false
  end.

(** A notice [main] sends through [_send_email]. *)
Definition is_mail (e : Orchestrator.event) : bool :=
  match e with
  | Orchestrator.Smtp _ _ => true
  | _ => false
  end.

(** The collaborators that publish. *)
Definition is_publish (e : Orchestrator.event) : bool :=
  match e with
  | Orchestrator.Call Orchestrator.BeehiivApi
  | Orchestrator.Call Orchestrator.BeehiivBrowser => true
  | _ => false
  end.

(** The statuses after which [main] leaves through [sys.exit(1)]. *)
Definition stops (status : string) : bool :=
  String.eqb status "FAILED" || String.eqb status "HALTED".

(** The notices [main] sends through [_send_email], in order. *)
Definition mails_of (tr : list Orchestrator.event) : list Orchestrator.event :=
  filter is_mail tr.

(** What puts the briefing in front of someone: a publishing channel, the
    social stage, or a mail carrying the draft or the briefing. *)
Definition is_release (e : Orchestrator.event) : bool :=
  match e with
  | Orchestrator.Call Orchestrator.BeehiivApi
  | Orchestrator.Call Orchestrator.BeehiivBrowser
  | Orchestrator.CallSocial _ _
  | Orchestrator.Smtp (Orchestrator.DraftReady _) _
  | Orchestrator.Smtp (Orchestrator.FullBriefing _ _) _ => true
  | _ => false
  end.

Definition is_exit (e : Orchestrator.event) : bool :=
  match e with
  | Orchestrator.Exit _ => true
  | _ => false
  end.

(** A gold quote the market stage cannot use: empty, without a price, or
    with a price that is not a number. *)
Definition gold_unusable (gold : pyval) : bool :=
  negb (truthy gold)
  || match getitem gold "price" with
     | Ok p => negb (is_num p)
     | Raise _ => true
     end.

(** [lines[-10:]] of a log, nothing when the file is absent. *)
Definition last_ten (log : file) : list log_line :=
  match log with
  | None => []
  | Some lines => skipn (List.length lines - 10) lines
  end.

(** The lines of a log, none when the file is absent. *)
Definition lines_in (f : file) : list log_line :=
  match f with
  | None => []
  | Some ls => ls
  end.

(** The values the lines of a log decode to, in file order. *)
Fixpoint decoded (ls : list log_line) : list pyval :=
  match ls with
  | [] => []
  | Json v :: rest => v :: decoded rest
  | _ :: rest => decoded rest
  end.

(** A dictionary whose [ts] (1970-01-01 when missing) parses to an instant
    not before [cutoff]. *)
Definition in_window (fromisoformat : string -> option datetime)
    (cutoff : datetime) (r : pyval) : bool :=
  match r with
  | VDict d =>
      match parse_ts fromisoformat
              (match lookup "ts" d with
               | Some v => v
               | None => VStr "1970-01-01"
               end) with
      | Ok ts => cutoff <=? ts
      | Raise _ => false
      end
  | _ => false
  end.

Definition is_dict (r : pyval) : bool :=
  match r with
  | VDict _ => true
  | _ => false
  end.

(** The record's [status] equals [status]. *)
Definition has_status (status : string) (r : pyval) : bool :=
  match get r "status" VNone with
  | Ok st => eq_str st status
  | Raise _ => false
  end.

Definition count_of (status : string) (runs : list pyval) : Z :=
  Z.of_nat (List.length (filter (has_status status) runs)).

(** The four statuses a run record can carry. *)
Definition run_statuses : list string :=
  [ "SUCCESS"; "FAILED"; "HALTED"; "DRY_RUN" ].

(** [fx.get(c)] on the dictionary of FX rates. *)
Definition fx_get (f : list (string * pyval)) (c : string) : pyval :=
  match lookup c f with Some x => x | None => VNone end.

(** A required FX rate is present and truthy. *)
Definition fx_present (data : pyval) (code : string) : bool :=
  match get data "fx_rates" (VDict []) with
  | Ok fx => match get fx code VNone with
             | Ok r => truthy r
             | Raise _ => false
             end
  | Raise _ => false
  end.

(** The absolute day change the quality check compares with 10. *)
Definition snapshot_swing (data : pyval) : pyval :=
  match (gold <- get data "gold" (VDict []) ;;
         raw <- get gold "day_chg_pct" VNone ;;
         abs (or_else raw (VInt 0))) with
  | Ok pct => pct
  | Raise _ => VInt 0
  end.

(** Nothing to report: price in band, swing at most 10, the four FX rates
    there, news there. *)
Definition snapshot_clean (data : pyval) : bool :=
  negb (Spec.outside_band (Spec.snapshot_price data))
  && match gt (snapshot_swing data) 10 with
     | Ok big => negb big
     | Raise _ => false
     end
  && fx_present data "ZAR" && fx_present data "GHS"
  && fx_present data "NGN" && fx_present data "KES"
  && match get data "news" VNone with
     | Ok news => truthy news
     | Raise _ => false
     end.

End Notions.

(** ** Concrete clock and inputs used in worked examples *)

Module Examples.

Definition digit_of (c : ascii) : option Z :=
  let n := Z.of_nat (nat_of_ascii c) in
  if (48 <=? n) && (n <=? 57) then Some (n - 48) else None.

Fixpoint digits_acc (s : string) (acc : Z) : option Z :=
  match s with
  | EmptyString => Some acc
  | String c s' =>
      match digit_of c with
      | Some d => digits_acc s' (10 * acc + d)
      | None => None
      end
  end.

Definition number (s : string) : option Z :=
  match s with
  | EmptyString => None
  | _ => digits_acc s 0
  end.

(** Days from 1970-01-01 to the given civil date. *)
Definition days_from_civil (y m d : Z) : Z :=
  let y' := if m <=? 2 then y - 1 else y in
  let era := y' / 400 in
  let yoe := y' - era * 400 in
  let mp := (m + 9) mod 12 in
  let doy := (153 * mp + 2) / 5 + d - 1 in
  let doe := yoe * 365 + yoe / 4 - yoe / 100 + doy in
  era * 146097 + doe - 719468.

Definition char_at (i : nat) (c : ascii) (s : string) : bool :=
  match String.get i s with
  | Some c' => Ascii.eqb c c'
  | None => false
  end.

(** A parser for the two shapes the logs hold: [YYYY-MM-DD] and
    [YYYY-MM-DDTHH:MM:SS]; anything else is refused. *)
Definition iso (s : string) : option datetime :=
  match number (substring 0 4 s), number (substring 5 2 s),
        number (substring 8 2 s) with
  | Some y, Some m, Some d =>
      let day := days_from_civil y m d * day_us in
      if negb (char_at 4 "-" s && char_at 7 "-" s
               && (1 <=? m) && (m <=? 12) && (1 <=? d) && (d <=? 31))
      then None
      else if (String.length s =? 10)%nat then Some day
      else if (String.length s =? 19)%nat
              && char_at 13 ":" s && char_at 16 ":" s then
        match number (substring 11 2 s), number (substring 14 2 s),
              number (substring 17 2 s) with
        | Some hh, Some mm, Some ss =>
            if (hh <? 24) && (mm <? 60) && (ss <? 60) then
              Some (day + ((hh * 60 + mm) * 60 + ss) * 1000000)
            else None
        | _, _, _ => None
        end
      else None
  | _, _, _ => None
  end.

(** The double nearest to 2.1, as the rational it denotes. *)
Definition float_2_1 : Q := 4728779608739021 # 2251799813685248.

Definition snapshot_c4 : pyval :=
  VDict [ ("gold", VDict [ ("price", VFloat (Fin 2950));
                           ("day_chg_pct", VFloat (Fin float_2_1));
                           ("rsi", VInt 72) ]) ].

Definition run_record (ts status : string) : pyval :=
  VDict [ ("ts", VStr ts); ("status", VStr status) ].

(** The history S, S, S, F, S, oldest first. *)
Definition history_sssfs : list pyval :=
  [ run_record "2026-03-01T06:00:00" "SUCCESS";
    run_record "2026-03-02T06:00:00" "SUCCESS";
    run_record "2026-03-03T06:00:00" "SUCCESS";
    run_record "2026-03-04T06:00:00" "FAILED";
    run_record "2026-03-05T06:00:00" "SUCCESS" ].

(** 2026-03-05 07:00, one hour after the newest record of the history. *)
Definition now_march : datetime := 1772694000000000.

(** A run log of two successes around a line cut short while written. *)
Definition run_log_damaged : list log_line :=
  [ Json (run_record "2026-03-03T06:00:00" "SUCCESS");
    Corrupt "{ts: 2026-03-04T06:00:00, sta";
    Json (run_record "2026-03-05T06:00:00" "SUCCESS") ].

(** A run log whose newest record, one day old, carries the promo tag. *)
Definition run_log_promo : file :=
  Some [ Json (VDict [ ("ts", VStr "2026-03-04T06:00:00");
                       ("status", VStr "SUCCESS");
                       ("upsell_score", VInt 85);
                       ("upsell_strategy", VStr "promo");
                       ("strategy", VStr "promo");
                       ("upsell_type", VStr "promo") ]) ].

(** A monetization log with a promo record one day old. *)
Definition monetization_log_promo : list (string * pyval) :=
  [ ("ts", VStr "2026-03-04T06:00:00"); ("post_type", VStr "macro_outlook");
    ("score", VInt 85); ("strategy", VStr "promo");
    ("upsell_type", VStr "promo"); ("pricing_window", VStr "NOW") ].

(** Stand-ins for the runtime services of the orchestrator; the records
    and traces compared below do not depend on the text they render. *)
Definition stamp (t : datetime) : string := "2026-03-05T06:00:00".
Definition plain_fmt (spec : string) (x : pyfloat) : string := "#".
Definition plain_exn (e : exn) : string := "error".
Definition keep (digits : Z) (v : pyval) : pyval := v.
Definition append_html (html extra : string) : string := html ++ extra.

Definition quote (price : Q) : pyval :=
  VDict [ ("price", VFloat (Fin price)); ("prev", VFloat (Fin price));
          ("day_chg", VFloat (Fin 0)); ("day_chg_pct", VFloat (Fin (1 # 2)));
          ("week_chg_pct", VFloat (Fin 1)); ("rsi", VFloat (Fin 55)) ].

Definition fx_table : list (string * pyval) :=
  [ ("ZAR", VFloat (Fin 16)); ("GHS", VFloat (Fin 11));
    ("NGN", VFloat (Fin 1344)); ("KES", VFloat (Fin 129));
    ("EGP", VFloat (Fin 48)); ("MAD", VFloat (Fin 9)) ].

Definition headlines_list : pyval :=
  VList [ VDict [ ("source", VStr "Reuters");
                  ("title", VStr "Gold steadies") ] ].

Definition zero_counters : Orchestrator.counters :=
  {| Orchestrator.africa_miners := VInt 0;
     Orchestrator.africa_headlines := VInt 0;
     Orchestrator.africa_seasonal := VInt 0;
     Orchestrator.pan_african_margin := VInt 0;
     Orchestrator.contracts_tracked := VInt 0;
     Orchestrator.royalty_gap_usd_m := VFloat (Fin 0);
     Orchestrator.shadow_tonnes := VInt 0;
     Orchestrator.shadow_value_bn := VInt 0;
     Orchestrator.nationalism_alerts := VInt 0;
     Orchestrator.contract_headlines := VInt 0 |}.

(** A Thursday run with the given gold price and channel behaviour; the
    optional agents are not installed. *)
Definition world_with (price : Q) (api browser : Orchestrator.outcome pyval)
    : Orchestrator.env :=
  {| Orchestrator.now := now_march;
     Orchestrator.weekday := 3;
     Orchestrator.import_market_agent := None;
     Orchestrator.fetch_gold := quote price;
     Orchestrator.fetch_silver := quote 33;
     Orchestrator.fetch_dxy := quote 98;
     Orchestrator.fetch_sp500 := quote 5600;
     Orchestrator.fetch_btc := quote 90000;
     Orchestrator.fetch_fx_news :=
       Orchestrator.Returned (fx_table, VDict [], headlines_list);
     Orchestrator.africa_run := Orchestrator.Failed ImportError "not found";
     Orchestrator.contract_run := Orchestrator.Failed ImportError "not found";
     Orchestrator.build_content :=
       Orchestrator.Returned ("<div>free</div>", "<div>premium</div>");
     Orchestrator.seo_run := Orchestrator.Failed ImportError "not found";
     Orchestrator.preview := "Gold today.";
     Orchestrator.beehiiv_create_post := api;
     Orchestrator.import_beehiiv_browser := true;
     Orchestrator.publish_post := browser;
     Orchestrator.monetization_run :=
       Orchestrator.Failed ImportError "not found";
     Orchestrator.smtp_delivers := true;
     Orchestrator.elapsed_s := VFloat (Fin 12);
     Orchestrator.payload_counters := fun _ _ => zero_counters;
     Orchestrator.outreach_drafts := VInt 0 |}.

(** A draft-mode configuration with the given mail password and API key. *)
Definition cfg_with (password key : string) : Orchestrator.config :=
  {| Orchestrator.NOTIFY_PASSWORD := password;
     Orchestrator.DRY_RUN := false;
     Orchestrator.AUTO_PUBLISH := false;
     Orchestrator.PRINT_LOG := false;
     Orchestrator._FORCE_POST_TYPE := None;
     Orchestrator.BEEHIIV_API_KEY := key |}.

Definition api_403 : Orchestrator.outcome pyval :=
  Orchestrator.Failed RuntimeError "Beehiiv API error 403: SEND_API_DISABLED".

Definition browser_no_login : Orchestrator.outcome pyval :=
  Orchestrator.Failed RuntimeError "BEEHIIV_EMAIL and BEEHIIV_PASSWORD not set".

Definition api_created : Orchestrator.outcome pyval :=
  Orchestrator.Returned
    (VDict [ ("data",
              VDict [ ("id", VStr "post_123");
                      ("web_url",
                       VStr "https://www.africagoldintelligence.com/p/briefing") ]) ]).

(** Responses the API call may return without raising: [data] null, and
    a post without an id. *)
Definition api_null_data : Orchestrator.outcome pyval :=
  Orchestrator.Returned (VDict [ ("data", VNone) ]).

Definition api_empty_id : Orchestrator.outcome pyval :=
  Orchestrator.Returned
    (VDict [ ("data",
              VDict [ ("id", VStr "");
                      ("web_url",
                       VStr "https://www.africagoldintelligence.com/p/briefing") ]) ]).

Definition browser_created : Orchestrator.outcome pyval :=
  Orchestrator.Returned
    (VDict [ ("success", VBool true); ("post_url", VStr "");
             ("post_id", VStr "browser-post"); ("method", VStr "browser") ]).

(** The snapshot the market stage of a world hands on. *)
Definition snap_of (w : Orchestrator.env) : Orchestrator.snapshot :=
  match Orchestrator.market_intelligence plain_fmt plain_exn w with
  | Orchestrator.Returned snap => snap
  | Orchestrator.Failed _ _ =>
      {| Orchestrator.data := VNone; Orchestrator.gold := VNone;
         Orchestrator.g_price := VNone; Orchestrator.g_pct := VNone;
         Orchestrator.headlines := 0 |}
  end.

(** The run of [main] in a world, from a run log that does not exist yet. *)
Definition first_run (c : Orchestrator.config) (w : Orchestrator.env)
    : Orchestrator.step unit * Orchestrator.pstate :=
  Orchestrator.main stamp plain_fmt plain_exn keep append_html append_html
    c w (Orchestrator.boot None).

(** Text pieces for the social posts of a quiet day. *)
Definition hook_of (post_type : string) (data : pyval) (today : datetime)
    : res string := Ok "Gold at $2,950 today.".
Definition tags_of (post_type : string) (data : pyval) : res string :=
  Ok "#Gold #AfricaGoldIntelligence".
Definition body_of (post_type : string) (data : pyval) (today : datetime)
    : res string := Ok "Gold Market Digest. ".
Definition head_of (post_type : string) (data : pyval) (today : datetime)
    : res (list string) := Ok [ "*Africa Gold Intelligence*"; "" ].
Definition show (v : pyval) : string :=
  match v with
  | VStr s => s
  | _ => "None"
  end.

(** A snapshot on which every component of the score is at its top. *)
Definition snapshot_hot : pyval :=
  VDict [ ("gold", VDict [ ("price", VInt 5100);
                           ("day_chg_pct", VFloat (Fin (-7 # 2)));
                           ("rsi", VInt 80) ]) ].

(** 2026-03-05T06:00:00, a Thursday. *)
Definition today_march : datetime := 1772690400000000.

(** [datetime.weekday]: the epoch fell on a Thursday. *)
Definition weekday (t : datetime) : Z := (t / day_us + 3) mod 7.

Definition cta_plain (strategy post_type : string) (data : pyval)
    (today : datetime) : res Monetization.cta_copy :=
  Ok {| Monetization.subject_addition := strategy;
        Monetization.in_post_banner := "";
        Monetization.email_ps := "" |}.

Definition html_plain (sb : Monetization.scores) (strategy : string)
    (cta : Monetization.cta_copy) (pw : Monetization.pricing_window)
    : res string :=
  Ok ("<div>" ++ strategy ++ "</div>").

(** A configuration with a mail password and an API key, in the given
    mode. *)
Definition cfg_mode (dry print : bool) : Orchestrator.config :=
  {| Orchestrator.NOTIFY_PASSWORD := "app-password";
     Orchestrator.DRY_RUN := dry;
     Orchestrator.AUTO_PUBLISH := false;
     Orchestrator.PRINT_LOG := print;
     Orchestrator._FORCE_POST_TYPE := None;
     Orchestrator.BEEHIIV_API_KEY := "key" |}.

(** A Thursday run with the given gold quote and content outcome; both
    channels would deliver. *)
Definition world_of (gold : pyval)
    (content : Orchestrator.outcome (string * string)) : Orchestrator.env :=
  {| Orchestrator.now := today_march;
     Orchestrator.weekday := 3;
     Orchestrator.import_market_agent := None;
     Orchestrator.fetch_gold := gold;
     Orchestrator.fetch_silver := quote 33;
     Orchestrator.fetch_dxy := quote 98;
     Orchestrator.fetch_sp500 := quote 5600;
     Orchestrator.fetch_btc := quote 90000;
     Orchestrator.fetch_fx_news :=
       Orchestrator.Returned (fx_table, VDict [], headlines_list);
     Orchestrator.africa_run := Orchestrator.Failed ImportError "not found";
     Orchestrator.contract_run := Orchestrator.Failed ImportError "not found";
     Orchestrator.build_content := content;
     Orchestrator.seo_run := Orchestrator.Failed ImportError "not found";
     Orchestrator.preview := "Gold today.";
     Orchestrator.beehiiv_create_post := api_created;
     Orchestrator.import_beehiiv_browser := true;
     Orchestrator.publish_post := browser_created;
     Orchestrator.monetization_run :=
       Orchestrator.Failed ImportError "not found";
     Orchestrator.smtp_delivers := true;
     Orchestrator.elapsed_s := VFloat (Fin 12);
     Orchestrator.payload_counters := fun _ _ => zero_counters;
     Orchestrator.outreach_drafts := VInt 0 |}.

Definition content_built : Orchestrator.outcome (string * string) :=
  Orchestrator.Returned ("<div>free</div>", "<div>premium</div>").

Definition content_broken : Orchestrator.outcome (string * string) :=
  Orchestrator.Failed KeyError "'karat_prices'".

(** The run of [main] from a given run log. *)
Definition run_from (log : file) (c : Orchestrator.config)
    (w : Orchestrator.env) : Orchestrator.step unit * Orchestrator.pstate :=
  Orchestrator.main stamp plain_fmt plain_exn keep append_html append_html
    c w (Orchestrator.boot log).

(** An unterminated fragment and the text of a record as one line: the
    record when the fragment is blank, otherwise text that does not
    decode. *)
Definition glue (l : log_line) (rec : pyval) : log_line :=
  match l with
  | Blank => Json rec
  | _ => Corrupt "unterminated line followed by a record"
  end.

(** A monetization log of one terminated line, a soft record. *)
Definition monetization_disk : Disk.disk :=
  Some {| Disk.lines :=
            [ Json (VDict [ ("ts", VStr "2026-03-01T06:00:00");
                            ("upsell_type", VStr "soft") ]) ];
          Disk.closed := true |}.

(** A run log of five terminated lines. *)
Definition run_disk : Disk.disk :=
  Some {| Disk.lines := map Json history_sssfs; Disk.closed := true |}.

Definition monetization_run (writable : bool) (run_log monetization_log : file)
    (now : datetime) (post_type : string) (data : pyval) (today : datetime)
    : res Monetization.monetization_data * file :=
  Monetization.run iso stamp weekday plain_fmt cta_plain html_plain writable
    run_log monetization_log now post_type data today.

End Examples.

(** * Properties *)

(** ** The opportunity score *)

(** C4. For price 2950.00, day change +2.1 percent, RSI 72, post type
    trader_intelligence and no run history (log absent or empty),
    [score_opportunity] returns volatility 22, RSI component 12, post-type
    component round(95 * 0.25) = 24, price-level component 8, streak bonus 0
    and total 66. *)
Theorem score_opportunity_scenario :
  let expected :=
    Ok {| Monetization.volatility := 22; Monetization.rsi_extreme := 12;
          Monetization.post_type_score := 24; Monetization.ath_proximity := 8;
          Monetization.streak_bonus := 0; Monetization.total := 66 |} in
  Monetization.score_opportunity None Examples.snapshot_c4
    "trader_intelligence" = expected
  /\ Monetization.score_opportunity (Some []) Examples.snapshot_c4
       "trader_intelligence" = expected
  /\ round (inject_Z 95 * (1 # 4)) = 24.
Proof.
  cbv zeta. repeat split; vm_compute; reflexivity.
Qed.

Section ScoreBounds.

Import Spec.

Lemma ge_num (v : pyval) (c : Q) :
  is_num v = true -> exists b, ge v c = Ok b.
Proof.
  unfold is_num, ge. destruct (num_of v); [eauto|discriminate].
Qed.

Lemma le_num (v : pyval) (c : Q) :
  is_num v = true -> exists b, le v c = Ok b.
Proof.
  unfold is_num, le. destruct (num_of v); [eauto|discriminate].
Qed.

(** [abs(x or 0)] is a number whenever [x] is a number or None. *)
Lemma abs_or_zero_num (raw : pyval) :
  num_or_none raw = true ->
  exists w, abs (or_else raw (VInt 0)) = Ok w /\ is_num w = true.
Proof.
  unfold or_else.
  destruct raw as [|b|z|f| | |]; try discriminate; intros _.
  - eexists; split; reflexivity.
  - destruct b; eexists; split; reflexivity.
  - destruct (truthy (VInt z)); eexists; split; reflexivity.
  - destruct (truthy (VFloat f)); eexists; split; reflexivity.
Qed.

Lemma post_type_score_bounds (post_type : string) :
  15 <= round (inject_Z (Monetization.table_get post_type
                           Monetization.POST_TYPE_SCORES 60) * (1 # 4)) <= 24.
Proof.
  unfold Monetization.POST_TYPE_SCORES. cbn [Monetization.table_get].
  repeat match goal with
         | |- context [String.eqb post_type ?k] =>
             destruct (String.eqb post_type k)
         end; vm_compute; split; discriminate.
Qed.

(** Only the [gold] entry of the snapshot is read. *)
Lemma score_opportunity_reads_gold (run_log : file)
    (d : list (string * pyval)) (post_type : string) :
  Monetization.score_opportunity run_log (VDict d) post_type
  = Monetization.score_opportunity run_log
      (VDict [ ("gold", match lookup "gold" d with
                        | Some g => g
                        | None => VDict []
                        end) ]) post_type.
Proof. reflexivity. Qed.

Ltac settle_comparisons :=
  repeat match goal with
         | Hn : is_num ?v = true |- context [ge ?v ?c] =>
             let b := fresh "b" in
             destruct (ge_num v c Hn) as [b ->]; destruct b; cbn [bind]
         | Hn : is_num ?v = true |- context [le ?v ?c] =>
             let b := fresh "b" in
             destruct (le_num v c Hn) as [b ->]; destruct b; cbn [bind]
         end.

Lemma score_of_typed_gold (run_log : file) (g : list (string * pyval))
    (post_type : string) :
  gold_fields_priced g = true ->
  exists s,
    Monetization.score_opportunity run_log (VDict [("gold", VDict g)])
      post_type = Ok s
    /\ 23 <= Monetization.total s <= 100
    /\ 5 <= Monetization.volatility s
    /\ 0 <= Monetization.rsi_extreme s
    /\ 15 <= Monetization.post_type_score s
    /\ 3 <= Monetization.ath_proximity s
    /\ 0 <= Monetization.streak_bonus s.
Proof.
  unfold gold_fields_priced. intros H.
  apply andb_true_iff in H. destruct H as [H Hrsi].
  apply andb_true_iff in H. destruct H as [Hprice Hpct].
  unfold Monetization.score_opportunity.
  pose proof (post_type_score_bounds post_type) as Hty.
  set (ty := round _) in *. clearbody ty.
  set (streak := Monetization._get_success_streak run_log). clearbody streak.
  cbn [get bind lookup String.eqb Ascii.eqb Bool.eqb].
  assert (Hp : is_num (match lookup "price" g with
                       | Some x => x | None => VInt 0 end) = true).
  { destruct (lookup "price" g); [exact Hprice|reflexivity]. }
  set (price := match lookup "price" g with Some x => x | None => VInt 0 end)
    in *. clearbody price.
  assert (Hraw : num_or_none (match lookup "day_chg_pct" g with
                              | Some x => x | None => VInt 0 end) = true).
  { destruct (lookup "day_chg_pct" g); [exact Hpct|reflexivity]. }
  destruct (abs_or_zero_num _ Hraw) as (pct & -> & Hpctn). cbn [bind].
  assert (Hr : num_or_none (match lookup "rsi" g with
                            | Some x => x | None => VNone end) = true).
  { destruct (lookup "rsi" g); [exact Hrsi|reflexivity]. }
  set (rsi := match lookup "rsi" g with Some x => x | None => VNone end) in *.
  clearbody rsi. clear Hprice Hpct Hrsi Hraw.
  assert (Hrsi : rsi = VNone \/ is_num rsi = true).
  { destruct rsi; auto; discriminate. }
  clear Hr.
  destruct Hrsi as [-> | Hrsi].
  - settle_comparisons;
      (eexists; split; [reflexivity|]);
      cbn [Monetization.total Monetization.volatility
           Monetization.rsi_extreme Monetization.post_type_score
           Monetization.ath_proximity Monetization.streak_bonus];
      destruct (7 <=? streak); destruct (3 <=? streak); lia.
  - settle_comparisons;
      destruct rsi; try discriminate;
      settle_comparisons;
      (eexists; split; [reflexivity|]);
      cbn [Monetization.total Monetization.volatility
           Monetization.rsi_extreme Monetization.post_type_score
           Monetization.ath_proximity Monetization.streak_bonus];
      destruct (7 <=? streak); destruct (3 <=? streak); lia.
Qed.

(** C10, as the code has it. For every snapshot whose [gold] entry is
    absent or a dictionary with a numeric or absent price and with day
    change and RSI numeric, None or absent (the empty snapshot included),
    and for every run log and post type, [score_opportunity] returns, its
    total lies between 23 and 100, and the components are at least 5, 0,
    15, 3 and 0. *)
Theorem score_opportunity_total_bounds :
  forall (run_log : file) (data : pyval) (post_type : string),
    gold_of_snapshot gold_fields_priced data = true ->
    exists s,
      Monetization.score_opportunity run_log data post_type = Ok s
      /\ 23 <= Monetization.total s <= 100
      /\ 5 <= Monetization.volatility s
      /\ 0 <= Monetization.rsi_extreme s
      /\ 15 <= Monetization.post_type_score s
      /\ 3 <= Monetization.ath_proximity s
      /\ 0 <= Monetization.streak_bonus s.
Proof.
  intros run_log data post_type H.
  destruct data as [| | | | | |d]; try discriminate.
  rewrite score_opportunity_reads_gold.
  unfold gold_of_snapshot in H.
  destruct (lookup "gold" d) as [[| | | | | |g]|]; try discriminate.
  - apply score_of_typed_gold. exact H.
  - apply score_of_typed_gold. reflexivity.
Qed.

End ScoreBounds.

(** C10, witness: the empty snapshot scores 5 + 0 + 15 + 3 + 0 = 23. *)
Lemma score_opportunity_bounds_witness :
  exists s,
    Monetization.score_opportunity None (VDict []) "unknown" = Ok s
    /\ 23 <= Monetization.total s <= 100.
Proof.
  destruct (score_opportunity_total_bounds None (VDict []) "unknown" eq_refl)
    as (s & Hs & Hb & _).
  exists s. split; assumption.
Defined.

(** C10, as stated: a price that is present and None makes the price-level
    comparison raise. *)
Lemma score_opportunity_none_price_counterexample :
  Spec.gold_of_snapshot Spec.gold_fields_loose
    (VDict [ ("gold", VDict [ ("price", VNone) ]) ]) = true
  /\ Monetization.score_opportunity None
       (VDict [ ("gold", VDict [ ("price", VNone) ]) ]) "educational"
     = Raise TypeError.
Proof. split; reflexivity. Qed.

(** ** Success streaks *)

Section Streaks.

Import Spec.

Lemma streak_loop_acc (ls : list log_line) :
  forall acc,
    Monetization.streak_loop ls acc
    = (n <- Monetization.streak_loop ls 0 ;; Ok (acc + n)).
Proof.
  induction ls as [|line rest IH]; intros acc; simpl.
  - f_equal. lia.
  - destruct (json_loads line) as [rec|]; simpl; [|reflexivity].
    destruct (get rec "status" VNone) as [st|]; simpl; [|reflexivity].
    destruct (eq_str st "SUCCESS"); simpl.
    + rewrite (IH (acc + 1)), (IH 1).
      destruct (Monetization.streak_loop rest 0); cbn [bind]; [|reflexivity].
      f_equal. lia.
    + f_equal. lia.
Qed.

Lemma metrics_streak_loop_acc (rs : list pyval) :
  forall acc,
    Analytics.metrics_streak_loop rs acc
    = (n <- Analytics.metrics_streak_loop rs 0 ;; Ok (acc + n)).
Proof.
  induction rs as [|r rest IH]; intros acc; simpl.
  - f_equal. lia.
  - destruct (get r "status" VNone) as [st|]; simpl; [|reflexivity].
    destruct (eq_str st "SUCCESS"); simpl.
    + rewrite (IH (acc + 1)), (IH 1).
      destruct (Analytics.metrics_streak_loop rest 0); cbn [bind];
        [|reflexivity].
      f_equal. lia.
    + f_equal. lia.
Qed.

(** On decoded dictionaries the two loops are the same function. *)
Lemma streak_loop_records (rs : list (list (string * pyval))) :
  forall acc,
    Monetization.streak_loop (lines_of rs) acc
    = Analytics.metrics_streak_loop (map VDict rs) acc.
Proof.
  induction rs as [|d rest IH]; intros acc; simpl; [reflexivity|].
  destruct (eq_str _ "SUCCESS"); [apply IH|reflexivity].
Qed.

(** The backward scan of a history of dictionaries stops with the length
    of its longest all-SUCCESS suffix. *)
Lemma metrics_streak_suffix (recs : list (list (string * pyval))) :
  exists n, Analytics.metrics_streak_loop (rev (map VDict recs)) 0 = Ok n
            /\ max_success_suffix (map VDict recs) n.
Proof.
  induction recs as [|d l IH] using rev_ind.
  - exists 0. split; [reflexivity|].
    exists [], []. repeat split; auto.
  - destruct IH as (n & Hn & pre & suf & Hsplit & Hall & Hpre & Hlen).
    rewrite map_app, rev_app_distr. simpl.
    destruct (eq_str _ "SUCCESS") eqn:E.
    + exists (1 + n). split.
      * rewrite metrics_streak_loop_acc, Hn. reflexivity.
      * exists pre, (suf ++ [VDict d])%list. repeat split.
        -- rewrite Hsplit, app_assoc. reflexivity.
        -- apply Forall_app. split; [assumption|].
           constructor; [|constructor]. unfold is_success. simpl. exact E.
        -- exact Hpre.
        -- rewrite length_app, Nat2Z.inj_add. cbn [List.length]. lia.
    + exists 0. split; [reflexivity|].
      exists (map VDict l ++ [VDict d])%list, []. repeat split.
      * rewrite app_nil_r. reflexivity.
      * constructor.
      * right. exists (map VDict l), (VDict d). split; [reflexivity|].
        unfold is_success. simpl. exact E.
Qed.

(** The suffix length is unique, so it may be called "the" streak. *)
Lemma max_success_suffix_unique (recs : list pyval) (n m : Z) :
  max_success_suffix recs n -> max_success_suffix recs m -> n = m.
Proof.
  intros (p1 & s1 & E1 & A1 & B1 & ->) (p2 & s2 & E2 & A2 & B2 & ->).
  f_equal.
  assert (G : forall (p1 s1 p2 s2 : list pyval),
             (p1 ++ s1 = p2 ++ s2)%list ->
             Forall (fun r => is_success r = true) s1 ->
             (p2 = [] \/ exists pre' r, p2 = (pre' ++ [r])%list
                                        /\ is_success r = false) ->
             (List.length s1 <= List.length s2)%nat).
  { clear. intros p1 s1 p2 s2 E A [->|(q & r & -> & Hr)].
    - simpl in E. rewrite <- E, length_app. lia.
    - apply app_eq_app in E.
      destruct E as (l & [[_ ->]|[Hq ->]]).
      + rewrite length_app. lia.
      + destruct l as [|x l'] using rev_ind; [simpl; lia|]. exfalso.
        rewrite app_assoc in Hq. apply app_inj_tail in Hq.
        destruct Hq as [_ <-].
        rewrite Forall_forall in A.
        assert (Hin : In r ((l' ++ [r]) ++ s2)%list).
        { apply in_or_app. left. apply in_or_app. right. now left. }
        specialize (A r Hin). congruence. }
  apply Nat.le_antisymm.
  - apply (G p1 s1 p2 s2); [congruence|assumption|assumption].
  - apply (G p2 s2 p1 s1); [congruence|assumption|assumption].
Qed.

(** C7. For the history S, S, S, F, S (oldest first) the streak is exactly
    1, both in [_get_success_streak] and in [pipeline_metrics]; and for every
    history of run records the backward scan, which stops at the first
    record that is not SUCCESS, yields the length of the longest all-SUCCESS
    suffix. *)
Theorem success_streak_is_longest_suffix :
  Monetization._get_success_streak (Some (map Json Examples.history_sssfs)) = 1
  /\ (exists m,
        Analytics.pipeline_metrics Examples.iso
          (Some (map Json Examples.history_sssfs)) Examples.now_march 7 = Ok m
        /\ Analytics.m_total m = 5 /\ Analytics.m_streak m = 1)
  /\ (forall recs : list (list (string * pyval)),
        exists n,
          Monetization._get_success_streak (Some (lines_of recs)) = n
          /\ Analytics.metrics_streak_loop (rev (map VDict recs)) 0 = Ok n
          /\ max_success_suffix (map VDict recs) n).
Proof.
  split; [reflexivity|]. split.
  - eexists. split; [vm_compute; reflexivity|]. split; reflexivity.
  - intros recs.
    destruct (metrics_streak_suffix recs) as (n & Hn & Hmax).
    exists n. repeat split; try assumption.
    unfold Monetization._get_success_streak, lines_of.
    rewrite <- map_rev.
    change (map (fun d => Json (VDict d)) (rev recs))
      with (lines_of (rev recs)).
    rewrite streak_loop_records, map_rev, Hn. reflexivity.
Qed.

End Streaks.

(** ** Cooldowns *)

Section Cooldowns.

Import Spec.

Variable fromisoformat : string -> option datetime.
Variable isoformat : datetime -> string.

Lemma log_monetization_written (f : file) (c : logged_call) :
  (forall ls, f = Some ls ->
              Forall (fun l => written_by_log_monetization l = true) ls) ->
  forall ls',
    Monetization.log_monetization isoformat (lc_writable c) f (lc_post_type c)
      (lc_scores c) (lc_strategy c) (lc_window c) (lc_today c) = Some ls' ->
    Forall (fun l => written_by_log_monetization l = true) ls'.
Proof.
  intros Hf ls'. unfold Monetization.log_monetization.
  destruct (lc_writable c); [|apply Hf].
  assert (Hrec : written_by_log_monetization
                   (Json (Monetization.monetization_record isoformat
                            (lc_post_type c) (lc_scores c) (lc_strategy c)
                            (lc_window c) (lc_today c))) = true).
  { unfold written_by_log_monetization, Monetization.monetization_record,
      Monetization.upsell_type_of.
    cbn [lookup String.eqb Ascii.eqb Bool.eqb].
    destruct (String.eqb (lc_strategy c) "hard_upsell") eqn:E1;
      cbn [orb]; [rewrite E1; reflexivity|].
    destruct (String.eqb (lc_strategy c) "promo") eqn:E2;
      [rewrite E2; apply orb_true_iff; left; apply orb_true_r|reflexivity]. }
  destruct f as [ls|]; simpl; intros [= <-].
  - apply Forall_app. split; [now apply Hf|]. now constructor.
  - now constructor.
Qed.

Lemma replay_written (calls : list logged_call) :
  forall f,
    (forall ls, f = Some ls ->
                Forall (fun l => written_by_log_monetization l = true) ls) ->
    forall ls', replay isoformat calls f = Some ls' ->
                Forall (fun l => written_by_log_monetization l = true) ls'.
Proof.
  induction calls as [|c rest IH]; intros f Hf ls'; simpl.
  - apply Hf.
  - apply IH. intros ls. apply log_monetization_written. exact Hf.
Qed.

Lemma upsell_scan_hard_written (now : datetime) (ls : list log_line) :
  Forall (fun l => written_by_log_monetization l = true) ls ->
  Monetization.upsell_scan fromisoformat now "hard" ls = Ok 9999.
Proof.
  induction 1 as [|l ls Hl _ IH]; [reflexivity|].
  destruct l as [| |[| | | | | |d]]; try discriminate.
  simpl in Hl |- *.
  destruct (lookup "upsell_type" d) as [[| | | |u| |]|]; try discriminate.
  simpl.
  destruct (String.eqb u "hard") eqn:E; [|exact IH].
  apply String.eqb_eq in E. subst u. discriminate.
Qed.

(** C9. On every monetization log written only by [log_monetization]
    (starting from an absent or an empty file), the lookup
    [_days_since_last_upsell("hard")] finds no record and returns 9999, so
    [select_strategy] behaves as the ladder without the hard-upsell
    cooldown: that cooldown never holds back "hard_upsell". *)
Theorem hard_cooldown_never_applies :
  forall (calls : list logged_call) (start_empty : bool) (now score : Z),
    let log := replay isoformat calls
                 (if start_empty then Some [] else None) in
    Monetization._days_since_last_upsell fromisoformat log now "hard" = 9999
    /\ Monetization.select_strategy fromisoformat log now score
       = ladder_without_hard_cooldown
           (Monetization._days_since_last_upsell fromisoformat log now "promo")
           score.
Proof.
  intros calls start_empty now score log.
  assert (Hhard : Monetization._days_since_last_upsell fromisoformat log now
                    "hard" = 9999).
  { unfold Monetization._days_since_last_upsell.
    destruct log as [ls|] eqn:E; [|reflexivity].
    rewrite upsell_scan_hard_written; [reflexivity|].
    apply Forall_rev.
    apply (replay_written calls (if start_empty then Some [] else None));
      [|exact E].
    intros l0 H0. destruct start_empty; [|discriminate].
    injection H0 as <-. constructor. }
  split; [exact Hhard|].
  unfold Monetization.select_strategy, ladder_without_hard_cooldown.
  rewrite Hhard.
  destruct ((80 <=? score) && _); [reflexivity|].
  destruct (65 <=? score); reflexivity.
Qed.

Lemma upsell_scan_skip (now : datetime) (ut : string)
    (ns : list (list (string * pyval))) (rest : list log_line) :
  Forall (fun d => has_upsell_type ut d = false) ns ->
  Monetization.upsell_scan fromisoformat now ut (lines_of ns ++ rest)
  = Monetization.upsell_scan fromisoformat now ut rest.
Proof.
  induction 1 as [|d ns Hd _ IH]; [reflexivity|].
  unfold has_upsell_type in Hd. simpl in Hd |- *.
  rewrite Hd. exact IH.
Qed.

(** C3, as the code has it. The cooldown is read from the monetization
    log: when the newest record of that log with [upsell_type] "promo" is
    reached by the backward scan (every later line is a decoded dictionary
    of another type) and is stamped fewer than 14 whole days before now,
    [select_strategy] does not return "promo" whatever the score, and its
    answer is one of the lower rungs. *)
Theorem promo_cooldown_from_monetization_log :
  forall (older : list log_line) (rec : list (string * pyval))
         (newer : list (list (string * pyval))) (s : string)
         (t now score : Z),
    has_upsell_type "promo" rec = true ->
    lookup "ts" rec = Some (VStr s) ->
    fromisoformat s = Some t ->
    timedelta_days (now - t) < Monetization.PROMO_COOLDOWN_DAYS ->
    Forall (fun d => has_upsell_type "promo" d = false) newer ->
    let log := Some (older ++ Json (VDict rec) :: lines_of newer)%list in
    Monetization._days_since_last_upsell fromisoformat log now "promo"
    = timedelta_days (now - t)
    /\ Monetization.select_strategy fromisoformat log now score <> "promo"
    /\ In (Monetization.select_strategy fromisoformat log now score)
          [ "hard_upsell"; "soft_upsell"; "value_reminder"; "none" ].
Proof.
  intros older rec newer s t now score Hrec Hts Hiso Hdays Hnewer log.
  assert (Hd : Monetization._days_since_last_upsell fromisoformat log now
                 "promo" = timedelta_days (now - t)).
  { unfold log, Monetization._days_since_last_upsell.
    rewrite rev_app_distr. cbn [rev].
    rewrite <- app_assoc. unfold lines_of at 1. rewrite <- map_rev.
    change (map (fun d => Json (VDict d)) (rev newer))
      with (lines_of (rev newer)).
    rewrite upsell_scan_skip by (apply Forall_rev; exact Hnewer).
    unfold has_upsell_type in Hrec. simpl in Hrec |- *.
    rewrite Hrec, Hts. simpl. rewrite Hiso. reflexivity. }
  split; [exact Hd|].
  unfold Monetization.select_strategy. rewrite Hd.
  replace (Monetization.PROMO_COOLDOWN_DAYS <=? timedelta_days (now - t))
    with false by (symmetry; apply Z.leb_gt; exact Hdays).
  rewrite andb_false_r.
  destruct ((65 <=? score) && _).
  - split; [discriminate|]. simpl. auto.
  - destruct (45 <=? score); [split; [discriminate|simpl; auto]|].
    destruct (25 <=? score); split; try discriminate; simpl; auto.
Qed.

End Cooldowns.

(** C3, witness: a log with a damaged old line, a promo record one day
    old and a later soft record. *)
Lemma promo_cooldown_witness :
  Monetization.select_strategy Examples.iso
    (Some ([Corrupt "{ts: 2026-02-"]
           ++ Json (VDict Examples.monetization_log_promo)
           :: Spec.lines_of [ [ ("ts", VStr "2026-03-05T06:00:00");
                                ("upsell_type", VStr "soft") ] ])%list)
    Examples.now_march 85 <> "promo".
Proof.
  refine (proj1 (proj2
    (promo_cooldown_from_monetization_log Examples.iso
       [Corrupt "{ts: 2026-02-"] Examples.monetization_log_promo
       [ [ ("ts", VStr "2026-03-05T06:00:00"); ("upsell_type", VStr "soft") ] ]
       "2026-03-04T06:00:00" 1772604000000000 Examples.now_march 85
       _ _ _ _ _))).
  - reflexivity.
  - reflexivity.
  - reflexivity.
  - vm_compute. reflexivity.
  - repeat constructor.
Defined.

(** C3, as stated for the run log: a run log holding a promo record one
    day old does not keep [select_strategy] from returning "promo", because
    the run log is not what the cooldown reads. *)
Lemma promo_cooldown_run_log_counterexample :
  Spec.recent_promo Examples.iso Examples.run_log_promo Examples.now_march
  = true
  /\ Monetization.select_strategy Examples.iso None Examples.now_march 85
     = "promo".
Proof. split; vm_compute; reflexivity. Qed.

(** ** Readers of the run log *)

Section LogReaders.

Import Spec.

Variable fromisoformat : string -> option datetime.

(** [read_log] steps over a line that does not decode. *)
Lemma read_loop_skips_corrupt (cutoff : datetime) (raw : string)
    (before after : list log_line) :
  Analytics.read_loop fromisoformat cutoff (before ++ Corrupt raw :: after)
  = Analytics.read_loop fromisoformat cutoff (before ++ after).
Proof.
  induction before as [|l before IH]; simpl; [reflexivity|].
  rewrite IH. reflexivity.
Qed.

(** [print_recent_logs] echoes such a line and prints the others as
    before. *)
Lemma print_line_echoes_corrupt (raw : string) :
  Orchestrator.print_line (Corrupt raw) = Orchestrator.Echo (Corrupt raw).
Proof. reflexivity. Qed.

(** [_get_success_streak] does not: a damaged line met by the backward
    scan sends the whole count to 0, whatever came after it. *)
Lemma streak_lost_on_corrupt (raw : string) (older : list log_line)
    (newer : list (list (string * pyval))) :
  Forall (fun d => is_success (VDict d) = true) newer ->
  Monetization._get_success_streak
    (Some (older ++ Corrupt raw :: lines_of newer)%list) = 0.
Proof.
  intros Hall. unfold Monetization._get_success_streak.
  rewrite rev_app_distr. cbn [rev]. rewrite <- app_assoc.
  unfold lines_of. rewrite <- map_rev.
  apply Forall_rev in Hall.
  assert (G : forall ns acc,
             Forall (fun d => is_success (VDict d) = true) ns ->
             Monetization.streak_loop
               (map (fun d => Json (VDict d)) ns
                ++ [Corrupt raw] ++ rev older)%list acc = Raise ValueError).
  { clear. induction ns as [|d ns IH]; intros acc Hall; [reflexivity|].
    inversion Hall as [|? ? Hd Hns]; subst.
    unfold is_success in Hd. simpl in Hd |- *. rewrite Hd. apply IH, Hns. }
  rewrite G by exact Hall. reflexivity.
Qed.

End LogReaders.

(** C6, at a run log of two successes around one damaged line. The
    windowed reader returns both records and [pipeline_metrics] counts a
    streak of 2; the log printer prints both and echoes the damaged line;
    [_get_success_streak] answers 0. *)
Theorem corrupt_line_resets_monetization_streak :
  let log := Some Examples.run_log_damaged in
  Analytics.read_log Examples.iso log Examples.now_march 7
  = [ Examples.run_record "2026-03-03T06:00:00" "SUCCESS";
      Examples.run_record "2026-03-05T06:00:00" "SUCCESS" ]
  /\ (exists m,
        Analytics.pipeline_metrics Examples.iso log Examples.now_march 7 = Ok m
        /\ Analytics.m_total m = 2 /\ Analytics.m_streak m = 2)
  /\ map Orchestrator.print_line
       (Orchestrator.last_lines 5 Examples.run_log_damaged)
     = [ Orchestrator.Row "✅" (VStr "2026-03-03T06:00:00") (VStr "SUCCESS")
           (VStr "?") (VStr "?") (VStr "?");
         Orchestrator.Echo (Corrupt "{ts: 2026-03-04T06:00:00, sta");
         Orchestrator.Row "✅" (VStr "2026-03-05T06:00:00") (VStr "SUCCESS")
           (VStr "?") (VStr "?") (VStr "?") ]
  /\ Monetization._get_success_streak log = 0.
Proof.
  cbv zeta. split; [vm_compute; reflexivity|]. split.
  - eexists. split; [vm_compute; reflexivity|]. split; reflexivity.
  - split; vm_compute; reflexivity.
Qed.

(** ** Runs of the orchestrator *)

Section RunProperties.

Import Spec Orchestrator.

Variable isoformat : datetime -> string.
Variable fmt : string -> pyfloat -> string.
Variable str_exn : exn -> string.
Variable round_to : Z -> pyval -> pyval.
Variable inject_json_ld : string -> string -> string.
Variable splice_banner : string -> string -> string.
Variable cfg : config.
Variable world : env.

Local Abbreviation main' :=
  (main isoformat fmt str_exn round_to inject_json_ld splice_banner cfg world).
Local Abbreviation live_run' :=
  (live_run isoformat round_to splice_banner cfg world).
Local Abbreviation record' status details :=
  (VDict (("ts", VStr (isoformat (now world)))
          :: ("status", VStr status) :: details)).

Lemma send_email_run (m : mail) (st : pstate) :
  exists ok,
    _send_email cfg world m st
    = (Next ok, {| run_log := run_log st;
                   trace := (trace st ++ mail_trace cfg world m)%list |}).
Proof.
  unfold _send_email, mail_trace.
  destruct (truthy (VStr (NOTIFY_PASSWORD cfg))); cbn.
  - eexists. reflexivity.
  - exists false. destruct st. cbn. rewrite app_nil_r. reflexivity.
Qed.

(** A live run that passes the quality check and builds its content
    arrives at the distribution stage with five collaborators called. *)
Lemma main_reaches_live_run (log : file) (snap : snapshot)
    (warnings : list string) (free_html premium_html : string) :
  reaches_distribution fmt str_exn cfg world snap warnings free_html
    premium_html ->
  main' (boot log)
  = live_run' snap (choose_post_type cfg world) warnings
      (payload (africa_run world)) (payload (contract_run world))
      (fst (after_seo inject_json_ld world free_html))
      (snd (after_seo inject_json_ld world free_html))
      premium_html
      {| run_log := log; trace := trace_before_distribution |}.
Proof.
  intros (Hlog & Hdry & Himp & Hmarket & Hcheck & Hcrit & Hbuild).
  unfold main, pipeline, anomaly_detection, content_synthesis, seo, enrich.
  rewrite Hlog, Himp, Hmarket, Hcheck.
  unfold is_critical in Hcrit. rewrite Hcrit, Hbuild, Hdry.
  unfold after_seo, payload. reflexivity.
Qed.

(** After distribution the remaining stages cannot stop the run: it mails
    the operator and appends one SUCCESS record. *)
Lemma live_run_closes (snap : snapshot) (post_type : string)
    (warnings : list string) (africa_data contract_data : option pyval)
    (seo_data : pyval) (free_html premium_html : string)
    (st st1 : pstate) (d : delivery) :
  distribution cfg world st = (Next d, st1) ->
  exists (m : list (string * pyval) * string),
    live_run' snap post_type warnings africa_data contract_data seo_data
      free_html premium_html st
    = (Next tt,
       {| run_log :=
            append_record (run_log st1)
              (record' "SUCCESS"
                 (success_details round_to cfg world snap post_type warnings
                    africa_data contract_data d (fst m)));
          trace :=
            (trace st1 ++ trace_after_distribution seo_data (post_url d)
             ++ mail_trace cfg world
                  (if beehiiv_ok d then DraftReady (post_id d)
                   else FullBriefing (snd m) premium_html))%list |}).
Proof.
  intros Hd.
  exists (match monetization_run world with
          | Returned v =>
              try_except (monetization_body splice_banner free_html v)
                         (monetization_default, free_html)
          | Failed _ _ => (monetization_default, free_html)
          end).
  set (m := match monetization_run world with
            | Returned v => _ | Failed _ _ => _ end).
  unfold live_run. unfold bindM at 1. rewrite Hd.
  unfold monetization, social, notify_draft_ready, _send_briefing_email.
  fold m.
  cbn [bindM emit ret run_log trace fst snd].
  destruct (beehiiv_ok d).
  - destruct (send_email_run (DraftReady (post_id d))
                {| run_log := run_log st1;
                   trace := ((((((trace st1 ++ [Call LinkedInGenerator])
                                ++ [CallSocial seo_data (post_url d)])
                               ++ [Call PartnershipAgent])
                              ++ [Call MonetizationAgent])
                             ++ [Call AnalyticsAgent]))%list |})
      as [ok Hok].
    unfold bindM. rewrite Hok. unfold log_run, trace_after_distribution.
    cbn [run_log trace]. repeat rewrite <- app_assoc. reflexivity.
  - destruct (send_email_run (FullBriefing (snd m) premium_html)
                {| run_log := run_log st1;
                   trace := ((((((trace st1 ++ [Call LinkedInGenerator])
                                ++ [CallSocial seo_data (post_url d)])
                               ++ [Call PartnershipAgent])
                              ++ [Call MonetizationAgent])
                             ++ [Call AnalyticsAgent]))%list |})
      as [ok Hok].
    unfold bindM. rewrite Hok. unfold log_run, trace_after_distribution.
    cbn [run_log trace]. repeat rewrite <- app_assoc. reflexivity.
Qed.

Lemma key_truthy (k : string) : k <> "" -> truthy (VStr k) = true.
Proof.
  intros H. simpl. destruct (String.eqb k "") eqn:E; [|reflexivity].
  apply String.eqb_eq in E. contradiction.
Qed.

(** Method 1 delivers: the browser channel is not entered. *)
Lemma distribution_api (r dd : list (string * pyval)) (st : pstate) :
  BEEHIIV_API_KEY cfg <> "" ->
  beehiiv_create_post world = Returned (VDict r) ->
  dict_get r "data" (VDict []) = VDict dd ->
  distribution cfg world st
  = (Next {| post_id := dict_get dd "id" (VStr "unknown");
             post_url := dict_get dd "web_url" (VStr "");
             beehiiv_ok := true |},
     {| run_log := run_log st;
        trace := (trace st ++ [Call BeehiivApi])%list |}).
Proof.
  intros Hkey Hapi Hdata.
  unfold distribution, api_channel, browser_channel.
  rewrite (key_truthy _ Hkey), Hapi. cbn [negb get bind].
  unfold dict_get in Hdata |- *. rewrite Hdata.
  reflexivity.
Qed.

Lemma api_channel_unavailable (st : pstate) :
  api_unavailable cfg world ->
  api_channel cfg world st
  = (Next no_delivery,
     {| run_log := run_log st;
        trace := (trace st
                  ++ (if truthy (VStr (BEEHIIV_API_KEY cfg))
                      then [Call BeehiivApi] else []))%list |}).
Proof.
  intros Hapi. destruct st as [lg tr]. unfold api_channel.
  destruct Hapi as [Hk | (e & msg & Hf)].
  - rewrite Hk. cbn. rewrite app_nil_r. reflexivity.
  - rewrite Hf. destruct (truthy (VStr (BEEHIIV_API_KEY cfg))); cbn.
    + reflexivity.
    + rewrite app_nil_r. reflexivity.
Qed.

Lemma browser_channel_unavailable (st : pstate) :
  browser_unavailable world ->
  browser_channel world no_delivery st
  = (Next no_delivery,
     {| run_log := run_log st;
        trace := (trace st
                  ++ (if import_beehiiv_browser world
                      then [Call BeehiivBrowser] else []))%list |}).
Proof.
  intros Hbr. destruct st as [lg tr]. unfold browser_channel.
  cbn [no_delivery beehiiv_ok].
  destruct Hbr as [Hi | (e & msg & Hf)].
  - rewrite Hi. cbn. rewrite app_nil_r. reflexivity.
  - rewrite Hf. destruct (import_beehiiv_browser world); cbn.
    + reflexivity.
    + rewrite app_nil_r. reflexivity.
Qed.

(** Neither method delivers: the chain ends with nothing published. *)
Lemma distribution_all_fail (st : pstate) :
  api_unavailable cfg world -> browser_unavailable world ->
  distribution cfg world st
  = (Next no_delivery,
     {| run_log := run_log st;
        trace := (trace st ++ attempted_channels cfg world)%list |}).
Proof.
  intros Hapi Hbr. unfold distribution, bindM.
  rewrite (api_channel_unavailable st Hapi).
  rewrite (browser_channel_unavailable _ Hbr).
  unfold attempted_channels. cbn [run_log trace].
  rewrite <- app_assoc. reflexivity.
Qed.

(** Method 1 is unavailable and method 2 returns a dictionary: the
    browser result is what the chain leaves behind. *)
Lemma distribution_browser (r : list (string * pyval)) (st : pstate) :
  api_unavailable cfg world ->
  import_beehiiv_browser world = true ->
  publish_post world = Returned (VDict r) ->
  distribution cfg world st
  = (Next {| post_id := dict_get r "post_id" (VStr "browser-post");
             post_url := dict_get r "post_url" (VStr "");
             beehiiv_ok := true |},
     {| run_log := run_log st;
        trace := (trace st ++ attempted_channels cfg world)%list |}).
Proof.
  intros Hapi Himp Hpub. unfold distribution, bindM.
  rewrite (api_channel_unavailable st Hapi).
  unfold browser_channel, attempted_channels, dict_get.
  cbn [no_delivery beehiiv_ok]. rewrite Himp, Hpub.
  cbn. rewrite <- app_assoc. reflexivity.
Qed.

(** A browser publication closes the run as a success whatever locator it
    returns, and that locator is what the social stage receives. *)
Lemma browser_delivery_run (log : file) (snap : snapshot)
    (warnings : list string) (free_html premium_html : string)
    (r : list (string * pyval)) :
  reaches_distribution fmt str_exn cfg world snap warnings free_html
    premium_html ->
  api_unavailable cfg world ->
  import_beehiiv_browser world = true ->
  publish_post world = Returned (VDict r) ->
  exists (st' : pstate) (rec : list (string * pyval)),
    main' (boot log) = (Next tt, st')
    /\ In (CallSocial (fst (after_seo inject_json_ld world free_html))
             (dict_get r "post_url" (VStr ""))) (trace st')
    /\ run_log st' = append_record log (VDict rec)
    /\ lookup "status" rec = Some (VStr "SUCCESS")
    /\ lookup "beehiiv_used" rec = Some (VBool true).
Proof.
  intros Hreach Hapi Himp Hpub.
  rewrite (main_reaches_live_run log snap warnings free_html premium_html
             Hreach).
  destruct (live_run_closes snap (choose_post_type cfg world) warnings
              (payload (africa_run world)) (payload (contract_run world))
              (fst (after_seo inject_json_ld world free_html))
              (snd (after_seo inject_json_ld world free_html))
              premium_html _ _ _
              (distribution_browser r
                 {| run_log := log; trace := trace_before_distribution |}
                 Hapi Himp Hpub)) as [m Hrun].
  cbn [beehiiv_ok post_id post_url run_log trace] in Hrun.
  eexists. eexists. split; [exact Hrun|].
  cbn [run_log trace]. split.
  { apply in_or_app. right. apply in_or_app. left.
    unfold trace_after_distribution. right. left. reflexivity. }
  repeat split; reflexivity.
Qed.

(** C5, as the code has it. In every live run that reaches distribution
    with an API key set and in which [beehiiv_create_post] returns a
    well-formed response, one whose [data] (an empty dictionary when
    missing) is a dictionary giving a non-empty post id, "unknown" when it
    has none, and a web URL or none, the browser channel is never
    called: the trace goes from the API call straight to
    the later stages, and the one record appended is SUCCESS with the
    API's post id and URL, [beehiiv_used] true and the configured publish
    type. *)
Theorem api_success_is_authoritative :
  forall (log : file) (snap : snapshot) (warnings : list string)
         (free_html premium_html : string)
         (r dd : list (string * pyval)) (id url : string),
    reaches_distribution fmt str_exn cfg world snap warnings free_html
      premium_html ->
    BEEHIIV_API_KEY cfg <> "" ->
    beehiiv_create_post world = Returned (VDict r) ->
    dict_get r "data" (VDict []) = VDict dd ->
    dict_str dd "id" "unknown" = Some id ->
    id <> "" ->
    dict_str dd "web_url" "" = Some url ->
    exists (st' : pstate) (rec : list (string * pyval)),
      main' (boot log) = (Next tt, st')
      /\ trace st'
         = (trace_before_distribution ++ [Call BeehiivApi]
            ++ trace_after_distribution
                 (fst (after_seo inject_json_ld world free_html)) (VStr url)
            ++ mail_trace cfg world (DraftReady (VStr id)))%list
      /\ ~ In (Call BeehiivBrowser) (trace st')
      /\ run_log st' = append_record log (VDict rec)
      /\ lookup "status" rec = Some (VStr "SUCCESS")
      /\ lookup "post_id" rec = Some (VStr id)
      /\ lookup "post_url" rec = Some (VStr url)
      /\ lookup "beehiiv_used" rec = Some (VBool true)
      /\ lookup "publish_type" rec = Some (VStr (PUBLISH_TYPE cfg)).
Proof.
  intros log snap warnings free_html premium_html r dd id url
         Hreach Hkey Hapi Hdata Hid Hne Hurl.
  assert (Eid : dict_get dd "id" (VStr "unknown") = VStr id).
  { unfold dict_str in Hid. unfold dict_get.
    destruct (lookup "id" dd) as [[| | | |s| |]|]; congruence. }
  assert (Eurl : dict_get dd "web_url" (VStr "") = VStr url).
  { unfold dict_str in Hurl. unfold dict_get.
    destruct (lookup "web_url" dd) as [[| | | |s| |]|]; congruence. }
  rewrite (main_reaches_live_run log snap warnings free_html premium_html
             Hreach).
  destruct (live_run_closes snap (choose_post_type cfg world) warnings
              (payload (africa_run world)) (payload (contract_run world))
              (fst (after_seo inject_json_ld world free_html))
              (snd (after_seo inject_json_ld world free_html))
              premium_html _ _ _
              (distribution_api r dd
                 {| run_log := log; trace := trace_before_distribution |}
                 Hkey Hapi Hdata)) as [m Hrun].
  rewrite Eid, Eurl in Hrun. cbn [beehiiv_ok post_id post_url] in Hrun.
  eexists. eexists. split; [exact Hrun|].
  cbn [run_log trace].
  split; [rewrite <- app_assoc; reflexivity|].
  split.
  { intros Hin. unfold mail_trace in Hin.
    destruct (truthy (VStr (NOTIFY_PASSWORD cfg))); cbn in Hin;
      repeat (destruct Hin as [Hin|Hin]; [discriminate|]); exact Hin. }
  split; [reflexivity|].
  unfold success_details. cbn [lookup app String.eqb Ascii.eqb Bool.eqb
                               beehiiv_ok post_id post_url].
  unfold or_else. rewrite (key_truthy _ Hne).
  repeat split.
  destruct url; reflexivity.
Qed.

(** C2, as the code has it. In every live run that reaches distribution
    and in which the API is unavailable, browser automation is unavailable
    and the briefing mail does not go out, the run still returns normally
    and appends exactly one record, with status SUCCESS, post id
    "email-delivery", [beehiiv_used] false and publish type
    "email-fallback"; no mail is delivered and the process does not exit
    with an error. *)
Theorem all_channels_failing_logs_success :
  forall (log : file) (snap : snapshot) (warnings : list string)
         (free_html premium_html : string),
    reaches_distribution fmt str_exn cfg world snap warnings free_html
      premium_html ->
    api_unavailable cfg world ->
    browser_unavailable world ->
    mail_undelivered cfg world ->
    exists (st' : pstate) (rec : list (string * pyval)),
      main' (boot log) = (Next tt, st')
      /\ run_log st' = append_record log (VDict rec)
      /\ lookup "status" rec = Some (VStr "SUCCESS")
      /\ lookup "post_id" rec = Some (VStr "email-delivery")
      /\ lookup "beehiiv_used" rec = Some (VBool false)
      /\ lookup "publish_type" rec = Some (VStr "email-fallback")
      /\ (forall m, ~ In (Smtp m true) (trace st'))
      /\ (forall code, ~ In (Exit code) (trace st')).
Proof.
  intros log snap warnings free_html premium_html Hreach Hapi Hbr Hmail.
  rewrite (main_reaches_live_run log snap warnings free_html premium_html
             Hreach).
  destruct (live_run_closes snap (choose_post_type cfg world) warnings
              (payload (africa_run world)) (payload (contract_run world))
              (fst (after_seo inject_json_ld world free_html))
              (snd (after_seo inject_json_ld world free_html))
              premium_html _ _ _
              (distribution_all_fail
                 {| run_log := log; trace := trace_before_distribution |}
                 Hapi Hbr)) as [m Hrun].
  cbn [no_delivery beehiiv_ok post_id post_url run_log trace] in Hrun.
  eexists. eexists. split; [exact Hrun|].
  cbn [run_log trace].
  split; [reflexivity|].
  assert (Hev : forall e,
             In e (trace_before_distribution
                   ++ attempted_channels cfg world
                   ++ trace_after_distribution
                        (fst (after_seo inject_json_ld world free_html))
                        (VStr "")
                   ++ mail_trace cfg world
                        (FullBriefing (snd m) premium_html))%list ->
             (forall m0, e <> Smtp m0 true) /\ (forall c, e <> Exit c)).
  { intros e Hin.
    apply in_app_or in Hin. destruct Hin as [Hin|Hin].
    { cbn in Hin.
      repeat (destruct Hin as [<-|Hin]; [split; discriminate|]).
      contradiction. }
    apply in_app_or in Hin. destruct Hin as [Hin|Hin].
    { unfold attempted_channels in Hin.
      destruct (truthy (VStr (BEEHIIV_API_KEY cfg)));
        destruct (import_beehiiv_browser world); cbn in Hin;
        repeat (destruct Hin as [<-|Hin]; [split; discriminate|]);
        contradiction. }
    apply in_app_or in Hin. destruct Hin as [Hin|Hin].
    { cbn in Hin.
      repeat (destruct Hin as [<-|Hin]; [split; discriminate|]).
      contradiction. }
    unfold mail_trace in Hin.
    destruct Hmail as [Hpw|Hsmtp].
    - rewrite Hpw in Hin. contradiction.
    - rewrite Hsmtp in Hin.
      destruct (truthy (VStr (NOTIFY_PASSWORD cfg))); cbn in Hin;
        [|contradiction].
      destruct Hin as [<-|[]]. split; discriminate. }
  repeat split; try reflexivity.
  - intros m0 Hin. rewrite <- app_assoc in Hin.
    destruct (Hev _ Hin) as [H1 _]. exact (H1 m0 eq_refl).
  - intros c Hin. rewrite <- app_assoc in Hin.
    destruct (Hev _ Hin) as [_ H2]. exact (H2 c eq_refl).
Qed.

(** *** The quality gate *)

Lemma in_band_outside (price : pyval) :
  outside_band price = true ->
  in_band price = Ok false /\ is_num price = true.
Proof.
  unfold outside_band, in_band, is_num, ge, le.
  destruct (num_of price) as [[q| | |]|]; try discriminate; cbn;
    intros H; split; try reflexivity.
  destruct (Qle_bool 800 q); [|reflexivity].
  cbn in H |- *. apply negb_true_iff in H. rewrite H. reflexivity.
Qed.

Lemma gt_num (v : pyval) (c : Q) :
  is_num v = true -> exists b, gt v c = Ok b.
Proof.
  unfold is_num, gt. destruct (num_of v); [eauto|discriminate].
Qed.

Lemma format_num_num (spec : string) (v : pyval) :
  is_num v = true -> exists text, format_num fmt spec v = Ok text.
Proof.
  unfold is_num, format_num. destruct (num_of v); [eauto|discriminate].
Qed.

Lemma missing_fx_dict (f : list (string * pyval)) (codes : list string) :
  exists m, missing_fx (VDict f) codes = Ok m.
Proof.
  induction codes as [|c codes [m IH]]; [eexists; reflexivity|].
  cbn [missing_fx get bind]. rewrite IH. cbn [bind]. eauto.
Qed.

(** On a typed snapshot whose price is outside the band the quality check
    returns, and its first finding is the CRITICAL one. *)
Lemma check_data_quality_flags_price (snapshot : pyval) :
  snapshot_typed snapshot = true ->
  outside_band (snapshot_price snapshot) = true ->
  exists w rest,
    check_data_quality fmt snapshot = Ok (w :: rest)
    /\ is_critical w = true.
Proof.
  destruct snapshot as [| | | | | |d]; try discriminate.
  unfold snapshot_typed, snapshot_price. intros Htyped Hout.
  apply andb_true_iff in Htyped. destruct Htyped as [Hgold Hfx].
  assert (G : exists g,
             (match lookup "gold" d with Some x => x | None => VDict [] end)
             = VDict g
             /\ outside_band (match lookup "price" g with
                              | Some p => p | None => VInt 0 end) = true
             /\ absent_or num_or_none (lookup "day_chg_pct" g) = true).
  { destruct (lookup "gold" d) as [[| | | | | |g]|]; try discriminate.
    - exists g. apply andb_true_iff in Hgold. destruct Hgold as [_ Hp].
      repeat split; assumption.
    - exists []. repeat split; assumption. }
  destruct G as (g & Eg & Hprice & Hpct).
  assert (F : exists f,
             (match lookup "fx_rates" d with
              | Some x => x | None => VDict [] end) = VDict f).
  { destruct (lookup "fx_rates" d) as [[| | | | | |f]|]; try discriminate;
      eauto. }
  destruct F as (f & Ef).
  unfold check_data_quality. cbn [get bind]. rewrite Eg, Ef. cbn [get bind].
  destruct (in_band_outside _ Hprice) as [-> Hnum]. cbn [bind].
  destruct (format_num_num ",.2f" _ Hnum) as [text ->]. cbn [bind].
  assert (Hraw : num_or_none (match lookup "day_chg_pct" g with
                              | Some x => x | None => VNone end) = true).
  { destruct (lookup "day_chg_pct" g); [exact Hpct|reflexivity]. }
  destruct (abs_or_zero_num _ Hraw) as (pct & -> & Hpctn). cbn [bind].
  destruct (gt_num pct 10 Hpctn) as [big ->]. cbn [bind].
  destruct (missing_fx_dict f [ "ZAR"; "GHS"; "NGN"; "KES" ]) as [m Hm].
  destruct big.
  - destruct (format_num_num ".1f" _ Hpctn) as [t2 ->]. cbn [bind].
    rewrite Hm. cbn [bind app]. eexists. eexists. split; reflexivity.
  - cbn [bind]. rewrite Hm. cbn [bind app].
    eexists. eexists. split; reflexivity.
Qed.

(** What the market stage hands on is a typed snapshot, and the price the
    gate reads is the price the stage extracted. *)
Lemma market_snapshot_typed (snap : snapshot) :
  market_intelligence fmt str_exn world = Returned snap ->
  snapshot_typed (data snap) = true
  /\ snapshot_price (data snap) = g_price snap.
Proof.
  unfold market_intelligence.
  destruct (truthy (fetch_gold world)); cbn [negb]; [|discriminate].
  destruct (fetch_gold world) as [| | | | | |g]; cbn [getitem bind];
    try discriminate.
  destruct (lookup "price" g) as [p|] eqn:Ep; cbn [bind get]; [|discriminate].
  destruct (ge _ 0) as [b0|] eqn:E0; cbn [bind]; [|discriminate].
  destruct (format_num fmt ",.2f" p) as [t1|] eqn:E1; cbn [bind];
    [|discriminate].
  destruct (format_num fmt ".2f" _) as [t2|] eqn:E2; cbn [bind];
    [|discriminate].
  destruct (fetch_fx_news world) as [[[fx kp] news]|]; [|discriminate].
  destruct (py_len news) as [n|]; [|discriminate].
  intros [= <-]. cbn [data g_price].
  unfold snapshot_typed, snapshot_price.
  cbn [lookup String.eqb Ascii.eqb Bool.eqb]. rewrite Ep.
  split; [|reflexivity].
  apply andb_true_iff. split; [|reflexivity].
  apply andb_true_iff. split.
  - cbn [absent_or]. unfold format_num in E1. unfold is_num.
    destruct (num_of p); [reflexivity|discriminate].
  - destruct (lookup "day_chg_pct" g) as [x|]; [|reflexivity].
    cbn [absent_or]. unfold ge in E0.
    destruct x; try reflexivity; discriminate.
Qed.

(** The empty snapshot: price read as 0, no FX rates, no news. *)
Lemma check_data_quality_empty_snapshot :
  check_data_quality fmt (VDict [])
  = Ok [ "CRITICAL: Gold price $" ++ fmt ",.2f" (Fin (inject_Z 0))
         ++ " is outside expected range ($800–$15,000). "
         ++ "Possible stale or corrupted data. Halting pipeline.";
         "WARNING: FX rates missing for ZAR, GHS, NGN, KES. "
         ++ "Fallback rates used in karat pricing table.";
         "WARNING: No news headlines fetched. RSS feeds may be temporarily down." ].
Proof. reflexivity. Qed.

(** C1. For every typed market snapshot whose gold price is not within
    [800, 15000] (a missing price counts as 0), [check_data_quality]
    returns findings of which the first starts with "CRITICAL"; and in
    every run whose market stage hands that snapshot on, [main] appends one
    HALTED record, sends the failure notice, and exits with status 1 having
    called only the market fetch: content synthesis is never invoked. *)
Theorem critical_price_halts_before_synthesis :
  forall (snapshot : pyval),
    snapshot_typed snapshot = true ->
    outside_band (snapshot_price snapshot) = true ->
    exists (w : string) (rest : list string),
      check_data_quality fmt snapshot = Ok (w :: rest)
      /\ is_critical w = true
      /\ forall (log : file) (snap : Orchestrator.snapshot),
           PRINT_LOG cfg = false ->
           import_market_agent world = None ->
           market_intelligence fmt str_exn world = Returned snap ->
           data snap = snapshot ->
           exists st',
             main' (boot log) = (Stop, st')
             /\ run_log st'
                = append_record log
                    (record' "HALTED"
                       [ ("stage", VStr "anomaly_detection");
                         ("gold_price", snapshot_price snapshot);
                         ("warnings", VList (map VStr (w :: rest))) ])
             /\ trace st'
                = ([Call MarketFetch]
                   ++ mail_trace cfg world (FailureNotice "anomaly_detection")
                   ++ [Exit 1])%list
             /\ ~ In (Call ContentSynthesis) (trace st').
Proof.
  intros snapshot Htyped Hout.
  destruct (check_data_quality_flags_price snapshot Htyped Hout)
    as (w & rest & Hcheck & Hcrit).
  exists w, rest. split; [exact Hcheck|]. split; [exact Hcrit|].
  intros log snap Hlog Himp Hmarket Hdata.
  destruct (market_snapshot_typed snap Hmarket) as [_ Hprice].
  rewrite Hdata in Hprice.
  unfold main, pipeline, anomaly_detection.
  rewrite Hlog, Himp, Hmarket, Hdata, Hcheck.
  cbn [filter]. unfold is_critical in Hcrit. rewrite Hcrit.
  unfold notify_failure.
  destruct (send_email_run (FailureNotice "anomaly_detection")
              {| run_log :=
                   append_record log
                     (record' "HALTED"
                        [ ("stage", VStr "anomaly_detection");
                          ("gold_price", g_price snap);
                          ("warnings", VList (map VStr (w :: rest))) ]);
                 trace := [Call MarketFetch] |}) as [ok Hok].
  unfold bindM, emit, log_run, boot. cbn [run_log trace app].
  rewrite Hok. unfold ret, exit. cbn [run_log trace].
  eexists. split; [reflexivity|]. cbn [run_log trace].
  rewrite Hprice. split; [reflexivity|].
  split; [rewrite <- app_assoc; reflexivity|].
  intros Hin. unfold mail_trace in Hin.
  destruct (truthy (VStr (NOTIFY_PASSWORD cfg))); cbn in Hin;
    repeat (destruct Hin as [Hin|Hin]; [discriminate|]); exact Hin.
Qed.

End RunProperties.

(** C1, witness: a gold price of 100 dollars halts the first run. *)
Lemma critical_price_witness :
  exists st',
    Examples.first_run (Examples.cfg_with "app-password" "")
      (Examples.world_with 100 Examples.api_403 Examples.browser_no_login)
    = (Orchestrator.Stop, st')
    /\ Orchestrator.statuses (Orchestrator.run_log st')
       = [Some (VStr "HALTED")]
    /\ ~ In (Orchestrator.Call Orchestrator.ContentSynthesis)
            (Orchestrator.trace st').
Proof.
  pose (w := Examples.world_with 100 Examples.api_403
               Examples.browser_no_login).
  destruct (critical_price_halts_before_synthesis
              Examples.stamp Examples.plain_fmt Examples.plain_exn
              Examples.keep Examples.append_html Examples.append_html
              (Examples.cfg_with "app-password" "") w
              (Orchestrator.data (Examples.snap_of w))
              eq_refl eq_refl)
    as (msg & rest & _ & _ & Hrun).
  destruct (Hrun None (Examples.snap_of w) eq_refl eq_refl eq_refl eq_refl)
    as (st' & Hmain & Hlog & _ & Hno).
  exists st'. split; [exact Hmain|]. split; [|exact Hno].
  rewrite Hlog. reflexivity.
Defined.

(** C2, witness: API refused, no browser login, no mail password. *)
Lemma all_channels_failing_witness :
  exists st',
    Examples.first_run (Examples.cfg_with "" "bh-key")
      (Examples.world_with 2950 Examples.api_403 Examples.browser_no_login)
    = (Orchestrator.Next tt, st')
    /\ Orchestrator.statuses (Orchestrator.run_log st')
       = [Some (VStr "SUCCESS")].
Proof.
  pose (w := Examples.world_with 2950 Examples.api_403
               Examples.browser_no_login).
  destruct (all_channels_failing_logs_success
              Examples.stamp Examples.plain_fmt Examples.plain_exn
              Examples.keep Examples.append_html Examples.append_html
              (Examples.cfg_with "" "bh-key") w
              None (Examples.snap_of w)
              [] "<div>free</div>" "<div>premium</div>")
    as (st' & rec & Hmain & Hlog & Hstatus & _).
  - repeat split; vm_compute; reflexivity.
  - right. eexists. eexists. reflexivity.
  - right. eexists. eexists. reflexivity.
  - left. reflexivity.
  - exists st'. split; [exact Hmain|].
    rewrite Hlog. unfold Orchestrator.statuses, append_record.
    cbn [map Orchestrator.field_of]. rewrite Hstatus. reflexivity.
Defined.

(** C2, as stated: with the API refused, the browser login missing and no
    mail password, every channel fails, yet the record the run appends is
    SUCCESS, not FAILED, and nothing is mailed. *)
Lemma all_channels_fail_counterexample :
  let cfg := Examples.cfg_with "" "bh-key" in
  let world := Examples.world_with 2950 Examples.api_403
                 Examples.browser_no_login in
  Spec.api_unavailable cfg world
  /\ Spec.browser_unavailable world
  /\ Spec.mail_undelivered cfg world
  /\ fst (Examples.first_run cfg world) = Orchestrator.Next tt
  /\ Orchestrator.statuses
       (Orchestrator.run_log (snd (Examples.first_run cfg world)))
     = [Some (VStr "SUCCESS")]
  /\ Orchestrator.trace (snd (Examples.first_run cfg world))
     = [ Orchestrator.Call Orchestrator.MarketFetch;
         Orchestrator.Call Orchestrator.AfricaIntelligence;
         Orchestrator.Call Orchestrator.ContractTransparency;
         Orchestrator.Call Orchestrator.ContentSynthesis;
         Orchestrator.Call Orchestrator.SeoAgent;
         Orchestrator.Call Orchestrator.BeehiivApi;
         Orchestrator.Call Orchestrator.BeehiivBrowser;
         Orchestrator.Call Orchestrator.LinkedInGenerator;
         Orchestrator.CallSocial
           (Orchestrator.seo_default
              (Examples.world_with 2950 Examples.api_403
                 Examples.browser_no_login))
           (VStr "");
         Orchestrator.Call Orchestrator.PartnershipAgent;
         Orchestrator.Call Orchestrator.MonetizationAgent;
         Orchestrator.Call Orchestrator.AnalyticsAgent ].
Proof.
  cbv zeta. split; [right; eexists; eexists; reflexivity|].
  split; [right; eexists; eexists; reflexivity|].
  split; [left; reflexivity|].
  repeat split; vm_compute; reflexivity.
Qed.

(** C5, witness: the API creates the post; the browser is not called. *)
Lemma api_success_witness :
  exists st',
    Examples.first_run (Examples.cfg_with "app-password" "bh-key")
      (Examples.world_with 2950 Examples.api_created Examples.browser_created)
    = (Orchestrator.Next tt, st')
    /\ ~ In (Orchestrator.Call Orchestrator.BeehiivBrowser)
            (Orchestrator.trace st')
    /\ map (Orchestrator.field_of "post_id")
         (match Orchestrator.run_log st' with Some ls => ls | None => [] end)
       = [Some (VStr "post_123")].
Proof.
  pose (w := Examples.world_with 2950 Examples.api_created
               Examples.browser_created).
  destruct (api_success_is_authoritative
              Examples.stamp Examples.plain_fmt Examples.plain_exn
              Examples.keep Examples.append_html Examples.append_html
              (Examples.cfg_with "app-password" "bh-key") w
              None (Examples.snap_of w)
              [] "<div>free</div>" "<div>premium</div>"
              [ ("data",
                 VDict [ ("id", VStr "post_123");
                         ("web_url",
                          VStr "https://www.africagoldintelligence.com/p/briefing") ]) ]
              [ ("id", VStr "post_123");
                ("web_url",
                 VStr "https://www.africagoldintelligence.com/p/briefing") ]
              "post_123"
              "https://www.africagoldintelligence.com/p/briefing")
    as (st' & rec & Hmain & _ & Hno & Hlog & _ & Hid & _).
  - repeat split; vm_compute; reflexivity.
  - discriminate.
  - reflexivity.
  - reflexivity.
  - reflexivity.
  - discriminate.
  - reflexivity.
  - exists st'. split; [exact Hmain|]. split; [exact Hno|].
    rewrite Hlog. cbn [append_record map Orchestrator.field_of].
    rewrite Hid. reflexivity.
Defined.

(** C5, as stated: a call that returns is not yet a result the run keeps.
    When the API answers with [data] null, reading the post id raises
    inside the [try] of the API channel, so the browser channel is called
    after the API has returned and the record carries the browser's post
    id; and when the API answers with an empty id, no browser is called
    but the record carries "email-delivery", not the API's id. *)
Lemma api_returned_malformed_counterexample :
  let cfg := Examples.cfg_with "app-password" "bh-key" in
  let world1 := Examples.world_with 2950 Examples.api_null_data
                  Examples.browser_created in
  let world2 := Examples.world_with 2950 Examples.api_empty_id
                  Examples.browser_created in
  Orchestrator.beehiiv_create_post world1
  = Orchestrator.Returned (VDict [ ("data", VNone) ])
  /\ In (Orchestrator.Call Orchestrator.BeehiivApi)
        (Orchestrator.trace (snd (Examples.first_run cfg world1)))
  /\ In (Orchestrator.Call Orchestrator.BeehiivBrowser)
        (Orchestrator.trace (snd (Examples.first_run cfg world1)))
  /\ map (Orchestrator.field_of "post_id")
        (match Orchestrator.run_log (snd (Examples.first_run cfg world1)) with
         | Some ls => ls
         | None => []
         end)
     = [Some (VStr "browser-post")]
  /\ ~ In (Orchestrator.Call Orchestrator.BeehiivBrowser)
          (Orchestrator.trace (snd (Examples.first_run cfg world2)))
  /\ map (fun l => (Orchestrator.field_of "post_id" l,
                    Orchestrator.field_of "beehiiv_used" l))
        (match Orchestrator.run_log (snd (Examples.first_run cfg world2)) with
         | Some ls => ls
         | None => []
         end)
     = [(Some (VStr "email-delivery"), Some (VBool true))].
Proof.
  cbv zeta. split; [reflexivity|].
  split; [vm_compute; tauto|].
  split; [vm_compute; tauto|].
  split; [vm_compute; reflexivity|].
  split; [|vm_compute; reflexivity].
  vm_compute. intros H.
  repeat (destruct H as [H|H]; [discriminate H|]). exact H.
Qed.


(** ** Links of the social posts *)

Section SocialLinks.

Import Spec.

Variable _pick_hook : string -> pyval -> datetime -> res string.
Variable twitter_hashtags : string -> pyval -> res string.
Variable linkedin_body : string -> pyval -> datetime -> res string.
Variable whatsapp_head : string -> pyval -> datetime -> res (list string).
Variable py_str : pyval -> string.

Lemma resolve_url_absent (post_url : pyval) :
  locator_absent post_url = true -> Social.resolve_url post_url = Ok None.
Proof.
  destruct post_url as [| | | |s| |]; try discriminate; [reflexivity|].
  unfold locator_absent, Social.resolve_url. intros H.
  apply String.eqb_eq in H.
  destruct (truthy (VStr s)); [|reflexivity].
  rewrite H. reflexivity.
Qed.

Lemma slug_readable (seo_data : pyval) :
  seo_readable seo_data = true ->
  exists slug,
    (if truthy seo_data then get seo_data "slug" VNone else Ok VNone)
    = Ok slug.
Proof.
  destruct seo_data as [|b|z|f|s|l|d]; simpl; intros H;
    try (rewrite negb_true_iff in H; rewrite H); eauto.
  destruct d; eauto.
Qed.

(** Without a resolved URL and without a slug every builder links the
    homepage. *)
Lemma choose_link_default :
  Social.choose_link py_str VNone None = Social.NEWSLETTER_URL.
Proof. reflexivity. Qed.

(** C8. When the locator handed to [social_agent.run] is absent (None,
    empty or blank), then whatever the SEO metadata says about a slug, the
    tweet, the LinkedIn post and the WhatsApp message all carry the
    newsletter homepage as their link, which is not empty.  And when
    that locator is what a browser publication returned, the run still
    counts as delivered: it hands the locator to the social stage and
    closes with a SUCCESS record whose [beehiiv_used] is true. *)
Theorem social_posts_fall_back_to_homepage :
  forall (post_type : string) (data : pyval) (today : datetime)
         (seo_data post_url : pyval) (hook tags body : string)
         (head : list string),
    locator_absent post_url = true ->
    seo_readable seo_data = true ->
    _pick_hook post_type data today = Ok hook ->
    twitter_hashtags post_type data = Ok tags ->
    linkedin_body post_type data today = Ok body ->
    whatsapp_head post_type data today = Ok head ->
    (exists hook',
       Social.run _pick_hook twitter_hashtags linkedin_body whatsapp_head
         py_str post_type data today seo_data post_url
       = Ok {| Social.twitter :=
                 hook' ++ Str.nl ++ Str.nl ++ Social.NEWSLETTER_URL
                 ++ Str.nl ++ Str.nl ++ tags;
               Social.linkedin :=
                 body ++ "Read the full briefing → " ++ Social.NEWSLETTER_URL
                 ++ Str.nl ++ Str.nl ++ Social.linkedin_hashtags;
               Social.whatsapp :=
                 Str.join Str.nl
                   (head ++ [ ""; "📖 Full briefing (free + premium):";
                              Social.NEWSLETTER_URL; "";
                              "_Reply STOP to unsubscribe_" ])%list |})
    /\ Social.NEWSLETTER_URL <> ""
    /\ (forall (isoformat : datetime -> string)
               (fmt : string -> pyfloat -> string) (str_exn : exn -> string)
               (round_to : Z -> pyval -> pyval)
               (inject_json_ld splice_banner : string -> string -> string)
               (cfg : Orchestrator.config) (world : Orchestrator.env)
               (log : file) (snap : Orchestrator.snapshot)
               (warnings : list string) (free_html premium_html : string)
               (r : list (string * pyval)),
          reaches_distribution fmt str_exn cfg world snap warnings free_html
            premium_html ->
          api_unavailable cfg world ->
          Orchestrator.import_beehiiv_browser world = true ->
          Orchestrator.publish_post world = Orchestrator.Returned (VDict r) ->
          Orchestrator.dict_get r "post_url" (VStr "") = post_url ->
          exists (st' : Orchestrator.pstate) (rec : list (string * pyval)),
            Orchestrator.main isoformat fmt str_exn round_to inject_json_ld
              splice_banner cfg world (Orchestrator.boot log)
            = (Orchestrator.Next tt, st')
            /\ In (Orchestrator.CallSocial
                     (fst (after_seo inject_json_ld world free_html))
                     post_url)
                  (Orchestrator.trace st')
            /\ Orchestrator.run_log st' = append_record log (VDict rec)
            /\ lookup "status" rec = Some (VStr "SUCCESS")
            /\ lookup "beehiiv_used" rec = Some (VBool true)).
Proof.
  intros post_type data today seo_data post_url hook tags body head
         Habsent Hseo Hhook Htags Hbody Hhead.
  split; [|split; [discriminate|]].
  - unfold Social.run.
    destruct (slug_readable seo_data Hseo) as [slug ->].
    rewrite (resolve_url_absent post_url Habsent). cbn [bind].
    unfold Social.build_twitter_post, Social.build_linkedin_post,
      Social.build_whatsapp_message.
    rewrite Hhook, Htags, Hbody, Hhead, choose_link_default. cbn [bind].
    match goal with
    | |- context [if ?c then _ else _] => destruct c
    end; cbn [bind]; eexists; reflexivity.
  - intros isoformat fmt str_exn round_to inject_json_ld splice_banner cfg
           world log snap warnings free_html premium_html r
           Hreach Hapi Himp Hpub <-.
    apply (browser_delivery_run isoformat fmt str_exn round_to inject_json_ld
             splice_banner cfg world log snap warnings free_html premium_html
             r Hreach Hapi Himp Hpub).
Qed.

End SocialLinks.

(** C8, witness: the browser published but returned an empty locator. *)
Lemma social_posts_witness :
  let cfg := Examples.cfg_with "app-password" "bh-key" in
  let world := Examples.world_with 2950 Examples.api_403
                 Examples.browser_created in
  (exists hook',
     Social.run Examples.hook_of Examples.tags_of Examples.body_of
       Examples.head_of Examples.show "aggregator" Examples.snapshot_c4
       Examples.now_march
       (VDict [ ("slug", VStr "gold-briefing-2026-03-05") ]) (VStr "")
     = Ok {| Social.twitter :=
               hook' ++ Str.nl ++ Str.nl ++ Social.NEWSLETTER_URL
               ++ Str.nl ++ Str.nl ++ "#Gold #AfricaGoldIntelligence";
             Social.linkedin :=
               "Gold Market Digest. " ++ "Read the full briefing → "
               ++ Social.NEWSLETTER_URL ++ Str.nl ++ Str.nl
               ++ Social.linkedin_hashtags;
             Social.whatsapp :=
               Str.join Str.nl
                 [ "*Africa Gold Intelligence*"; ""; "";
                   "📖 Full briefing (free + premium):";
                   Social.NEWSLETTER_URL; ""; "_Reply STOP to unsubscribe_" ] |})
  /\ exists st',
       Examples.first_run cfg world = (Orchestrator.Next tt, st')
       /\ In (Orchestrator.CallSocial (Orchestrator.seo_default world)
                (VStr ""))
             (Orchestrator.trace st')
       /\ Orchestrator.statuses (Orchestrator.run_log st')
          = [Some (VStr "SUCCESS")].
Proof.
  cbv zeta.
  pose (w := Examples.world_with 2950 Examples.api_403
               Examples.browser_created).
  destruct (social_posts_fall_back_to_homepage
              Examples.hook_of Examples.tags_of Examples.body_of
              Examples.head_of Examples.show "aggregator"
              Examples.snapshot_c4 Examples.now_march
              (VDict [ ("slug", VStr "gold-briefing-2026-03-05") ])
              (VStr "") "Gold at $2,950 today."
              "#Gold #AfricaGoldIntelligence" "Gold Market Digest. "
              [ "*Africa Gold Intelligence*"; "" ]
              eq_refl eq_refl eq_refl eq_refl eq_refl eq_refl)
    as (Hposts & _ & Hrun).
  split; [exact Hposts|].
  destruct (Hrun Examples.stamp Examples.plain_fmt Examples.plain_exn
              Examples.keep Examples.append_html Examples.append_html
              (Examples.cfg_with "app-password" "bh-key") w None
              (Examples.snap_of w) [] "<div>free</div>" "<div>premium</div>"
              [ ("success", VBool true); ("post_url", VStr "");
                ("post_id", VStr "browser-post");
                ("method", VStr "browser") ])
    as (st' & rec & Hmain & Hsocial & Hlog & Hstatus & _).
  - repeat split; vm_compute; reflexivity.
  - right. eexists. eexists. reflexivity.
  - reflexivity.
  - reflexivity.
  - reflexivity.
  - exists st'. split; [exact Hmain|]. split; [exact Hsocial|].
    rewrite Hlog. unfold Orchestrator.statuses, append_record.
    cbn [map Orchestrator.field_of]. rewrite Hstatus. reflexivity.
Defined.

(** * Further properties *)

(** ** The strategy ladder *)

Section Ladder.

Import Notions.

Variable fromisoformat : string -> option datetime.

(** X1. For a fixed monetization log and clock, a higher score never gets
    a lower rung of the ladder none, value_reminder, soft_upsell,
    hard_upsell, promo. *)
Theorem select_strategy_monotone :
  forall (log : file) (now s1 s2 : Z),
    s1 <= s2 ->
    rank (Monetization.select_strategy fromisoformat log now s1)
    <= rank (Monetization.select_strategy fromisoformat log now s2).
Proof.
  intros log now s1 s2 Hle. unfold Monetization.select_strategy.
  set (dp := Monetization.PROMO_COOLDOWN_DAYS <=? _).
  set (dh := Monetization.HARD_UPSELL_COOLDOWN_DAYS <=? _).
  destruct dp, dh;
    destruct (Z.leb_spec 80 s1); destruct (Z.leb_spec 65 s1);
    destruct (Z.leb_spec 45 s1); destruct (Z.leb_spec 25 s1);
    destruct (Z.leb_spec 80 s2); destruct (Z.leb_spec 65 s2);
    destruct (Z.leb_spec 45 s2); destruct (Z.leb_spec 25 s2);
    cbn; lia.
Qed.

(** X2. Cooldowns only ever lower the answer to soft_upsell: the answer is
    "none" exactly below 25, "value_reminder" exactly from 25 to 44, and at
    least soft_upsell exactly from 45 up, whatever the log holds. *)
Theorem select_strategy_lower_rungs :
  forall (log : file) (now score : Z),
    let answer := Monetization.select_strategy fromisoformat log now score in
    String.eqb answer "none" = (score <? 25)
    /\ String.eqb answer "value_reminder" = (25 <=? score) && (score <? 45)
    /\ (2 <=? rank answer) = (45 <=? score).
Proof.
  intros log now score. cbv zeta. unfold Monetization.select_strategy.
  set (dp := Monetization.PROMO_COOLDOWN_DAYS <=? _).
  set (dh := Monetization.HARD_UPSELL_COOLDOWN_DAYS <=? _).
  destruct dp, dh;
    destruct (Z.leb_spec 80 score); destruct (Z.leb_spec 65 score);
    destruct (Z.leb_spec 45 score); destruct (Z.leb_spec 25 score);
    destruct (Z.ltb_spec score 25); destruct (Z.ltb_spec score 45);
    cbn; repeat split; try reflexivity; lia.
Qed.

End Ladder.

(** X1, witness. *)
Lemma select_strategy_monotone_witness :
  Notions.rank (Monetization.select_strategy Examples.iso None 0 50)
  <= Notions.rank (Monetization.select_strategy Examples.iso None 0 90).
Proof.
  apply (select_strategy_monotone Examples.iso None 0 50 90). lia.
Defined.

(** ** More on the opportunity score *)

Section ScoreShape.

Import Notions.

(** X3. Whenever [score_opportunity] returns, the total is the plain sum of
    the five components, each within its band, and never exceeds 99: the
    cap at 100 is never what decides the total. *)
Theorem score_total_is_uncapped_sum :
  forall (run_log : file) (data : pyval) (post_type : string)
         (s : Monetization.scores),
    Monetization.score_opportunity run_log data post_type = Ok s ->
    Monetization.total s
    = Monetization.volatility s + Monetization.rsi_extreme s
      + Monetization.post_type_score s + Monetization.ath_proximity s
      + Monetization.streak_bonus s
    /\ Monetization.total s <= 99
    /\ Monetization.volatility s <= 30
    /\ Monetization.rsi_extreme s <= 20
    /\ Monetization.post_type_score s <= 24
    /\ Monetization.ath_proximity s <= 20
    /\ Monetization.streak_bonus s <= 5.
Proof.
  intros run_log data post_type s H.
  unfold Monetization.score_opportunity in H.
  pose proof (post_type_score_bounds post_type) as Hty.
  set (ty := round _) in *. clearbody ty.
  set (streak := Monetization._get_success_streak run_log) in *.
  clearbody streak.
  unfold bind in H. cbv beta in H.
  repeat match type of H with
         | context [match ?c with _ => _ end] =>
             lazymatch c with
             | context [match _ with _ => _ end] => fail
             | _ => destruct c; try discriminate; cbv beta in H
             end
         end;
    apply (f_equal (fun r => match r with Ok x => x | Raise _ => s end)) in H;
    cbv beta iota in H; subst s;
    unfold Monetization.total, Monetization.volatility,
      Monetization.rsi_extreme, Monetization.post_type_score,
      Monetization.ath_proximity, Monetization.streak_bonus;
    cbv beta iota;
    lia.
Qed.

Lemma or_zero_default (o : option pyval) :
  or_else (match o with Some x => x | None => VNone end) (VInt 0)
  = or_else (match o with Some x => x | None => VInt 0 end) (VInt 0).
Proof. destruct o; reflexivity. Qed.

(** The volatility component is read off the absolute day change alone. *)
Lemma volatility_of_swing (run_log : file) (data : pyval)
    (post_type : string) (s : Monetization.scores) :
  Monetization.score_opportunity run_log data post_type = Ok s ->
  exists x,
    num_of (snapshot_swing data) = Some x
    /\ Monetization.volatility s = volatility_points x.
Proof.
  intros H. unfold Monetization.score_opportunity in H.
  unfold snapshot_swing, volatility_points.
  set (ty := round _) in *. clearbody ty.
  set (streak := Monetization._get_success_streak run_log) in *.
  clearbody streak.
  destruct (get data "gold" (VDict [])) as [gold|]; [|discriminate].
  cbn [bind] in H |- *.
  destruct gold as [| | | | | |g]; try discriminate.
  cbn [get bind] in H |- *. rewrite or_zero_default.
  destruct (abs _) as [pct|]; [|discriminate]. cbn [bind] in H.
  unfold ge at 1 2 3 in H.
  destruct (num_of pct) as [x|]; [|discriminate].
  exists x. split; [reflexivity|].
  unfold bind in H. cbv beta in H.
  repeat match type of H with
         | context [match ?c with _ => _ end] =>
             lazymatch c with
             | context [match _ with _ => _ end] => fail
             | _ => destruct c; try discriminate; cbv beta in H
             end
         end;
    apply (f_equal (fun r => match r with Ok x => x | Raise _ => s end)) in H;
    cbv beta iota in H; subst s; reflexivity.
Qed.

Lemma fle_trans (x y z : pyfloat) :
  fle x y = true -> fle y z = true -> fle x z = true.
Proof.
  destruct x as [a| | |], y as [b| | |], z as [c| | |]; cbn;
    try discriminate; try reflexivity.
  intros H1 H2. apply Qle_bool_iff in H1, H2. apply Qle_bool_iff.
  eapply Qle_trans; eassumption.
Qed.

Lemma volatility_points_monotone (x y : pyfloat) :
  fle x y = true -> volatility_points x <= volatility_points y.
Proof.
  intros Hxy. unfold volatility_points.
  destruct (fle (Fin 3) x) eqn:E3.
  { rewrite (fle_trans _ _ _ E3 Hxy). lia. }
  destruct (fle (Fin 2) x) eqn:E2.
  { rewrite (fle_trans _ _ _ E2 Hxy). destruct (fle (Fin 3) y); lia. }
  destruct (fle (Fin 1) x) eqn:E1.
  { rewrite (fle_trans _ _ _ E1 Hxy).
    destruct (fle (Fin 3) y); destruct (fle (Fin 2) y); lia. }
  destruct (fle (Fin 3) y); destruct (fle (Fin 2) y);
    destruct (fle (Fin 1) y); lia.
Qed.

(** X4. A larger absolute day change never lowers the volatility
    component: for two snapshots on which [score_opportunity] returns, if
    the first absolute change is at most the second then so are the
    volatility points, whatever else differs. *)
Theorem volatility_component_monotone :
  forall (log1 log2 : file) (data1 data2 : pyval) (type1 type2 : string)
         (s1 s2 : Monetization.scores) (x1 x2 : pyfloat),
    Monetization.score_opportunity log1 data1 type1 = Ok s1 ->
    Monetization.score_opportunity log2 data2 type2 = Ok s2 ->
    num_of (snapshot_swing data1) = Some x1 ->
    num_of (snapshot_swing data2) = Some x2 ->
    fle x1 x2 = true ->
    Monetization.volatility s1 <= Monetization.volatility s2.
Proof.
  intros log1 log2 data1 data2 type1 type2 s1 s2 x1 x2 H1 H2 E1 E2 Hle.
  destruct (volatility_of_swing _ _ _ _ H1) as (y1 & F1 & ->).
  destruct (volatility_of_swing _ _ _ _ H2) as (y2 & F2 & ->).
  rewrite E1 in F1. rewrite E2 in F2.
  injection F1 as <-. injection F2 as <-.
  apply volatility_points_monotone. exact Hle.
Qed.

End ScoreShape.

(** X3, witness: the scenario of 2950 dollars. *)
Lemma score_total_witness :
  Monetization.total
    {| Monetization.volatility := 22; Monetization.rsi_extreme := 12;
       Monetization.post_type_score := 24; Monetization.ath_proximity := 8;
       Monetization.streak_bonus := 0; Monetization.total := 66 |} <= 99.
Proof.
  exact (proj1 (proj2
    (score_total_is_uncapped_sum None Examples.snapshot_c4
       "trader_intelligence" _ eq_refl))).
Defined.

(** X4, witness: a day change of 0.5 percent against one of -3.5. *)
Lemma volatility_monotone_witness :
  Monetization.volatility
    {| Monetization.volatility := 5; Monetization.rsi_extreme := 0;
       Monetization.post_type_score := 16; Monetization.ath_proximity := 3;
       Monetization.streak_bonus := 0; Monetization.total := 24 |}
  <= Monetization.volatility
       {| Monetization.volatility := 30; Monetization.rsi_extreme := 0;
          Monetization.post_type_score := 16; Monetization.ath_proximity := 3;
          Monetization.streak_bonus := 0; Monetization.total := 49 |}.
Proof.
  exact (volatility_component_monotone None None
           (VDict [ ("gold", VDict [ ("day_chg_pct", VFloat (Fin (1 # 2))) ]) ])
           (VDict [ ("gold", VDict [ ("day_chg_pct", VFloat (Fin (- 7 # 2))) ]) ])
           "aggregator" "aggregator"
           {| Monetization.volatility := 5; Monetization.rsi_extreme := 0;
              Monetization.post_type_score := 16;
              Monetization.ath_proximity := 3;
              Monetization.streak_bonus := 0; Monetization.total := 24 |}
           {| Monetization.volatility := 30; Monetization.rsi_extreme := 0;
              Monetization.post_type_score := 16;
              Monetization.ath_proximity := 3;
              Monetization.streak_bonus := 0; Monetization.total := 49 |}
           (Fin (1 # 2)) (Fin (7 # 2))
           eq_refl eq_refl eq_refl eq_refl eq_refl).
Defined.

(** ** Writing to a log and reading it again *)

Section DiskLogs.

Variable glued : log_line -> pyval -> log_line.

Lemma drop_blank_snoc (ls : list log_line) (l : log_line) :
  is_blank l = false ->
  Disk.drop_blank (ls ++ [l]) = (Disk.drop_blank ls ++ [l])%list.
Proof.
  intros Hl. induction ls as [|a ls IH].
  - destruct l; [discriminate Hl|reflexivity|reflexivity].
  - destruct a; cbn [app Disk.drop_blank]; [exact IH|reflexivity|reflexivity].
Qed.

Lemma strip_lines_snoc (ls : list log_line) (l : log_line) :
  is_blank l = false ->
  Disk.strip_lines (ls ++ [l]) = (Disk.drop_blank ls ++ [l])%list.
Proof.
  intros Hl. unfold Disk.strip_lines.
  rewrite (drop_blank_snoc ls l Hl), rev_app_distr. cbn [rev app].
  destruct l; [discriminate Hl| |]; cbn [Disk.drop_blank rev];
    rewrite rev_involutive; reflexivity.
Qed.

(** On a tidy file a write shows to the readers as one more line. *)
Lemma write_then_read (d : Disk.disk) (rec : pyval) :
  Disk.tidy d = true ->
  Disk.seen (Disk.write glued d rec) = append_record (Disk.seen d) rec.
Proof.
  destruct d as [[ls cl]|]; [|reflexivity].
  unfold Disk.tidy, Disk.write, Disk.seen, append_record.
  cbn [Disk.lines Disk.closed].
  destruct (rev ls) as [|l before] eqn:E.
  - assert (ls = []) as -> by (rewrite <- (rev_involutive ls), E; reflexivity).
    intros _. destruct cl; reflexivity.
  - intros H. apply andb_true_iff in H. destruct H as [-> Hl].
    apply negb_true_iff in Hl.
    assert (ls = (rev before ++ [l])%list) as ->
      by (rewrite <- (rev_involutive ls), E; reflexivity).
    cbv beta iota. cbn [Disk.lines Disk.closed].
    rewrite (strip_lines_snoc _ (Json rec) eq_refl).
    rewrite (strip_lines_snoc _ l Hl), (drop_blank_snoc _ l Hl).
    reflexivity.
Qed.

(** A write leaves a tidy file tidy. *)
Lemma write_keeps_tidy (d : Disk.disk) (rec : pyval) :
  Disk.tidy d = true -> Disk.tidy (Disk.write glued d rec) = true.
Proof.
  destruct d as [[ls cl]|]; [|reflexivity].
  unfold Disk.tidy, Disk.write. cbn [Disk.lines Disk.closed].
  destruct (rev ls) as [|l before] eqn:E.
  - assert (ls = []) as -> by (rewrite <- (rev_involutive ls), E; reflexivity).
    intros _. destruct cl; reflexivity.
  - intros H. apply andb_true_iff in H. destruct H as [-> _].
    cbv beta iota. cbn [Disk.lines Disk.closed].
    rewrite rev_app_distr. reflexivity.
Qed.

End DiskLogs.

(** ** The monetization log across runs *)

Section MonetizationRuns.

Import Notions.

Variable fromisoformat : string -> option datetime.
Variable isoformat : datetime -> string.
Variable glued : log_line -> pyval -> log_line.
Variable weekday_of : datetime -> Z.
Variable fmt : string -> pyfloat -> string.
Variable build_cta_copy :
  string -> string -> pyval -> datetime -> res Monetization.cta_copy.
Variable build_monetization_html_block :
  Monetization.scores -> string -> Monetization.cta_copy ->
  Monetization.pricing_window -> res string.

Local Abbreviation run' :=
  (Monetization.run fromisoformat isoformat weekday_of fmt build_cta_copy
     build_monetization_html_block).

(** What was just written is what the backward scan meets first. *)
Lemma days_since_after_log (log : file) (post_type : string)
    (sb : Monetization.scores) (strategy window : string)
    (today now : datetime) :
  fromisoformat (isoformat today) = Some today ->
  Monetization._days_since_last_upsell fromisoformat
    (Monetization.log_monetization isoformat true log post_type sb strategy
       window today)
    now (Monetization.upsell_type_of strategy)
  = timedelta_days (now - today).
Proof.
  intros Hiso.
  unfold Monetization.log_monetization, Monetization._days_since_last_upsell.
  assert (Hscan : forall rest,
             Monetization.upsell_scan fromisoformat now
               (Monetization.upsell_type_of strategy)
               (Json (Monetization.monetization_record isoformat post_type sb
                        strategy window today) :: rest)
             = Ok (timedelta_days (now - today))).
  { intros rest. unfold Monetization.monetization_record.
    cbn [Monetization.upsell_scan json_loads bind get getitem lookup
         String.eqb Ascii.eqb Bool.eqb eq_str].
    rewrite String.eqb_refl. cbn [parse_ts bind]. rewrite Hiso. reflexivity. }
  destruct log as [ls|]; cbn [append_record].
  - rewrite rev_app_distr. cbn [rev app]. rewrite Hscan. reflexivity.
  - cbn [rev app]. rewrite Hscan. reflexivity.
Qed.

(** X5. Round trip of the monetization log: once [log_monetization] has
    written a record at [today] to a file that is absent, empty, or ends
    in a newline after its last line that is not blank (and [isoformat]
    text reads back as the same instant), the lookup for that record's
    upsell type, reading the file again, answers the whole days from
    [today] to now, whatever records the file held. *)
Theorem logged_upsell_read_back :
  forall (d : Disk.disk) (post_type : string) (sb : Monetization.scores)
         (strategy window : string) (today now : datetime),
    Disk.tidy d = true ->
    fromisoformat (isoformat today) = Some today ->
    Monetization._days_since_last_upsell fromisoformat
      (Disk.seen
         (Monetization.log_monetization_on_disk isoformat glued true d
            post_type sb strategy window today))
      now (Monetization.upsell_type_of strategy)
    = (now - today) / day_us.
Proof.
  intros d post_type sb strategy window today now Htidy Hiso.
  unfold Monetization.log_monetization_on_disk.
  rewrite (write_then_read glued d _ Htidy).
  apply (days_since_after_log (Disk.seen d) post_type sb strategy window
           today now Hiso).
Qed.

Lemma run_leaves_log (writable : bool) (run_log monetization_log : file)
    (now : datetime) (post_type : string) (data : pyval) (today : datetime)
    (md : Monetization.monetization_data) (log' : file) :
  run' writable run_log monetization_log now post_type data today
  = (Ok md, log') ->
  exists sb,
    Monetization.score_opportunity run_log data post_type = Ok sb
    /\ Monetization.md_score md = Monetization.total sb
    /\ Monetization.md_strategy md
       = Monetization.select_strategy fromisoformat monetization_log now
           (Monetization.total sb)
    /\ Monetization.detect_pricing_window fromisoformat weekday_of fmt
         monetization_log now (Monetization.total sb) data today
       = Ok (Monetization.md_pricing_window md)
    /\ log' = Monetization.log_monetization isoformat writable
                monetization_log post_type sb (Monetization.md_strategy md)
                (Monetization.window (Monetization.md_pricing_window md))
                today.
Proof.
  unfold Monetization.run, Monetization.run_decide.
  destruct (Monetization.score_opportunity run_log data post_type) as [sb|];
    cbn [bind]; [|discriminate].
  destruct (build_cta_copy _ post_type data today) as [cta|]; cbn [bind];
    [|discriminate].
  destruct (Monetization.detect_pricing_window _ _ _ _ _ _ _ _) as [pw|]
    eqn:Hpw; cbn [bind]; [|discriminate].
  destruct (build_monetization_html_block _ _ _ _) as [html|]; cbn [bind];
    [|discriminate].
  intros [= <- <-]. exists sb.
  cbn [Monetization.md_score Monetization.md_strategy
       Monetization.md_pricing_window].
  repeat split; try reflexivity. exact Hpw.
Qed.

(** X6. The promo cooldown holds from one run to the next: when [run],
    reading a monetization log that is absent, empty, or ends in a newline
    after its last line that is not blank, answers "promo" and its log
    write goes through, then what the readers find on the file afterwards
    is the old lines and the promo record, and at any later clock fewer
    than 14 whole days after that run's date neither [select_strategy] nor
    a further [run] on that file answers "promo", whatever the score. *)
Theorem promo_not_repeated_within_cooldown :
  forall (d : Disk.disk) (run_log : file) (now : datetime)
         (post_type : string) (data : pyval) (today : datetime)
         (md : Monetization.monetization_data) (log' : file),
    Disk.tidy d = true ->
    run' true run_log (Disk.seen d) now post_type data today
    = (Ok md, log') ->
    Monetization.md_strategy md = "promo" ->
    fromisoformat (isoformat today) = Some today ->
    (exists sb,
       log' = Disk.seen
                (Monetization.log_monetization_on_disk isoformat glued true
                   d post_type sb "promo"
                   (Monetization.window (Monetization.md_pricing_window md))
                   today))
    /\ forall (now' : datetime),
         (now' - today) / day_us < 14 ->
         (forall score,
            Monetization.select_strategy fromisoformat log' now' score
            <> "promo")
         /\ (forall writable run_log' post_type' data' today' md' log'',
               run' writable run_log' log' now' post_type' data' today'
               = (Ok md', log'') ->
               Monetization.md_strategy md' <> "promo").
Proof.
  intros d run_log now post_type data today md log'
         Htidy Hrun Hpromo Hiso.
  destruct (run_leaves_log _ _ _ _ _ _ _ _ _ Hrun)
    as (sb & _ & _ & _ & _ & Hlog).
  rewrite Hpromo in Hlog.
  split.
  { exists sb. unfold Monetization.log_monetization_on_disk.
    rewrite (write_then_read glued d _ Htidy). exact Hlog. }
  intros now' Hdays.
  assert (Hsel : forall score,
             Monetization.select_strategy fromisoformat log' now' score
             <> "promo").
  { intros score. unfold Monetization.select_strategy.
    rewrite Hlog.
    change "promo" with (Monetization.upsell_type_of "promo") at 2.
    rewrite (days_since_after_log (Disk.seen d) post_type sb "promo" _
               today now' Hiso).
    replace (Monetization.PROMO_COOLDOWN_DAYS <=? timedelta_days (now' - today))
      with false by (symmetry; apply Z.leb_gt; exact Hdays).
    rewrite andb_false_r.
    destruct ((65 <=? score) && _); [discriminate|].
    destruct (45 <=? score); [discriminate|].
    destruct (25 <=? score); discriminate. }
  split; [exact Hsel|].
  intros writable run_log' post_type' data' today' md' log'' Hrun'.
  destruct (run_leaves_log _ _ _ _ _ _ _ _ _ Hrun')
    as (sb' & _ & _ & -> & _).
  apply Hsel.
Qed.

End MonetizationRuns.

(** ** The pricing window *)

Section PricingWindow.

Import Notions.

Variable fromisoformat : string -> option datetime.
Variable isoformat : datetime -> string.
Variable weekday_of : datetime -> Z.
Variable fmt : string -> pyfloat -> string.
Variable build_cta_copy :
  string -> string -> pyval -> datetime -> res Monetization.cta_copy.
Variable build_monetization_html_block :
  Monetization.scores -> string -> Monetization.cta_copy ->
  Monetization.pricing_window -> res string.

Local Abbreviation window_of :=
  (Monetization.detect_pricing_window fromisoformat weekday_of fmt).

Ltac open_window H :=
  unfold Monetization.detect_pricing_window in H;
  repeat match type of H with
         | context [bind ?c _] =>
             lazymatch c with
             | context [bind _ _] => fail
             | _ => let v := fresh "v" in
                    destruct c as [v|]; cbn [bind] in H; [|discriminate H]
             end
         end;
  cbv zeta in H.

Lemma window_cases (log : file) (now : datetime) (score : Z) (data : pyval)
    (today : datetime) (pw : Monetization.pricing_window) :
  window_of log now score data today = Ok pw ->
  (Monetization.window pw = "NOW" /\ 70 <= score)
  \/ (Monetization.window pw = "SOON" /\ 60 <= score)
  \/ (Monetization.window pw = "WAIT" /\ score < 60).
Proof.
  intros H. open_window H.
  destruct (Z.leb_spec 80 score), (Z.leb_spec 70 score),
    (Z.leb_spec 60 score), v2, (weekday_of today =? 0),
    (weekday_of today =? 4);
    cbn [andb fst snd] in H; injection H as <-;
    cbn [Monetization.window]; try lia;
    solve [ left; split; [reflexivity|lia]
          | right; left; split; [reflexivity|lia]
          | right; right; split; [reflexivity|lia] ].
Qed.

(** X7. The pricing window follows the score bands: whenever
    [detect_pricing_window] returns, the window is "WAIT" exactly when the
    score is below 60, "NOW" is returned only from 70 up, "SOON" only
    from 60 up, nothing else is returned, and the score and the three
    prices are reported unchanged. *)
Theorem pricing_window_follows_score :
  forall (log : file) (now : datetime) (score : Z) (data : pyval)
         (today : datetime) (pw : Monetization.pricing_window),
    window_of log now score data today = Ok pw ->
    In (Monetization.window pw) ["NOW"; "SOON"; "WAIT"]
    /\ String.eqb (Monetization.window pw) "WAIT" = (score <? 60)
    /\ (Monetization.window pw = "NOW" -> 70 <= score)
    /\ (Monetization.window pw = "SOON" -> 60 <= score)
    /\ Monetization.pw_score pw = score
    /\ (Monetization.promo_price pw, Monetization.annual_price pw,
        Monetization.monthly_price pw) = (59, 79, 9).
Proof.
  intros log now score data today pw H.
  assert (Hrest : Monetization.pw_score pw = score
                  /\ (Monetization.promo_price pw,
                      Monetization.annual_price pw,
                      Monetization.monthly_price pw) = (59, 79, 9)).
  { open_window H. injection H as <-. split; reflexivity. }
  destruct (window_cases _ _ _ _ _ _ H) as [[-> L]|[[-> L]|[-> L]]].
  - repeat split; try apply Hrest.
    + left; reflexivity.
    + symmetry. apply Z.ltb_ge. lia.
    + intros _. exact L.
    + discriminate.
  - repeat split; try apply Hrest.
    + right; left; reflexivity.
    + symmetry. apply Z.ltb_ge. lia.
    + discriminate.
    + intros _. exact L.
  - repeat split; try apply Hrest.
    + right; right; left; reflexivity.
    + symmetry. apply Z.ltb_lt. lia.
    + discriminate.
    + discriminate.
Qed.

(** X8. The pricing window never consults the promo cooldown: with the
    same score, snapshot and date, any other monetization log and clock
    give the same window, and outside "SOON" (whose reason text quotes the
    days since the last promo) the same answer altogether. *)
Theorem pricing_window_ignores_log :
  forall (log1 log2 : file) (now1 now2 : datetime) (score : Z)
         (data : pyval) (today : datetime)
         (pw1 : Monetization.pricing_window),
    window_of log1 now1 score data today = Ok pw1 ->
    exists pw2,
      window_of log2 now2 score data today = Ok pw2
      /\ Monetization.window pw2 = Monetization.window pw1
      /\ (Monetization.window pw1 <> "SOON" -> pw2 = pw1).
Proof.
  intros log1 log2 now1 now2 score data today pw1 H.
  unfold Monetization.detect_pricing_window in *.
  destruct (get data "gold" (VDict [])) as [gold|]; cbn [bind] in *;
    [|discriminate].
  destruct (get gold "day_chg_pct" (VInt 0)) as [raw|]; cbn [bind] in *;
    [|discriminate].
  destruct (abs (or_else raw (VInt 0))) as [pct|]; cbn [bind] in *;
    [|discriminate].
  destruct (ge pct 2) as [hv|]; cbn [bind] in *; [|discriminate].
  cbv zeta in *.
  eexists. split; [reflexivity|].
  destruct ((80 <=? score) && hv), ((70 <=? score) && (weekday_of today =? 0)),
    ((70 <=? score) && (weekday_of today =? 4)), (60 <=? score);
    cbn [fst snd] in *; injection H as <-; cbn [Monetization.window];
    (split; [reflexivity|]); intros Hne; try reflexivity;
    exfalso; apply Hne; reflexivity.
Qed.

Local Abbreviation run' :=
  (Monetization.run fromisoformat isoformat weekday_of fmt build_cta_copy
     build_monetization_html_block).

(** X9. Within one [run] the strategy and the pricing window agree:
    "WAIT" goes with at most a soft upsell, "NOW" with at least a soft
    upsell, and "promo" is never paired with "WAIT". *)
Theorem run_strategy_matches_window :
  forall (writable : bool) (run_log monetization_log : file)
         (now : datetime) (post_type : string) (data : pyval)
         (today : datetime) (md : Monetization.monetization_data)
         (log' : file),
    run' writable run_log monetization_log now post_type data today
    = (Ok md, log') ->
    let w := Monetization.window (Monetization.md_pricing_window md) in
    (w = "WAIT" -> rank (Monetization.md_strategy md) <= 2)
    /\ (w = "NOW" -> 2 <= rank (Monetization.md_strategy md))
    /\ (Monetization.md_strategy md = "promo" -> w <> "WAIT").
Proof.
  intros writable run_log monetization_log now post_type data today md log'
         Hrun.
  destruct (run_leaves_log _ _ _ _ _ _ _ _ _ _ _ _ _ _ _ Hrun)
    as (sb & _ & _ & Hsel & Hwin & _).
  apply window_cases in Hwin.
  cbv zeta. rewrite Hsel. unfold Monetization.select_strategy, rank.
  set (s := Monetization.total sb) in *.
  destruct (Z.leb_spec 80 s), (Z.leb_spec 65 s), (Z.leb_spec 45 s),
    (Z.leb_spec 25 s); try lia;
    destruct (_ <=? Monetization._days_since_last_upsell _ _ _ "promo");
    destruct (_ <=? Monetization._days_since_last_upsell _ _ _ "hard");
    cbn [andb String.eqb Ascii.eqb Bool.eqb];
    (repeat split; intros Hw; try lia; try discriminate;
     destruct Hwin as [[E L]|[[E L]|[E L]]]; try lia; congruence).
Qed.

End PricingWindow.

(** X5, witness: a promo record written on 5 March below a soft record is
    found two days later. *)
Lemma logged_upsell_witness :
  Monetization._days_since_last_upsell Examples.iso
    (Disk.seen
       (Monetization.log_monetization_on_disk Examples.stamp Examples.glue
          true Examples.monetization_disk "trader_intelligence"
          {| Monetization.volatility := 30; Monetization.rsi_extreme := 20;
             Monetization.post_type_score := 24;
             Monetization.ath_proximity := 20;
             Monetization.streak_bonus := 0; Monetization.total := 94 |}
          "promo" "NOW" Examples.today_march))
    (Examples.today_march + 2 * day_us) "promo"
  = 2.
Proof.
  refine (eq_trans
    (logged_upsell_read_back Examples.iso Examples.stamp Examples.glue
       Examples.monetization_disk "trader_intelligence" _ "promo" "NOW"
       Examples.today_march (Examples.today_march + 2 * day_us) _ _) _).
  - reflexivity.
  - vm_compute. reflexivity.
  - vm_compute. reflexivity.
Defined.

(** X6, witness: a run on the hot snapshot answers "promo"; ten days
    later the ladder does not. *)
Lemma promo_not_repeated_witness :
  Monetization.select_strategy Examples.iso
    (snd (Examples.monetization_run true None
            (Disk.seen Examples.monetization_disk) Examples.today_march
            "trader_intelligence" Examples.snapshot_hot Examples.today_march))
    (Examples.today_march + 10 * day_us) 94
  <> "promo".
Proof.
  destruct (Examples.monetization_run true None
              (Disk.seen Examples.monetization_disk) Examples.today_march
              "trader_intelligence" Examples.snapshot_hot Examples.today_march)
    as [r log'] eqn:Hrun.
  destruct r as [md|e]; [|vm_compute in Hrun; discriminate Hrun].
  refine (proj1
    (proj2
       (promo_not_repeated_within_cooldown Examples.iso Examples.stamp
          Examples.glue Examples.weekday Examples.plain_fmt
          Examples.cta_plain Examples.html_plain Examples.monetization_disk
          None Examples.today_march "trader_intelligence"
          Examples.snapshot_hot Examples.today_march md log' _ Hrun _ _)
       (Examples.today_march + 10 * day_us) _) 94).
  - reflexivity.
  - vm_compute in Hrun. injection Hrun as <- _. reflexivity.
  - vm_compute. reflexivity.
  - vm_compute. reflexivity.
Defined.

(** X7, witness: score 94 on the hot snapshot, a Thursday. *)
Lemma pricing_window_witness :
  exists pw,
    Monetization.detect_pricing_window Examples.iso Examples.weekday
      Examples.plain_fmt None Examples.today_march 94 Examples.snapshot_hot
      Examples.today_march = Ok pw
    /\ Monetization.window pw = "NOW"
    /\ String.eqb (Monetization.window pw) "WAIT" = (94 <? 60).
Proof.
  eexists. split; [vm_compute; reflexivity|]. split; [reflexivity|].
  refine (proj1 (proj2
    (pricing_window_follows_score Examples.iso Examples.weekday
       Examples.plain_fmt None Examples.today_march 94 Examples.snapshot_hot
       Examples.today_march _ _))).
  vm_compute. reflexivity.
Defined.

(** X8, witness: score 57 on a quiet Thursday, read against an empty log
    and against one holding a promo record. *)
Lemma pricing_window_ignores_log_witness :
  exists pw2,
    Monetization.detect_pricing_window Examples.iso Examples.weekday
      Examples.plain_fmt
      (Some [Json (VDict Examples.monetization_log_promo)])
      Examples.now_march 57 Examples.snapshot_c4 Examples.today_march
    = Ok pw2
    /\ Monetization.window pw2 = "WAIT".
Proof.
  destruct (pricing_window_ignores_log Examples.iso Examples.weekday
              Examples.plain_fmt None
              (Some [Json (VDict Examples.monetization_log_promo)])
              Examples.today_march Examples.now_march 57
              Examples.snapshot_c4 Examples.today_march
              {| Monetization.window := "WAIT";
                 Monetization.reason :=
                   "Score 57/100 — hold until a higher-volatility day";
                 Monetization.pw_score := 57;
                 Monetization.promo_price := 59;
                 Monetization.annual_price := 79;
                 Monetization.monthly_price := 9 |})
    as (pw2 & H2 & Hw & _).
  - vm_compute. reflexivity.
  - exists pw2. split; [exact H2|exact Hw].
Defined.

(** X9, witness: the first run on the hot snapshot pairs "promo" with a
    window other than "WAIT". *)
Lemma run_strategy_matches_window_witness :
  match Examples.monetization_run true None None Examples.today_march
          "trader_intelligence" Examples.snapshot_hot Examples.today_march
  with
  | (Ok md, _) =>
      Monetization.md_strategy md = "promo"
      /\ Monetization.window (Monetization.md_pricing_window md) <> "WAIT"
  | (Raise _, _) => False
  end.
Proof.
  destruct (Examples.monetization_run true None None Examples.today_march
              "trader_intelligence" Examples.snapshot_hot Examples.today_march)
    as [[md|e] log'] eqn:Hrun; [|vm_compute in Hrun; discriminate Hrun].
  assert (Hp : Monetization.md_strategy md = "promo").
  { vm_compute in Hrun. injection Hrun as <- _. reflexivity. }
  split; [exact Hp|].
  exact (proj2 (proj2
    (run_strategy_matches_window Examples.iso Examples.stamp Examples.weekday
       Examples.plain_fmt Examples.cta_plain Examples.html_plain true None
       None Examples.today_march "trader_intelligence" Examples.snapshot_hot
       Examples.today_march md log' Hrun)) Hp).
Defined.

(** ** The quality gate on snapshots of the market stage *)

Section QualityGate.

Import Spec Orchestrator Notions.

Variable fmt : string -> pyfloat -> string.

Lemma in_band_num (price : pyval) :
  is_num price = true -> in_band price = Ok (negb (outside_band price)).
Proof.
  unfold is_num, in_band, outside_band, ge, le.
  destruct (num_of price) as [[q| | |]|]; try discriminate; intros _;
    cbn [bind fle]; try reflexivity.
  destruct (Qle_bool 800 q); cbn [andb negb]; [|reflexivity].
  rewrite negb_involutive. reflexivity.
Qed.

Lemma missing_fx_filter (f : list (string * pyval)) (codes : list string) :
  missing_fx (VDict f) codes
  = Ok (filter (fun c => negb (truthy (fx_get f c))) codes).
Proof.
  induction codes as [|c codes IH]; [reflexivity|].
  cbn [missing_fx get bind filter]. rewrite IH. cbn [bind]. unfold fx_get.
  destruct (truthy _); reflexivity.
Qed.

(** The pieces a typed snapshot is read into. *)
Lemma typed_snapshot_parts (d : list (string * pyval)) :
  snapshot_typed (VDict d) = true ->
  exists g f,
    get (VDict d) "gold" (VDict []) = Ok (VDict g)
    /\ get (VDict d) "fx_rates" (VDict []) = Ok (VDict f)
    /\ snapshot_price (VDict d)
       = match lookup "price" g with Some p => p | None => VInt 0 end
    /\ is_num (snapshot_price (VDict d)) = true
    /\ num_or_none (match lookup "day_chg_pct" g with
                    | Some x => x | None => VNone end) = true.
Proof.
  unfold snapshot_typed, snapshot_price. intros H.
  apply andb_true_iff in H. destruct H as [Hgold Hfx]. cbn [get].
  assert (F : exists f,
             (match lookup "fx_rates" d with
              | Some x => x | None => VDict [] end) = VDict f).
  { destruct (lookup "fx_rates" d) as [[| | | | | |f]|]; try discriminate;
      eauto. }
  destruct F as (f & ->).
  destruct (lookup "gold" d) as [[| | | | | |g]|]; try discriminate.
  - exists g, f. apply andb_true_iff in Hgold. destruct Hgold as [Hp Hc].
    repeat split.
    + destruct (lookup "price" g); [exact Hp|reflexivity].
    + destruct (lookup "day_chg_pct" g); [exact Hc|reflexivity].
  - exists [], f. repeat split.
Qed.

(** The findings of the gate on a typed snapshot, part by part. *)
Lemma check_data_quality_parts (snapshot : pyval) :
  snapshot_typed snapshot = true ->
  exists (crit swing fxw : string) (big : bool) (f : list (string * pyval))
         (news : pyval),
    gt (snapshot_swing snapshot) 10 = Ok big
    /\ get snapshot "fx_rates" (VDict []) = Ok (VDict f)
    /\ get snapshot "news" VNone = Ok news
    /\ is_critical crit = true
    /\ Str.startswith "WARNING" swing = true
    /\ Str.startswith "WARNING" fxw = true
    /\ check_data_quality fmt snapshot
       = Ok ((if outside_band (snapshot_price snapshot) then [crit] else [])
             ++ (if big then [swing] else [])
             ++ (match filter (fun c => negb (truthy (fx_get f c)))
                               [ "ZAR"; "GHS"; "NGN"; "KES" ] with
                 | [] => []
                 | _ :: _ => [fxw]
                 end)
             ++ (if truthy news then []
                 else [ "WARNING: No news headlines fetched. RSS feeds may be temporarily down." ]))%list.
Proof.
  destruct snapshot as [| | | | | |d]; try discriminate. intros Htyped.
  destruct (typed_snapshot_parts d Htyped) as (g & f & Eg & Ef & Ep & Hnum & Hraw).
  destruct (abs_or_zero_num _ Hraw) as (pct & Epct & Hpctn).
  destruct (gt_num pct 10 Hpctn) as [big Ebig].
  destruct (format_num_num fmt ",.2f" _ Hnum) as [t1 E1].
  destruct (format_num_num fmt ".1f" _ Hpctn) as [t2 E2].
  exists ("CRITICAL: Gold price $" ++ t1
          ++ " is outside expected range ($800–$15,000). "
          ++ "Possible stale or corrupted data. Halting pipeline."),
         ("WARNING: Daily gold move of " ++ t2
          ++ "% is unusually large (>10%). "
          ++ "Verify market conditions before publishing."),
         ("WARNING: FX rates missing for "
          ++ Str.join ", " (filter (fun c => negb (truthy (fx_get f c)))
                              [ "ZAR"; "GHS"; "NGN"; "KES" ])
          ++ ". Fallback rates used in karat pricing table."),
         big, f,
         (match lookup "news" d with Some x => x | None => VNone end).
  split.
  { unfold snapshot_swing. rewrite Eg. cbn [bind get]. rewrite Epct.
    exact Ebig. }
  split; [exact Ef|]. split; [reflexivity|].
  split; [reflexivity|]. split; [reflexivity|]. split; [reflexivity|].
  unfold check_data_quality. rewrite Eg, Ef. cbn [bind].
  cbn [get bind]. rewrite <- Ep.
  rewrite (in_band_num _ Hnum). cbn [bind].
  rewrite Epct. cbn [bind]. rewrite Ebig. cbn [bind].
  rewrite missing_fx_filter.
  destruct (outside_band (snapshot_price (VDict d))); cbn [negb bind].
  - rewrite E1. cbn [bind].
    destruct big; [rewrite E2|]; cbn [bind];
      destruct (filter _ _); reflexivity.
  - destruct big; [rewrite E2|]; cbn [bind];
      destruct (filter _ _); reflexivity.
Qed.

(** What the gate finds on a typed snapshot. *)
Lemma gate_findings :
  forall (snapshot : pyval),
    snapshot_typed snapshot = true ->
    exists (findings : list string),
      check_data_quality fmt snapshot = Ok findings
      /\ existsb is_critical findings
         = outside_band (snapshot_price snapshot)
      /\ forallb (fun w => is_critical w || Str.startswith "WARNING" w)
           findings = true
      /\ (List.length findings <= 4)%nat.
Proof.
  intros snapshot Htyped.
  destruct (check_data_quality_parts snapshot Htyped)
    as (crit & swing & fxw & big & f & news & _ & _ & _ & Hc & Hs & Hf & ->).
  eexists. split; [reflexivity|].
  assert (Hs' : is_critical swing = false).
  { unfold is_critical, Str.startswith in *.
    destruct swing as [|[[] [] [] [] [] [] [] []] ?]; try discriminate;
      reflexivity. }
  assert (Hf' : is_critical fxw = false).
  { unfold is_critical, Str.startswith in *.
    destruct fxw as [|[[] [] [] [] [] [] [] []] ?]; try discriminate;
      reflexivity. }
  destruct (outside_band (snapshot_price snapshot)), big,
    (filter _ _), (truthy news);
    cbn [app existsb forallb List.length orb andb];
    rewrite ?Hc, ?Hs, ?Hf, ?Hs', ?Hf'; cbn [orb andb];
    repeat split; try reflexivity; lia.
Qed.

(** X10. On a snapshot of the shape the market stage builds, the quality
    gate always returns (it never raises), it returns at most four
    findings, each starting with CRITICAL or WARNING, and a CRITICAL
    finding is among them exactly when the gold price is outside
    [800, 15000]: a large swing, missing FX rates or missing news never
    halt the pipeline. *)
Theorem quality_gate_halts_only_on_price :
  forall (snapshot : pyval),
    snapshot_typed snapshot = true ->
    exists (findings : list string),
      check_data_quality fmt snapshot = Ok findings
      /\ existsb is_critical findings
         = outside_band (snapshot_price snapshot)
      /\ forallb (fun w => is_critical w || Str.startswith "WARNING" w)
           findings = true
      /\ (List.length findings <= 4)%nat.
Proof.
  intros snapshot Htyped. apply gate_findings. exact Htyped.
Qed.

(** X11. On such a snapshot the gate reports nothing exactly when the
    price is within the band, the absolute day change does not exceed 10,
    the four FX rates ZAR, GHS, NGN and KES are present and truthy, and
    there is news. *)
Theorem quality_gate_silent_iff_clean :
  forall (snapshot : pyval),
    snapshot_typed snapshot = true ->
    (check_data_quality fmt snapshot = Ok [])
    <-> snapshot_clean snapshot = true.
Proof.
  intros snapshot Htyped.
  destruct (check_data_quality_parts snapshot Htyped)
    as (crit & swing & fxw & big & f & news & Eb & Ef & En & _ & _ & _ & ->).
  unfold snapshot_clean, fx_present. rewrite Eb, Ef, En.
  cbn [get filter]. fold (fx_get f "ZAR") (fx_get f "GHS") (fx_get f "NGN")
    (fx_get f "KES").
  destruct (outside_band (snapshot_price snapshot)), big,
    (truthy (fx_get f "ZAR")), (truthy (fx_get f "GHS")),
    (truthy (fx_get f "NGN")), (truthy (fx_get f "KES")), (truthy news);
    cbn [negb andb app]; split; intros H; try reflexivity;
    try discriminate H.
Qed.

End QualityGate.

(** ** What every run leaves behind *)

Section RunInvariants.

Import Spec Orchestrator Notions.

Variable isoformat : datetime -> string.
Variable fmt : string -> pyfloat -> string.
Variable str_exn : exn -> string.
Variable round_to : Z -> pyval -> pyval.
Variable inject_json_ld : string -> string -> string.
Variable splice_banner : string -> string -> string.
Variable cfg : config.
Variable world : env.

Local Abbreviation main' :=
  (main isoformat fmt str_exn round_to inject_json_ld splice_banner cfg world).
Local Abbreviation record' status details :=
  (VDict (("ts", VStr (isoformat (now world)))
          :: ("status", VStr status) :: details)).

Lemma fail_stage_run {A} (stage error : string) (st : pstate) :
  (fail_stage isoformat cfg world stage error : M A) st
  = (Stop,
     {| run_log := append_record (run_log st)
                     (record' "FAILED" [ ("stage", VStr stage);
                                         ("error", VStr error) ]);
        trace := (trace st ++ mail_trace cfg world (FailureNotice stage)
                  ++ [Exit 1])%list |}).
Proof.
  unfold fail_stage, notify_failure, log_run.
  unfold bindM at 1. unfold bindM at 1.
  destruct (send_email_run cfg world (FailureNotice stage)
              {| run_log := append_record (run_log st)
                              (record' "FAILED" [ ("stage", VStr stage);
                                                  ("error", VStr error) ]);
                 trace := trace st |}) as [ok Hok].
  unfold bindM. rewrite Hok. unfold ret, exit. cbn [run_log trace].
  rewrite <- app_assoc. reflexivity.
Qed.

(** The distribution chain always hands on a delivery; it touches neither
    the log nor the mail, and calls at most the two publishing channels. *)
Lemma distribution_total (st : pstate) :
  exists (d : delivery) (calls : list event),
    distribution cfg world st
    = (Next d, {| run_log := run_log st;
                  trace := (trace st ++ calls)%list |})
    /\ forallb is_publish calls = true
    /\ (beehiiv_ok d = false -> calls = attempted_channels cfg world).
Proof.
  destruct st as [rl tr].
  unfold distribution, api_channel, attempted_channels.
  destruct (truthy (VStr (BEEHIIV_API_KEY cfg))); cbn [negb].
  - unfold bindM at 1. unfold bindM at 1. unfold emit at 1.
    cbn [run_log trace].
    assert (B : forall st0 : pstate,
               exists d calls,
                 browser_channel world no_delivery st0
                 = (Next d, {| run_log := run_log st0;
                               trace := (trace st0 ++ calls)%list |})
                 /\ forallb is_publish calls = true
                 /\ (beehiiv_ok d = false ->
                     calls = if import_beehiiv_browser world
                             then [Call BeehiivBrowser] else [])).
    { intros [rl0 tr0]. unfold browser_channel, no_delivery.
      cbn [beehiiv_ok].
      destruct (import_beehiiv_browser world); cbn [negb].
      - unfold bindM, emit. cbn [run_log trace].
        destruct (publish_post world) as [br|];
          [|eexists; exists [Call BeehiivBrowser]; repeat split].
        destruct (get br "post_id" _) as [id|]; cbn [bind];
          [|eexists; exists [Call BeehiivBrowser]; repeat split].
        destruct (get br "post_url" _) as [url|]; cbn [bind];
          eexists; exists [Call BeehiivBrowser]; repeat split;
          cbn [beehiiv_ok]; discriminate.
      - eexists; exists []. cbn [run_log trace]. rewrite app_nil_r.
        repeat split. }
    assert (Keep : forall (d : delivery) (st0 : pstate),
               beehiiv_ok d = true ->
               browser_channel world d st0 = (Next d, st0)).
    { intros d st0 Hd. unfold browser_channel. rewrite Hd. reflexivity. }
    destruct (beehiiv_create_post world) as [result|].
    + destruct (get result "data" _) as [dd|]; cbn [bind].
      * destruct (get dd "id" _) as [id|]; cbn [bind].
        -- destruct (get dd "web_url" _) as [url|]; cbn [bind].
           ++ unfold ret at 1. rewrite Keep by reflexivity.
              eexists; exists [Call BeehiivApi]. repeat split.
              cbn [beehiiv_ok]. discriminate.
           ++ unfold ret at 1.
              destruct (B {| run_log := rl;
                             trace := (tr ++ [Call BeehiivApi])%list |})
                as (d & calls & -> & Hp & Hc).
              exists d, ([Call BeehiivApi] ++ calls)%list.
              cbn [run_log trace]. rewrite <- app_assoc.
              repeat split; [exact Hp|].
              intros Hd. rewrite (Hc Hd). reflexivity.
        -- unfold ret at 1.
           destruct (B {| run_log := rl;
                          trace := (tr ++ [Call BeehiivApi])%list |})
             as (d & calls & -> & Hp & Hc).
           exists d, ([Call BeehiivApi] ++ calls)%list.
           cbn [run_log trace]. rewrite <- app_assoc.
           repeat split; [exact Hp|].
           intros Hd. rewrite (Hc Hd). reflexivity.
      * unfold ret at 1.
        destruct (B {| run_log := rl;
                       trace := (tr ++ [Call BeehiivApi])%list |})
          as (d & calls & -> & Hp & Hc).
        exists d, ([Call BeehiivApi] ++ calls)%list.
        cbn [run_log trace]. rewrite <- app_assoc.
        repeat split; [exact Hp|].
        intros Hd. rewrite (Hc Hd). reflexivity.
    + unfold ret at 1.
      destruct (B {| run_log := rl;
                     trace := (tr ++ [Call BeehiivApi])%list |})
        as (d & calls & -> & Hp & Hc).
      exists d, ([Call BeehiivApi] ++ calls)%list.
      cbn [run_log trace]. rewrite <- app_assoc.
      repeat split; [exact Hp|].
      intros Hd. rewrite (Hc Hd). reflexivity.
  - unfold bindM at 1. unfold ret at 1.
    unfold browser_channel, no_delivery. cbn [beehiiv_ok].
    destruct (import_beehiiv_browser world); cbn [negb].
    + unfold bindM, emit. cbn [run_log trace app].
      destruct (publish_post world) as [br|];
        [|eexists; exists [Call BeehiivBrowser]; repeat split].
      destruct (get br "post_id" _) as [id|]; cbn [bind];
        [|eexists; exists [Call BeehiivBrowser]; repeat split].
      destruct (get br "post_url" _) as [url|]; cbn [bind];
        eexists; exists [Call BeehiivBrowser]; repeat split;
        cbn [beehiiv_ok]; discriminate.
    + eexists; exists []. cbn [run_log trace app]. rewrite app_nil_r.
      repeat split.
Qed.

(** A record, the failure notice, [sys.exit(1)]. *)
Lemma stop_run {A} (status stage : string) (details : list (string * pyval))
    (st : pstate) :
  ((log_run isoformat world status details >>
    notify_failure cfg world stage >> exit 1) : M A) st
  = (Stop,
     {| run_log := append_record (run_log st) (record' status details);
        trace := (trace st ++ mail_trace cfg world (FailureNotice stage)
                  ++ [Exit 1])%list |}).
Proof.
  unfold notify_failure, log_run.
  unfold bindM at 1. unfold bindM at 1.
  destruct (send_email_run cfg world (FailureNotice stage)
              {| run_log := append_record (run_log st)
                              (record' status details);
                 trace := trace st |}) as [ok Hok].
  unfold bindM. rewrite Hok. unfold ret, exit. cbn [run_log trace].
  rewrite <- app_assoc. reflexivity.
Qed.

Lemma mail_trace_mails (m : mail) :
  forallb is_mail (mail_trace cfg world m) = true
  /\ (List.length (mail_trace cfg world m) <= 1)%nat.
Proof.
  unfold mail_trace. destruct (truthy _); cbn; split; auto.
Qed.

Ltac failed_branch :=
  cbn [stops String.eqb Ascii.eqb Bool.eqb orb app];
  split; [reflexivity|];
  split; [cbn; tauto|];
  split; [reflexivity|];
  split; [intros _; eexists; reflexivity|];
  split; [discriminate|];
  split; [discriminate|];
  split; [intros _; split; [discriminate|reflexivity]|];
  discriminate.

(** Every run other than a log print: one record, then either a normal
    return or exit status 1. *)
Lemma main_runs (log : file) :
  PRINT_LOG cfg = false ->
  exists (status : string) (details : list (string * pyval))
         (calls mails : list event),
    main' (boot log)
    = ((if stops status then Stop else Next tt),
       {| run_log := append_record log (record' status details);
          trace := (calls ++ mails
                    ++ (if stops status then [Exit 1] else []))%list |})
    /\ In status run_statuses
    /\ forallb is_call calls = true
    /\ (stops status = true ->
        exists stage, mails = mail_trace cfg world (FailureNotice stage))
    /\ (status = "DRY_RUN" -> mails = [])
    /\ (status = "SUCCESS" ->
        exists m, mails = mail_trace cfg world m
                  /\ forall stage, m <> FailureNotice stage)
    /\ (DRY_RUN cfg = true ->
        status <> "SUCCESS"
        /\ forallb (fun e => negb (is_release e)) calls = true)
    /\ (status = "DRY_RUN" -> DRY_RUN cfg = true).
Proof.
  intros Hlog. unfold main. rewrite Hlog.
  destruct (import_market_agent world) as [msg|].
  { rewrite fail_stage_run. cbn [boot run_log trace app].
    exists "FAILED", [ ("stage", VStr "import"); ("error", VStr msg) ], [],
      (mail_trace cfg world (FailureNotice "import")).
    failed_branch. }
  unfold bindM at 1. unfold emit at 1. cbn [boot run_log trace app].
  destruct (market_intelligence fmt str_exn world) as [snap|e msg] eqn:Hm.
  2:{ rewrite fail_stage_run. cbn [run_log trace].
      exists "FAILED",
        [ ("stage", VStr "market_intelligence"); ("error", VStr msg) ],
        [Call MarketFetch],
        (mail_trace cfg world (FailureNotice "market_intelligence")).
      failed_branch. }
  destruct (market_snapshot_typed fmt str_exn world snap Hm) as [Htyped _].
  destruct (check_data_quality_parts fmt (data snap) Htyped)
    as (crit & swing & fxw & big & f & news & _ & _ & _ & _ & _ & _ & Hcheck).
  unfold pipeline, anomaly_detection. rewrite Hcheck.
  set (findings := (_ ++ _ ++ _ ++ _)%list). clearbody findings.
  destruct (filter (Str.startswith "CRITICAL") findings) as [|c cs].
  2:{ unfold bindM at 1. rewrite stop_run. cbn [run_log trace].
      exists "HALTED",
        [ ("stage", VStr "anomaly_detection"); ("gold_price", g_price snap);
          ("warnings", VList (map VStr findings)) ],
        [Call MarketFetch],
        (mail_trace cfg world (FailureNotice "anomaly_detection")).
      failed_branch. }
  unfold enrich, content_synthesis.
  cbn [bindM ret emit run_log trace app].
  destruct (build_content world) as [[free_html premium_html]|e msg].
  2:{ unfold bindM at 1. unfold bindM at 1. unfold emit at 1.
      cbn [run_log trace app].
      rewrite fail_stage_run. cbn [run_log trace app].
      exists "FAILED",
        [ ("stage", VStr "content_synthesis"); ("error", VStr msg) ],
        [ Call MarketFetch; Call AfricaIntelligence;
          Call ContractTransparency; Call ContentSynthesis ],
        (mail_trace cfg world (FailureNotice "content_synthesis")).
      failed_branch. }
  unfold seo. cbn [bindM ret emit run_log trace app fst snd].
  destruct (DRY_RUN cfg) eqn:Hdry.
  { unfold dry_run, log_run. cbn [bindM ret emit run_log trace app].
    eexists "DRY_RUN", _,
      [ Call MarketFetch; Call AfricaIntelligence; Call ContractTransparency;
        Call ContentSynthesis; Call SeoAgent; Call LinkedInGenerator ], [].
    cbn [stops String.eqb Ascii.eqb Bool.eqb orb app].
    split; [reflexivity|].
    split; [cbn; tauto|].
    split; [reflexivity|].
    split; [discriminate|].
    split; [reflexivity|].
    split; [discriminate|].
    split; [intros _; split; [discriminate|reflexivity]|].
    reflexivity. }
  match goal with
  | |- context [live_run _ _ _ _ _ ?sn ?pt ?ws ?ad ?cd ?sd ?fh ?ph ?st0] =>
      destruct (distribution_total st0) as (d & dcalls & Hd & Hpub & _);
      destruct (live_run_closes isoformat round_to splice_banner cfg world
                  sn pt ws ad cd sd fh ph st0 _ d Hd) as [m Hrun];
      rewrite Hrun;
      eexists "SUCCESS", _,
        (trace_before_distribution ++ dcalls
         ++ trace_after_distribution sd (post_url d))%list,
        (mail_trace cfg world
           (if beehiiv_ok d then DraftReady (post_id d)
            else FullBriefing (snd m) ph))
  end.
  cbn [stops String.eqb Ascii.eqb Bool.eqb orb run_log trace].
  split.
  { rewrite app_nil_r. unfold trace_before_distribution.
    repeat rewrite <- app_assoc. reflexivity. }
  split; [cbn; tauto|].
  split.
  { rewrite !forallb_app. apply andb_true_iff. split; [reflexivity|].
    apply andb_true_iff. split; [|reflexivity].
    rewrite forallb_forall in Hpub |- *. intros e He.
    specialize (Hpub e He). destruct e as [[]| | | | |]; try discriminate;
      reflexivity. }
  split; [discriminate|].
  split; [discriminate|].
  split.
  { intros _. eexists. split; [reflexivity|].
    intros stage. destruct (beehiiv_ok d); discriminate. }
  split; [discriminate|]. discriminate.
Qed.

Lemma calls_only (calls : list event) :
  forallb is_call calls = true ->
  mails_of calls = [] /\ existsb is_exit calls = false.
Proof.
  induction calls as [|e calls IH]; [split; reflexivity|].
  cbn [forallb]. intros H. apply andb_true_iff in H. destruct H as [He Hc].
  destruct (IH Hc) as [IH1 IH2]. unfold mails_of in *.
  destruct e; try discriminate He; cbn [filter is_mail existsb is_exit orb];
    split; assumption.
Qed.

(** X12. Every run other than a log print appends exactly one record to
    the run log, below everything that was there, with a status among
    SUCCESS, FAILED, HALTED and DRY_RUN; the process leaves through
    [sys.exit(1)], as the last thing it does, exactly when that status is
    FAILED or HALTED, and returns normally otherwise. *)
Theorem run_appends_one_record :
  forall (log : file),
    PRINT_LOG cfg = false ->
    exists (status : string) (details : list (string * pyval))
           (fin : step unit) (st' : pstate),
      main' (boot log) = (fin, st')
      /\ run_log st' = append_record log (record' status details)
      /\ In status run_statuses
      /\ (fin = Stop <-> stops status = true)
      /\ (exists before,
            trace st' = (before ++ if stops status then [Exit 1] else [])%list
            /\ existsb is_exit before = false).
Proof.
  intros log Hlog.
  destruct (main_runs log Hlog)
    as (status & details & calls & mails & Hrun & Hin & Hcalls & Hstop
        & Hdry & Hok & _).
  exists status, details, (if stops status then Stop else Next tt). eexists.
  split; [exact Hrun|]. cbn [run_log trace].
  split; [reflexivity|]. split; [exact Hin|].
  split.
  { destruct (stops status); split; intros H; try reflexivity;
      discriminate H. }
  exists (calls ++ mails)%list. split; [rewrite app_assoc; reflexivity|].
  rewrite existsb_app. destruct (calls_only calls Hcalls) as [_ ->].
  cbn [orb].
  assert (Hm : mails = [] \/ exists m, mails = mail_trace cfg world m).
  { destruct (stops status) eqn:Es.
    - destruct (Hstop eq_refl) as [stage ->]. right. eauto.
    - cbn in Hin.
      destruct Hin as [<-|[<-|[<-|[<-|[]]]]]; try discriminate Es.
      + destruct (Hok eq_refl) as (m & -> & _). right. eauto.
      + left. apply Hdry. reflexivity. }
  destruct Hm as [->|[m ->]]; [reflexivity|].
  unfold mail_trace. destruct (truthy _); reflexivity.
Qed.

(** X13. [main] notifies the operator at most once per run: it makes at
    most one SMTP attempt of its own, through [_send_email], after every
    collaborator call it makes, and none without a notification password;
    that notice is a failure notice exactly when the run stops with FAILED
    or HALTED, and a dry run that completes sends none.  (Mail a
    collaborator sends on its own account, such as the weekly report of
    the analytics agent on a Sunday, is part of that collaborator's
    call.) *)
Theorem main_notifies_operator_at_most_once :
  forall (log : file),
    PRINT_LOG cfg = false ->
    exists (calls mails rest : list event),
      trace (snd (main' (boot log))) = (calls ++ mails ++ rest)%list
      /\ forallb is_call calls = true
      /\ forallb is_exit rest = true
      /\ mails_of (trace (snd (main' (boot log)))) = mails
      /\ (List.length mails <= 1)%nat
      /\ (NOTIFY_PASSWORD cfg = "" -> mails = [])
      /\ (forall m ok,
            In (Smtp m ok) mails ->
            ok = smtp_delivers world
            /\ ((exists stage, m = FailureNotice stage)
                <-> fst (main' (boot log)) = Stop)).
Proof.
  intros log Hlog.
  destruct (main_runs log Hlog)
    as (status & details & calls & mails & Hrun & Hin & Hcalls & Hstop
        & Hdry & Hok & _).
  rewrite Hrun. cbn [fst snd trace].
  exists calls, mails, (if stops status then [Exit 1] else []).
  split; [reflexivity|]. split; [exact Hcalls|].
  split; [destruct (stops status); reflexivity|].
  assert (Hm : mails = []
               \/ exists m, mails = mail_trace cfg world m
                            /\ ((exists stage, m = FailureNotice stage)
                                <-> stops status = true)).
  { destruct (stops status) eqn:Es.
    - destruct (Hstop eq_refl) as [stage ->]. right. eexists.
      split; [reflexivity|]. split; [reflexivity|]. eauto.
    - cbn in Hin.
      destruct Hin as [<-|[<-|[<-|[<-|[]]]]]; try discriminate Es.
      + destruct (Hok eq_refl) as (m & -> & Hne). right. exists m.
        split; [reflexivity|]. split; [|discriminate].
        intros [stage ->]. exfalso. apply (Hne stage). reflexivity.
      + left. apply Hdry. reflexivity. }
  assert (Hexit : mails_of (if stops status then [Exit 1] else []) = []).
  { destruct (stops status); reflexivity. }
  unfold mails_of in *. rewrite !filter_app.
  destruct (calls_only calls Hcalls) as [Hc _]. unfold mails_of in Hc.
  rewrite Hc, Hexit. cbn [app]. rewrite app_nil_r.
  destruct Hm as [->|(m & -> & Hiff)].
  - repeat split; try reflexivity; try (cbn; lia); destruct H.
  - unfold mail_trace.
    destruct (truthy (VStr (NOTIFY_PASSWORD cfg))) eqn:Epw.
    + cbn [filter is_mail List.length].
      split; [reflexivity|]. split; [lia|].
      split.
      { intros E. rewrite E in Epw. discriminate Epw. }
      intros m0 ok [[= <- <-]|[]]. split; [reflexivity|].
      destruct (stops status); split; intros H; try reflexivity;
        try (apply Hiff; reflexivity); try discriminate H.
      apply Hiff in H. discriminate H.
    + cbn [filter List.length].
      split; [reflexivity|]. split; [lia|]. split; [reflexivity|].
      intros m0 ok [].
Qed.

(** X14. A dry run releases nothing: whatever the collaborators do, it
    calls no publishing channel and no social stage, mails neither a
    draft notice nor the briefing, and the record it appends is never a
    SUCCESS record. *)
Theorem dry_run_releases_nothing :
  forall (log : file),
    PRINT_LOG cfg = false ->
    DRY_RUN cfg = true ->
    forallb (fun e => negb (is_release e)) (trace (snd (main' (boot log))))
    = true
    /\ exists status details,
         run_log (snd (main' (boot log)))
         = append_record log (record' status details)
         /\ In status [ "DRY_RUN"; "FAILED"; "HALTED" ].
Proof.
  intros log Hlog Hdry.
  destruct (main_runs log Hlog)
    as (status & details & calls & mails & Hrun & Hin & Hcalls & Hstop
        & Hd & Hok & Hrel & _).
  destruct (Hrel Hdry) as [Hne Hcalls'].
  rewrite Hrun. cbn [fst snd trace run_log].
  split.
  - rewrite !forallb_app. rewrite Hcalls'. cbn [andb].
    apply andb_true_iff. split.
    + cbn in Hin. destruct Hin as [<-|[<-|[<-|[<-|[]]]]].
      * exfalso. apply Hne. reflexivity.
      * destruct (Hstop eq_refl) as [stage ->]. unfold mail_trace.
        destruct (truthy _); reflexivity.
      * destruct (Hstop eq_refl) as [stage ->]. unfold mail_trace.
        destruct (truthy _); reflexivity.
      * rewrite (Hd eq_refl). reflexivity.
    + destruct (stops status); reflexivity.
  - exists status, details. split; [reflexivity|].
    cbn in Hin |- *. destruct Hin as [<-|[<-|[<-|[<-|[]]]]]; tauto.
Qed.

(** X15. Log-print mode is read-only: [main] returns normally having
    appended no record, called no collaborator and sent no mail; it prints
    one row for each of the last ten lines of the run log, in file order
    (all of them when there are fewer, none when the file is absent). *)
Theorem print_log_mode_is_read_only :
  forall (log : file),
    PRINT_LOG cfg = true ->
    main' (boot log)
    = (Next tt,
       {| run_log := log;
          trace := [Console (map print_line (last_ten log))] |})
    /\ List.length (map print_line (last_ten log))
       = Nat.min 10 (match log with
                     | None => 0%nat
                     | Some lines => List.length lines
                     end).
Proof.
  intros log Hp. unfold main, print_recent_logs, last_ten, boot.
  rewrite Hp. cbn [run_log]. destruct log as [lines|].
  - split; [reflexivity|]. rewrite length_map, length_skipn. lia.
  - split; reflexivity.
Qed.

(** X16. A failure of content synthesis is fatal in every mode, dry run
    included: once the market stage has handed on a snapshot whose price is
    within the band, a raising [build_content] gives one FAILED record
    naming the stage and the error, the failure notice and exit status 1,
    after exactly four collaborator calls; nothing is published,
    whatever the optional stages did. *)
Theorem content_failure_is_fatal :
  forall (log : file) (snap : snapshot) (e : exn) (msg : string),
    PRINT_LOG cfg = false ->
    import_market_agent world = None ->
    market_intelligence fmt str_exn world = Returned snap ->
    outside_band (g_price snap) = false ->
    build_content world = Failed e msg ->
    main' (boot log)
    = (Stop,
       {| run_log :=
            append_record log
              (record' "FAILED" [ ("stage", VStr "content_synthesis");
                                  ("error", VStr msg) ]);
          trace :=
            ([ Call MarketFetch; Call AfricaIntelligence;
               Call ContractTransparency; Call ContentSynthesis ]
             ++ mail_trace cfg world (FailureNotice "content_synthesis")
             ++ [Exit 1])%list |}).
Proof.
  intros log snap e msg Hlog Himp Hm Hband Hbuild.
  destruct (market_snapshot_typed fmt str_exn world snap Hm)
    as [Htyped Hprice].
  destruct (gate_findings fmt (data snap) Htyped)
    as (findings & Hcheck & Hcrit & _).
  rewrite Hprice, Hband in Hcrit.
  assert (Hnone : filter (Str.startswith "CRITICAL") findings = []).
  { clear Hcheck. induction findings as [|w ws IH]; [reflexivity|].
    cbn [existsb] in Hcrit. apply orb_false_iff in Hcrit.
    destruct Hcrit as [Hw Hws]. unfold is_critical in Hw.
    cbn [filter]. rewrite Hw. apply IH. exact Hws. }
  unfold main, pipeline, anomaly_detection, enrich, content_synthesis.
  rewrite Hlog, Himp, Hm, Hcheck, Hnone, Hbuild.
  unfold bindM at 1. unfold emit at 1. cbn [boot run_log trace app].
  cbn [bindM ret emit run_log trace app].
  unfold bindM at 1. unfold bindM at 1. unfold emit at 1.
  cbn [run_log trace app].
  rewrite fail_stage_run. reflexivity.
Qed.

(** X17. A gold quote that is empty, has no price, or has a price that is
    not a number fails the market stage: the run ends FAILED at
    [market_intelligence] with exit status 1, having called nothing but
    the market fetch; the quality gate is not reached, so such a run is
    never HALTED. *)
Theorem unusable_gold_quote_fails_run :
  forall (log : file),
    PRINT_LOG cfg = false ->
    import_market_agent world = None ->
    gold_unusable (fetch_gold world) = true ->
    exists (msg : string),
      main' (boot log)
      = (Stop,
         {| run_log :=
              append_record log
                (record' "FAILED" [ ("stage", VStr "market_intelligence");
                                    ("error", VStr msg) ]);
            trace :=
              ([Call MarketFetch]
               ++ mail_trace cfg world (FailureNotice "market_intelligence")
               ++ [Exit 1])%list |}).
Proof.
  intros log Hlog Himp Hbad.
  assert (Hm : exists e msg,
             market_intelligence fmt str_exn world = Failed e msg).
  { unfold market_intelligence, gold_unusable in *.
    destruct (truthy (fetch_gold world)); cbn [negb orb] in *; [|eauto].
    destruct (getitem (fetch_gold world) "price") as [p|]; cbn [bind];
      [|eauto].
    destruct (get (fetch_gold world) "day_chg_pct" (VInt 0)) as [c|];
      cbn [bind]; [|eauto].
    destruct (ge c 0); cbn [bind]; [|eauto].
    unfold format_num at 1. unfold is_num in Hbad.
    destruct (num_of p); [discriminate Hbad|]. cbn [bind]. eauto. }
  destruct Hm as (e & msg & Hm). exists msg.
  unfold main. rewrite Hlog, Himp, Hm.
  unfold bindM at 1. unfold emit at 1. cbn [boot run_log trace app].
  rewrite fail_stage_run. reflexivity.
Qed.

(** Where a live run ends once its content is built. *)
Lemma live_run_outcome :
  forall (log : file) (snap : snapshot) (warnings : list string)
         (free_html premium_html : string),
    reaches_distribution fmt str_exn cfg world snap warnings free_html
      premium_html ->
    exists (d : delivery) (channels : list event)
           (m : list (string * pyval) * string),
      main' (boot log)
      = (Next tt,
         {| run_log :=
              append_record log
                (record' "SUCCESS"
                   (success_details round_to cfg world snap
                      (choose_post_type cfg world) warnings
                      (payload (africa_run world))
                      (payload (contract_run world)) d (fst m)));
            trace :=
              (trace_before_distribution ++ channels
               ++ trace_after_distribution
                    (fst (after_seo inject_json_ld world free_html))
                    (post_url d)
               ++ mail_trace cfg world
                    (if beehiiv_ok d then DraftReady (post_id d)
                     else FullBriefing (snd m) premium_html))%list |})
      /\ forallb is_publish channels = true
      /\ (beehiiv_ok d = false ->
          channels = attempted_channels cfg world).
Proof.
  intros log snap warnings free_html premium_html Hreach.
  rewrite (main_reaches_live_run isoformat fmt str_exn round_to
             inject_json_ld splice_banner cfg world log snap warnings
             free_html premium_html Hreach).
  destruct (distribution_total
              {| run_log := log; trace := trace_before_distribution |})
    as (d & channels & Hd & Hpub & Hatt).
  destruct (live_run_closes isoformat round_to splice_banner cfg world snap
              (choose_post_type cfg world) warnings
              (payload (africa_run world)) (payload (contract_run world))
              (fst (after_seo inject_json_ld world free_html))
              (snd (after_seo inject_json_ld world free_html))
              premium_html _ _ d Hd) as [m Hrun].
  exists d, channels, m. rewrite Hrun. cbn [run_log trace].
  rewrite <- app_assoc. repeat split; assumption.
Qed.

(** X18. A live run that gets past content synthesis always closes as a
    success: whatever SEO, the two publishing channels, LinkedIn, social,
    partnership, monetization, analytics and SMTP do, [main] returns
    normally with one SUCCESS record; the five stages after distribution
    are each called once, in order, the social stage with the locator
    distribution left behind; and the one mail is the draft notice when a
    channel delivered and the full briefing otherwise. *)
Theorem live_run_closes_as_success :
  forall (log : file) (snap : snapshot) (warnings : list string)
         (free_html premium_html : string),
    reaches_distribution fmt str_exn cfg world snap warnings free_html
      premium_html ->
    exists (d : delivery) (channels : list event)
           (m : list (string * pyval) * string),
      main' (boot log)
      = (Next tt,
         {| run_log :=
              append_record log
                (record' "SUCCESS"
                   (success_details round_to cfg world snap
                      (choose_post_type cfg world) warnings
                      (payload (africa_run world))
                      (payload (contract_run world)) d (fst m)));
            trace :=
              (trace_before_distribution ++ channels
               ++ trace_after_distribution
                    (fst (after_seo inject_json_ld world free_html))
                    (post_url d)
               ++ mail_trace cfg world
                    (if beehiiv_ok d then DraftReady (post_id d)
                     else FullBriefing (snd m) premium_html))%list |})
      /\ forallb is_publish channels = true
      /\ (beehiiv_ok d = false ->
          channels = attempted_channels cfg world).
Proof.
  intros log snap warnings free_html premium_html Hreach.
  apply live_run_outcome. exact Hreach.
Qed.

(** X19. The browser channel as fallback: in a live run that reaches
    distribution with the API unavailable (no key, or the call raises)
    and a browser publication that returns, the browser result is what
    the run records: [beehiiv_used] is true, the publish type is the
    configured one, the operator gets the draft notice rather than the
    briefing, and the social stage receives the browser's locator. *)
Theorem browser_fallback_counts_as_published :
  forall (log : file) (snap : snapshot) (warnings : list string)
         (free_html premium_html : string) (r : list (string * pyval)),
    reaches_distribution fmt str_exn cfg world snap warnings free_html
      premium_html ->
    api_unavailable cfg world ->
    import_beehiiv_browser world = true ->
    publish_post world = Returned (VDict r) ->
    exists (details : list (string * pyval)),
      main' (boot log)
      = (Next tt,
         {| run_log := append_record log (record' "SUCCESS" details);
            trace :=
              (trace_before_distribution ++ attempted_channels cfg world
               ++ trace_after_distribution
                    (fst (after_seo inject_json_ld world free_html))
                    (dict_get r "post_url" (VStr ""))
               ++ mail_trace cfg world
                    (DraftReady
                       (dict_get r "post_id" (VStr "browser-post"))))%list |})
      /\ lookup "beehiiv_used" details = Some (VBool true)
      /\ lookup "publish_type" details = Some (VStr (PUBLISH_TYPE cfg))
      /\ lookup "post_id" details
         = Some (or_else (dict_get r "post_id" (VStr "browser-post"))
                   (VStr "email-delivery")).
Proof.
  intros log snap warnings free_html premium_html r Hreach Hapi Himp Hpub.
  rewrite (main_reaches_live_run isoformat fmt str_exn round_to
             inject_json_ld splice_banner cfg world log snap warnings
             free_html premium_html Hreach).
  pose proof (distribution_browser cfg world r
                {| run_log := log; trace := trace_before_distribution |}
                Hapi Himp Hpub) as Hd.
  destruct (live_run_closes isoformat round_to splice_banner cfg world snap
              (choose_post_type cfg world) warnings
              (payload (africa_run world)) (payload (contract_run world))
              (fst (after_seo inject_json_ld world free_html))
              (snd (after_seo inject_json_ld world free_html))
              premium_html _ _ _ Hd) as [m Hrun].
  eexists. rewrite Hrun. cbn [run_log trace beehiiv_ok post_id post_url].
  split; [rewrite <- app_assoc; reflexivity|].
  unfold success_details.
  cbn [app lookup String.eqb Ascii.eqb Bool.eqb beehiiv_ok post_id].
  repeat split.
Qed.

(** X20. The post type of a run is always one of the seven labelled types,
    whatever weekday number the clock gives and whatever type is forced:
    it is the forced type or the one scheduled for the weekday. *)
Theorem post_type_is_labelled :
  mem_str (choose_post_type cfg world) LABELLED_POST_TYPES = true
  /\ (String.eqb (choose_post_type cfg world) (DAY_TYPES (weekday world))
      || match _FORCE_POST_TYPE cfg with
         | Some f => String.eqb (choose_post_type cfg world) f
                     && mem_str f LABELLED_POST_TYPES
         | None => false
         end) = true.
Proof.
  assert (Hday : forall w, mem_str (DAY_TYPES w) LABELLED_POST_TYPES = true).
  { intros w. unfold DAY_TYPES.
    destruct w as [|p|p]; try reflexivity.
    do 4 (try destruct p as [p|p|]; try reflexivity). }
  unfold choose_post_type.
  destruct (_FORCE_POST_TYPE cfg) as [f|].
  - destruct (truthy (VStr f)); cbn [andb].
    + destruct (mem_str f LABELLED_POST_TYPES) eqn:E.
      * split; [exact E|]. rewrite String.eqb_refl. cbn [andb].
        apply orb_true_r.
      * split; [apply Hday|]. rewrite String.eqb_refl. reflexivity.
    + split; [apply Hday|]. rewrite String.eqb_refl. reflexivity.
  - split; [apply Hday|]. rewrite String.eqb_refl. reflexivity.
Qed.

End RunInvariants.

(** X10, witness: the snapshot of a quiet day at 2950 dollars. *)
Lemma quality_gate_witness :
  exists findings,
    Orchestrator.check_data_quality Examples.plain_fmt
      (Orchestrator.data
         (Examples.snap_of
            (Examples.world_of (Examples.quote 2950) Examples.content_built)))
    = Ok findings
    /\ existsb Spec.is_critical findings = false.
Proof.
  destruct (quality_gate_halts_only_on_price Examples.plain_fmt
              (Orchestrator.data
                 (Examples.snap_of
                    (Examples.world_of (Examples.quote 2950)
                       Examples.content_built)))
              eq_refl) as (findings & Hc & He & _).
  exists findings. split; [exact Hc|]. rewrite He. vm_compute. reflexivity.
Defined.

(** X11, witness: that snapshot is clean, so the gate is silent. *)
Lemma quality_gate_silent_witness :
  Orchestrator.check_data_quality Examples.plain_fmt
    (Orchestrator.data
       (Examples.snap_of
          (Examples.world_of (Examples.quote 2950) Examples.content_built)))
  = Ok [].
Proof.
  apply (quality_gate_silent_iff_clean Examples.plain_fmt
           (Orchestrator.data
              (Examples.snap_of
                 (Examples.world_of (Examples.quote 2950)
                    Examples.content_built)))
           eq_refl).
  vm_compute. reflexivity.
Defined.

(** X12, witness: a live run at 2950 dollars on top of five earlier
    records. *)
Lemma run_appends_one_record_witness :
  exists status details,
    Orchestrator.run_log
      (snd (Examples.run_from (Some (map Json Examples.history_sssfs))
              (Examples.cfg_mode false false)
              (Examples.world_of (Examples.quote 2950)
                 Examples.content_built)))
    = Some (map Json Examples.history_sssfs
            ++ [Json (VDict (("ts", VStr "2026-03-05T06:00:00")
                             :: ("status", VStr status) :: details))])%list
    /\ In status Notions.run_statuses.
Proof.
  destruct (run_appends_one_record Examples.stamp Examples.plain_fmt
              Examples.plain_exn Examples.keep Examples.append_html
              Examples.append_html (Examples.cfg_mode false false)
              (Examples.world_of (Examples.quote 2950) Examples.content_built)
              (Some (map Json Examples.history_sssfs)) eq_refl)
    as (status & details & fin & st' & Hrun & Hlog & Hin & _).
  exists status, details. unfold Examples.run_from. rewrite Hrun.
  split; [exact Hlog|exact Hin].
Defined.

(** X13, witness: the same run sends one notice. *)
Lemma main_notifies_operator_witness :
  (List.length
     (Notions.mails_of
        (Orchestrator.trace
           (snd (Examples.run_from None (Examples.cfg_mode false false)
                   (Examples.world_of (Examples.quote 2950)
                      Examples.content_built))))) <= 1)%nat.
Proof.
  destruct (main_notifies_operator_at_most_once Examples.stamp Examples.plain_fmt
              Examples.plain_exn Examples.keep Examples.append_html
              Examples.append_html (Examples.cfg_mode false false)
              (Examples.world_of (Examples.quote 2950) Examples.content_built)
              None eq_refl)
    as (calls & mails & rest & _ & _ & _ & Hm & Hlen & _).
  unfold Examples.run_from. rewrite Hm. exact Hlen.
Defined.

(** X14, witness: a dry run at 2950 dollars. *)
Lemma dry_run_releases_nothing_witness :
  forallb (fun e => negb (Notions.is_release e))
    (Orchestrator.trace
       (snd (Examples.run_from None (Examples.cfg_mode true false)
               (Examples.world_of (Examples.quote 2950)
                  Examples.content_built))))
  = true.
Proof.
  exact (proj1
    (dry_run_releases_nothing Examples.stamp Examples.plain_fmt
       Examples.plain_exn Examples.keep Examples.append_html
       Examples.append_html (Examples.cfg_mode true false)
       (Examples.world_of (Examples.quote 2950) Examples.content_built)
       None eq_refl eq_refl)).
Defined.

(** X15, witness: printing a log of five records. *)
Lemma print_log_mode_witness :
  Orchestrator.run_log
    (snd (Examples.run_from (Some (map Json Examples.history_sssfs))
            (Examples.cfg_mode false true)
            (Examples.world_of (Examples.quote 2950)
               Examples.content_built)))
  = Some (map Json Examples.history_sssfs).
Proof.
  unfold Examples.run_from.
  rewrite (proj1
    (print_log_mode_is_read_only Examples.stamp Examples.plain_fmt
       Examples.plain_exn Examples.keep Examples.append_html
       Examples.append_html (Examples.cfg_mode false true)
       (Examples.world_of (Examples.quote 2950) Examples.content_built)
       (Some (map Json Examples.history_sssfs)) eq_refl)).
  reflexivity.
Defined.

(** X16, witness: content synthesis raising in a dry run. *)
Lemma content_failure_witness :
  fst (Examples.run_from None (Examples.cfg_mode true false)
         (Examples.world_of (Examples.quote 2950) Examples.content_broken))
  = Orchestrator.Stop.
Proof.
  unfold Examples.run_from.
  rewrite (content_failure_is_fatal Examples.stamp Examples.plain_fmt
             Examples.plain_exn Examples.keep Examples.append_html
             Examples.append_html (Examples.cfg_mode true false)
             (Examples.world_of (Examples.quote 2950) Examples.content_broken)
             None
             (Examples.snap_of
                (Examples.world_of (Examples.quote 2950)
                   Examples.content_broken))
             KeyError "'karat_prices'" eq_refl eq_refl eq_refl eq_refl
             eq_refl).
  reflexivity.
Defined.

(** X17, witness: a quote whose price is None. *)
Lemma unusable_gold_quote_witness :
  fst (Examples.run_from None (Examples.cfg_mode false false)
         (Examples.world_of (VDict [ ("price", VNone) ])
            Examples.content_built))
  = Orchestrator.Stop.
Proof.
  destruct (unusable_gold_quote_fails_run Examples.stamp Examples.plain_fmt
              Examples.plain_exn Examples.keep Examples.append_html
              Examples.append_html (Examples.cfg_mode false false)
              (Examples.world_of (VDict [ ("price", VNone) ])
                 Examples.content_built)
              None eq_refl eq_refl eq_refl) as [msg Hrun].
  unfold Examples.run_from. rewrite Hrun. reflexivity.
Defined.

(** X18, witness: a live run whose API call is refused and whose browser
    login is missing still returns normally. *)
Lemma live_run_closes_witness :
  fst (Examples.first_run (Examples.cfg_with "app-password" "bh-key")
         (Examples.world_with 2950 Examples.api_403
            Examples.browser_no_login))
  = Orchestrator.Next tt.
Proof.
  pose (w := Examples.world_with 2950 Examples.api_403
               Examples.browser_no_login).
  destruct (live_run_closes_as_success
              Examples.stamp Examples.plain_fmt Examples.plain_exn
              Examples.keep Examples.append_html Examples.append_html
              (Examples.cfg_with "app-password" "bh-key") w
              None (Examples.snap_of w)
              [] "<div>free</div>" "<div>premium</div>")
    as (d & channels & m & Hmain & _).
  - repeat split; vm_compute; reflexivity.
  - unfold Examples.first_run. fold w. rewrite Hmain. reflexivity.
Defined.

(** X19, witness: the API refused, the browser publishing. *)
Lemma browser_fallback_witness :
  Orchestrator.statuses
    (Orchestrator.run_log
       (snd (Examples.first_run (Examples.cfg_with "app-password" "bh-key")
               (Examples.world_with 2950 Examples.api_403
                  Examples.browser_created))))
  = [Some (VStr "SUCCESS")].
Proof.
  pose (w := Examples.world_with 2950 Examples.api_403
               Examples.browser_created).
  destruct (browser_fallback_counts_as_published
              Examples.stamp Examples.plain_fmt Examples.plain_exn
              Examples.keep Examples.append_html Examples.append_html
              (Examples.cfg_with "app-password" "bh-key") w
              None (Examples.snap_of w)
              [] "<div>free</div>" "<div>premium</div>"
              [ ("success", VBool true); ("post_url", VStr "");
                ("post_id", VStr "browser-post"); ("method", VStr "browser") ])
    as (details & Hmain & _).
  - repeat split; vm_compute; reflexivity.
  - right. eexists. eexists. reflexivity.
  - reflexivity.
  - reflexivity.
  - unfold Examples.first_run. fold w. rewrite Hmain. reflexivity.
Defined.

(** ** The analytics reader *)

Section AnalyticsReader.

Import Notions.

Variable fromisoformat : string -> option datetime.

Lemma read_loop_filter (cutoff : datetime) (ls : list log_line) :
  Analytics.read_loop fromisoformat cutoff ls
  = filter (in_window fromisoformat cutoff) (decoded ls).
Proof.
  induction ls as [|line ls IH]; [reflexivity|].
  destruct line as [|raw|v]; cbn [Analytics.read_loop is_blank decoded];
    try exact IH.
  unfold Analytics.read_line. cbn [json_loads bind filter].
  destruct v as [| | | | | |d]; cbn [get bind in_window]; try exact IH.
  destruct (parse_ts fromisoformat _) as [ts|]; cbn [bind]; [|exact IH].
  destruct (cutoff <=? ts); rewrite IH; reflexivity.
Qed.

(** X21. [read_log] is a filter: it returns, in file order, exactly the
    decoded lines that are dictionaries whose [ts] (1970-01-01 when
    missing) parses to an instant not before now minus [days] days; blank
    lines, undecodable lines, non-dictionaries and unparsable timestamps
    are skipped one by one, and a missing file reads as empty. *)
Theorem read_log_is_a_filter :
  forall (f : file) (now : datetime) (days : Z),
    Analytics.read_log fromisoformat f now days
    = filter (in_window fromisoformat (now - days * day_us))
        (decoded (lines_in f)).
Proof.
  intros [ls|] now days; [|reflexivity].
  apply read_loop_filter.
Qed.

Lemma in_window_weaken (c1 c2 : datetime) (r : pyval) :
  c2 <= c1 ->
  in_window fromisoformat c1 r = true -> in_window fromisoformat c2 r = true.
Proof.
  intros Hc. unfold in_window. destruct r; try discriminate.
  destruct (parse_ts fromisoformat _); [|discriminate].
  intros H. apply Z.leb_le in H. apply Z.leb_le. lia.
Qed.

(** X22. Widening the window never loses a record: with the same file and
    clock, whatever [read_log] returns for [days1] days it also returns
    for any [days2 >= days1]. *)
Theorem read_log_window_monotone :
  forall (f : file) (now : datetime) (days1 days2 : Z),
    days1 <= days2 ->
    incl (Analytics.read_log fromisoformat f now days1)
         (Analytics.read_log fromisoformat f now days2).
Proof.
  intros f now days1 days2 Hd r.
  assert (E : forall days,
             Analytics.read_log fromisoformat f now days
             = filter (in_window fromisoformat (now - days * day_us))
                 (decoded (lines_in f))).
  { intros days. destruct f as [ls|]; [|reflexivity].
    apply read_loop_filter. }
  rewrite !E. rewrite !filter_In.
  intros [Hin Hw]. split; [exact Hin|].
  apply (in_window_weaken (now - days1 * day_us)); [|exact Hw].
  unfold day_us. nia.
Qed.

Lemma read_log_dicts (f : file) (now : datetime) (days : Z) :
  Forall (fun r => is_dict r = true)
    (Analytics.read_log fromisoformat f now days).
Proof.
  apply Forall_forall. intros r Hin.
  assert (E : Analytics.read_log fromisoformat f now days
              = filter (in_window fromisoformat (now - days * day_us))
                  (decoded (lines_in f))).
  { destruct f as [ls|]; [|reflexivity]. apply read_loop_filter. }
  rewrite E in Hin. apply filter_In in Hin. destruct Hin as [_ Hw].
  destruct r; try discriminate Hw. reflexivity.
Qed.

Lemma count_status_dicts (status : string) (runs : list pyval) :
  Forall (fun r => is_dict r = true) runs ->
  Analytics.count_status status runs = Ok (count_of status runs).
Proof.
  induction 1 as [|r runs Hr _ IH]; [reflexivity|].
  destruct r as [| | | | | |d]; try discriminate Hr.
  cbn [Analytics.count_status get bind]. rewrite IH. cbn [bind].
  unfold count_of, has_status. cbn [filter get].
  destruct (eq_str _ status); [|reflexivity].
  cbn [List.length]. rewrite Nat2Z.inj_succ. reflexivity.
Qed.

Lemma metrics_streak_dicts (rs : list pyval) :
  Forall (fun r => is_dict r = true) rs ->
  forall acc, exists k,
    Analytics.metrics_streak_loop rs acc = Ok (acc + k)
    /\ 0 <= k <= count_of "SUCCESS" rs.
Proof.
  induction 1 as [|r rs Hr _ IH]; intros acc.
  - exists 0. split; [cbn; f_equal; lia|unfold count_of; cbn; lia].
  - destruct r as [| | | | | |d]; try discriminate Hr.
    cbn [Analytics.metrics_streak_loop get bind].
    unfold count_of in *. cbn [filter]. unfold has_status at 1. cbn [get].
    destruct (eq_str _ "SUCCESS").
    + destruct (IH (acc + 1)) as (k & -> & Hk). exists (1 + k).
      split; [f_equal; lia|]. cbn [List.length]. lia.
    + exists 0. split; [f_equal; lia|]. lia.
Qed.

Lemma has_status_unique (a b : string) (r : pyval) :
  has_status a r = true -> has_status b r = true -> a = b.
Proof.
  unfold has_status. destruct (get r "status" VNone) as [st|]; [|discriminate].
  destruct st; try discriminate. cbn [eq_str]. intros Ha Hb.
  apply String.eqb_eq in Ha, Hb. congruence.
Qed.

Lemma status_counts_disjoint (runs : list pyval) :
  count_of "SUCCESS" runs + count_of "FAILED" runs + count_of "HALTED" runs
  + count_of "DRY_RUN" runs <= Z.of_nat (List.length runs).
Proof.
  unfold count_of. induction runs as [|r runs IH]; [cbn; lia|].
  cbn [filter].
  destruct (has_status "SUCCESS" r) eqn:E1, (has_status "FAILED" r) eqn:E2,
    (has_status "HALTED" r) eqn:E3, (has_status "DRY_RUN" r) eqn:E4;
    try (pose proof (has_status_unique _ _ _ E1 E2) as C; discriminate C);
    try (pose proof (has_status_unique _ _ _ E1 E3) as C; discriminate C);
    try (pose proof (has_status_unique _ _ _ E1 E4) as C; discriminate C);
    try (pose proof (has_status_unique _ _ _ E2 E3) as C; discriminate C);
    try (pose proof (has_status_unique _ _ _ E2 E4) as C; discriminate C);
    try (pose proof (has_status_unique _ _ _ E3 E4) as C; discriminate C);
    cbn [List.length]; lia.
Qed.

Lemma with_status_filter (status : string) (runs : list pyval) :
  Analytics.with_status status runs = filter (has_status status) runs.
Proof.
  induction runs as [|r runs IH]; [reflexivity|].
  cbn [Analytics.with_status filter]. unfold has_status at 1.
  destruct (get r "status" VNone) as [st|]; [|exact IH].
  destruct (eq_str st status); rewrite IH; reflexivity.
Qed.

(** X23. [pipeline_metrics] can raise in its averages only: on every run
    log it raises exactly when the summaries over the successful runs it
    read raise (a value that cannot be added, divided or hashed), with
    that exception, and otherwise it returns; and the counts it returns
    are consistent: the total is the number of records read, the
    successes are the records the averages run over, the four status
    counts add up to at most the total, and the streak is between 0 and
    the number of successes. *)
Theorem pipeline_metrics_counts :
  forall (run_log : file) (now : datetime) (days : Z),
    exists (m : Analytics.metrics),
      Analytics.pipeline_metrics fromisoformat run_log now days
      = bind (Analytics.summaries
                (Analytics.with_status "SUCCESS"
                   (Analytics.read_log fromisoformat run_log now days)))
             (fun _ => Ok m)
      /\ Analytics.m_total m
         = Z.of_nat (List.length
                       (Analytics.read_log fromisoformat run_log now days))
      /\ Analytics.m_success m
         = Z.of_nat (List.length
                       (Analytics.with_status "SUCCESS"
                          (Analytics.read_log fromisoformat run_log now
                             days)))
      /\ Analytics.m_success m + Analytics.m_failed m + Analytics.m_halted m
         + Analytics.m_dry_runs m <= Analytics.m_total m
      /\ 0 <= Analytics.m_streak m <= Analytics.m_success m.
Proof.
  intros run_log now days. unfold Analytics.pipeline_metrics.
  pose proof (read_log_dicts run_log now days) as Hd.
  set (runs := Analytics.read_log fromisoformat run_log now days) in *.
  rewrite !(count_status_dicts _ runs Hd). cbn [bind].
  assert (Hrev : Forall (fun r => is_dict r = true) (rev runs)).
  { apply Forall_forall. intros r Hin. apply in_rev in Hin.
    revert r Hin. apply Forall_forall. exact Hd. }
  destruct (metrics_streak_dicts (rev runs) Hrev 0) as (k & Hloop & Hk).
  exists {| Analytics.m_total := Z.of_nat (List.length runs);
            Analytics.m_success := count_of "SUCCESS" runs;
            Analytics.m_failed := count_of "FAILED" runs;
            Analytics.m_halted := count_of "HALTED" runs;
            Analytics.m_dry_runs := count_of "DRY_RUN" runs;
            Analytics.m_streak := 0 + k |}.
  split.
  { destruct (Analytics.summaries _); cbn [bind]; [|reflexivity].
    rewrite Hloop. reflexivity. }
  cbn [Analytics.m_total Analytics.m_success Analytics.m_failed
       Analytics.m_halted Analytics.m_dry_runs Analytics.m_streak].
  split; [reflexivity|].
  split; [rewrite with_status_filter; reflexivity|].
  split; [apply status_counts_disjoint|].
  assert (Hc : count_of "SUCCESS" (rev runs) = count_of "SUCCESS" runs).
  { unfold count_of. rewrite filter_rev, length_rev. reflexivity. }
  lia.
Qed.

End AnalyticsReader.

(** ** What later readers see of a run *)

Section RunsAndReaders.

Import Spec Orchestrator Notions.

Variable fromisoformat : string -> option datetime.
Variable isoformat : datetime -> string.
Variable glued : log_line -> pyval -> log_line.
Variable fmt : string -> pyfloat -> string.
Variable str_exn : exn -> string.
Variable round_to : Z -> pyval -> pyval.
Variable inject_json_ld : string -> string -> string.
Variable splice_banner : string -> string -> string.
Variable cfg : config.
Variable world : env.

Local Abbreviation main' :=
  (main isoformat fmt str_exn round_to inject_json_ld splice_banner cfg world).
Local Abbreviation record' status details :=
  (VDict (("ts", VStr (isoformat (now world)))
          :: ("status", VStr status) :: details)).

Lemma decoded_app (l1 l2 : list log_line) :
  decoded (l1 ++ l2) = (decoded l1 ++ decoded l2)%list.
Proof.
  induction l1 as [|[| |v] l1 IH]; cbn [app decoded]; try exact IH;
    [reflexivity|]. rewrite IH. reflexivity.
Qed.

Lemma read_log_after_append (log : file) (rec : pyval) (now2 : datetime)
    (days : Z) :
  in_window fromisoformat (now2 - days * day_us) rec = true ->
  Analytics.read_log fromisoformat (append_record log rec) now2 days
  = (Analytics.read_log fromisoformat log now2 days ++ [rec])%list.
Proof.
  intros Hw. destruct log as [ls|]; cbn [append_record Analytics.read_log].
  - rewrite !read_loop_filter, decoded_app, filter_app.
    cbn [decoded filter]. rewrite Hw. reflexivity.
  - rewrite read_loop_filter. cbn [decoded filter]. rewrite Hw. reflexivity.
Qed.

(** X24. What a run logs is what the analytics reader reads back: when
    the run log is absent, empty, or ends in a newline after its last
    line that is not blank, then after any run other than a log print the
    readers find on the file the old lines and the one record the run
    wrote, and [read_log] at a clock whose window still covers the run's
    start returns what it returned before the run followed by that record
    (given that the timestamp text parses back to the instant it was made
    from). *)
Theorem run_record_is_read_back :
  forall (d : Disk.disk) (now2 : datetime) (days : Z),
    Disk.tidy d = true ->
    PRINT_LOG cfg = false ->
    fromisoformat (isoformat (now world)) = Some (now world) ->
    now2 - days * day_us <= now world ->
    exists (status : string) (details : list (string * pyval)),
      run_log (snd (main' (boot (Disk.seen d))))
      = Disk.seen (Disk.write glued d (record' status details))
      /\ Analytics.read_log fromisoformat
           (Disk.seen (Disk.write glued d (record' status details)))
           now2 days
         = (Analytics.read_log fromisoformat (Disk.seen d) now2 days
            ++ [record' status details])%list
      /\ In status run_statuses.
Proof.
  intros d now2 days Htidy Hlog Hiso Hwin.
  destruct (main_runs isoformat fmt str_exn round_to inject_json_ld
              splice_banner cfg world (Disk.seen d) Hlog)
    as (status & details & calls & mails & Hrun & Hin & _).
  exists status, details. rewrite Hrun. cbn [snd run_log].
  rewrite (write_then_read glued d _ Htidy).
  split; [reflexivity|]. split; [|exact Hin].
  apply read_log_after_append.
  cbn [in_window lookup String.eqb Ascii.eqb Bool.eqb parse_ts].
  rewrite Hiso. apply Z.leb_le. exact Hwin.
Qed.

Lemma streak_after_other (log : file) (status : string)
    (details : list (string * pyval)) :
  status <> "SUCCESS" ->
  Monetization._get_success_streak
    (append_record log (record' status details)) = 0.
Proof.
  intros Hne.
  assert (E : forall rest,
             Monetization.streak_loop
               (Json (record' status details) :: rest) 0 = Ok 0).
  { intros rest.
    cbn [Monetization.streak_loop json_loads bind get lookup String.eqb
         Ascii.eqb Bool.eqb eq_str].
    destruct (String.eqb status "SUCCESS") eqn:Es; [|reflexivity].
    apply String.eqb_eq in Es. contradiction. }
  destruct log as [ls|];
    cbn [append_record Monetization._get_success_streak].
  - rewrite rev_app_distr. cbn [rev app]. rewrite E. reflexivity.
  - cbn [rev app]. rewrite E. reflexivity.
Qed.

Lemma streak_loop_shift (ls : list log_line) :
  forall acc n,
    Monetization.streak_loop ls acc = Ok n ->
    Monetization.streak_loop ls (acc + 1) = Ok (n + 1).
Proof.
  induction ls as [|line ls IH]; intros acc n.
  - cbn. intros [= <-]. reflexivity.
  - cbn [Monetization.streak_loop].
    destruct (json_loads line) as [rec|]; cbn [bind]; [|discriminate].
    destruct (get rec "status" VNone) as [st|]; cbn [bind]; [|discriminate].
    destruct (eq_str st "SUCCESS").
    + apply IH.
    + intros [= <-]. reflexivity.
Qed.

(** X25. A run that does not end in SUCCESS resets the success streak the
    monetization score reads: after a dry run, or after any run that
    stops with exit status 1, [_get_success_streak] on the resulting run
    log is 0, whatever the log held before. *)
Theorem unsuccessful_run_resets_streak :
  forall (log : file),
    PRINT_LOG cfg = false ->
    DRY_RUN cfg = true \/ fst (main' (boot log)) = Stop ->
    Monetization._get_success_streak (run_log (snd (main' (boot log)))) = 0.
Proof.
  intros log Hlog Hwhy.
  destruct (main_runs isoformat fmt str_exn round_to inject_json_ld
              splice_banner cfg world log Hlog)
    as (status & details & calls & mails & Hrun & Hin & _ & _ & _ & _
        & Hdry & _).
  rewrite Hrun in *. cbn [fst snd run_log] in *.
  apply streak_after_other.
  destruct Hwhy as [Hd|Hs].
  - apply Hdry. exact Hd.
  - intros ->. discriminate Hs.
Qed.

(** X26. A live run that reaches distribution extends the streak by one:
    when the run log is absent, empty, or ends in a newline after its
    last line that is not blank, and the scan of its lines counts [n]
    trailing successes without meeting a line it cannot read, then the
    readers find on the file the old lines and the SUCCESS record of the
    run, and [_get_success_streak] on it is [n + 1]. *)
Theorem successful_run_extends_streak :
  forall (d : Disk.disk) (snap : snapshot) (warnings : list string)
         (free_html premium_html : string) (n : Z),
    Disk.tidy d = true ->
    reaches_distribution fmt str_exn cfg world snap warnings free_html
      premium_html ->
    Monetization.streak_loop (rev (lines_in (Disk.seen d))) 0 = Ok n ->
    exists (details : list (string * pyval)),
      run_log (snd (main' (boot (Disk.seen d))))
      = Disk.seen (Disk.write glued d (record' "SUCCESS" details))
      /\ Monetization._get_success_streak
           (Disk.seen (Disk.write glued d (record' "SUCCESS" details)))
         = n + 1.
Proof.
  intros d snap warnings free_html premium_html n Htidy Hreach Hscan.
  destruct (live_run_outcome isoformat fmt str_exn round_to
              inject_json_ld splice_banner cfg world (Disk.seen d) snap
              warnings free_html premium_html Hreach)
    as (dl & channels & m & Hrun & _).
  eexists. rewrite Hrun. cbn [snd run_log].
  rewrite (write_then_read glued d _ Htidy).
  split; [reflexivity|].
  assert (E : forall rest,
             Monetization.streak_loop rest 0 = Ok n ->
             Monetization.streak_loop
               (Json (record' "SUCCESS"
                        (success_details round_to cfg world snap
                           (choose_post_type cfg world) warnings
                           (payload (africa_run world))
                           (payload (contract_run world)) dl (fst m)))
                :: rest) 0 = Ok (n + 1)).
  { intros rest Hrest.
    cbn [Monetization.streak_loop json_loads bind get lookup String.eqb
         Ascii.eqb Bool.eqb eq_str].
    apply (streak_loop_shift rest 0 n Hrest). }
  destruct (Disk.seen d) as [ls|];
    cbn [append_record Monetization._get_success_streak lines_in] in *.
  - rewrite rev_app_distr. cbn [rev app]. rewrite (E _ Hscan). reflexivity.
  - cbn [rev app] in *. rewrite (E [] Hscan). reflexivity.
Qed.

End RunsAndReaders.

(** X22, witness: one day against seven. *)
Lemma read_log_window_witness :
  incl (Analytics.read_log Examples.iso
          (Some (map Json Examples.history_sssfs)) Examples.now_march 1)
       (Analytics.read_log Examples.iso
          (Some (map Json Examples.history_sssfs)) Examples.now_march 7).
Proof.
  apply (read_log_window_monotone Examples.iso
           (Some (map Json Examples.history_sssfs)) Examples.now_march 1 7).
  lia.
Defined.

(** X24, witness: a run on top of five terminated lines, read back over
    seven days. *)
Lemma run_record_read_back_witness :
  exists status details,
    Analytics.read_log Examples.iso
      (Orchestrator.run_log
         (snd (Examples.run_from (Disk.seen Examples.run_disk)
                 (Examples.cfg_mode false false)
                 (Examples.world_of (Examples.quote 2950)
                    Examples.content_built))))
      Examples.today_march 7
    = (Analytics.read_log Examples.iso (Disk.seen Examples.run_disk)
         Examples.today_march 7
       ++ [ VDict (("ts", VStr "2026-03-05T06:00:00")
                   :: ("status", VStr status) :: details) ])%list.
Proof.
  destruct (run_record_is_read_back Examples.iso Examples.stamp
              Examples.glue Examples.plain_fmt Examples.plain_exn
              Examples.keep Examples.append_html Examples.append_html
              (Examples.cfg_mode false false)
              (Examples.world_of (Examples.quote 2950) Examples.content_built)
              Examples.run_disk Examples.today_march 7)
    as (status & details & Hlog & Hread & _).
  - reflexivity.
  - reflexivity.
  - vm_compute. reflexivity.
  - vm_compute. discriminate.
  - exists status, details. unfold Examples.run_from. rewrite Hlog.
    exact Hread.
Defined.

(** X25, witness: a dry run after a success. *)
Lemma unsuccessful_run_resets_streak_witness :
  Monetization._get_success_streak
    (Orchestrator.run_log
       (snd (Examples.run_from (Some (map Json Examples.history_sssfs))
               (Examples.cfg_mode true false)
               (Examples.world_of (Examples.quote 2950)
                  Examples.content_built))))
  = 0.
Proof.
  apply (unsuccessful_run_resets_streak Examples.stamp Examples.plain_fmt
           Examples.plain_exn Examples.keep Examples.append_html
           Examples.append_html (Examples.cfg_mode true false)
           (Examples.world_of (Examples.quote 2950) Examples.content_built)
           (Some (map Json Examples.history_sssfs))).
  - reflexivity.
  - left. reflexivity.
Defined.

(** X26, witness: the first live run of a new installation starts a
    streak of one. *)
Lemma successful_run_extends_streak_witness :
  exists details,
    Monetization._get_success_streak
      (Disk.seen
         (Disk.write Examples.glue None
            (VDict (("ts", VStr "2026-03-05T06:00:00")
                    :: ("status", VStr "SUCCESS") :: details))))
    = 1.
Proof.
  pose (w := Examples.world_with 2950 Examples.api_created
               Examples.browser_created).
  destruct (successful_run_extends_streak Examples.stamp Examples.glue
              Examples.plain_fmt Examples.plain_exn Examples.keep
              Examples.append_html Examples.append_html
              (Examples.cfg_with "app-password" "bh-key") w None
              (Examples.snap_of w) [] "<div>free</div>"
              "<div>premium</div>" 0)
    as (details & _ & Hstreak).
  - reflexivity.
  - repeat split; vm_compute; reflexivity.
  - reflexivity.
  - exists details. exact Hstreak.
Defined.

(** ** The social posts *)

Section SocialPosts.

Import Spec.

Variable _pick_hook : string -> pyval -> datetime -> res string.
Variable twitter_hashtags : string -> pyval -> res string.
Variable linkedin_body : string -> pyval -> datetime -> res string.
Variable whatsapp_head : string -> pyval -> datetime -> res (list string).
Variable py_str : pyval -> string.

Local Abbreviation run' :=
  (Social.run _pick_hook twitter_hashtags linkedin_body whatsapp_head py_str).

Lemma length_append (a b : string) :
  String.length (a ++ b) = (String.length a + String.length b)%nat.
Proof.
  induction a as [|c a IH]; [reflexivity|]. cbn. rewrite IH. reflexivity.
Qed.

Lemma len_append (a b : string) : Str.len (a ++ b) = Str.len a + Str.len b.
Proof. unfold Str.len. rewrite length_append. lia. Qed.

Lemma length_substring0 (n : nat) :
  forall s, (String.length (substring 0 n s) <= n)%nat.
Proof.
  induction n as [|n IH]; intros [|c s]; cbn; try lia.
  specialize (IH s). lia.
Qed.

Lemma length_string_of_list (l : list ascii) :
  String.length (string_of_list_ascii l) = List.length l.
Proof. induction l as [|c l IH]; cbn; congruence. Qed.

Lemma length_list_of_string (s : string) :
  List.length (list_ascii_of_string s) = String.length s.
Proof. induction s as [|c s IH]; cbn; congruence. Qed.

Lemma after_first_space_length (l l' : list ascii) :
  Str.after_first_space l = Some l' -> (List.length l' <= List.length l)%nat.
Proof.
  revert l'. induction l as [|c l IH]; intros l'; [discriminate|].
  cbn [Str.after_first_space]. destruct (Ascii.eqb c " ").
  - intros [= <-]. cbn. lia.
  - intros H. specialize (IH _ H). cbn. lia.
Qed.

Lemma rsplit_head_length (s : string) :
  (String.length (Str.rsplit_head s) <= String.length s)%nat.
Proof.
  unfold Str.rsplit_head.
  destruct (Str.after_first_space _) as [l|] eqn:E; [|lia].
  apply after_first_space_length in E.
  rewrite length_string_of_list, length_rev.
  rewrite length_rev, length_list_of_string in E. exact E.
Qed.

Lemma slice_to_length (s : string) (k : Z) :
  0 <= k -> Str.len (Str.slice_to s k) <= k.
Proof.
  intros Hk. unfold Str.slice_to, Str.len.
  replace (k <? 0) with false by (symmetry; apply Z.ltb_ge; exact Hk).
  pose proof (length_substring0
                (Z.to_nat (Z.min k (Z.of_nat (String.length s)))) s).
  lia.
Qed.

(** X27. The tweet keeps its promise of 280 characters whenever the link
    and the hashtags leave room for it (together at most 273 characters):
    [build_twitter_post] then returns at most 280 characters, and
    trimming only ever shortens the hook, the link and the hashtags
    being kept whole at the end. *)
Theorem tweet_fits_280 :
  forall (post_type : string) (data : pyval) (today : datetime)
         (slug : pyval) (resolved_url : option string)
         (hashtags post : string),
    twitter_hashtags post_type data = Ok hashtags ->
    Str.len (Social.choose_link py_str slug resolved_url) + Str.len hashtags
    <= 273 ->
    Social.build_twitter_post _pick_hook twitter_hashtags py_str post_type
      data today slug resolved_url = Ok post ->
    Str.len post <= 280
    /\ exists lead,
         post = lead ++ Str.nl ++ Str.nl
                ++ Social.choose_link py_str slug resolved_url
                ++ Str.nl ++ Str.nl ++ hashtags.
Proof.
  intros post_type data today slug resolved_url hashtags post Htags Hroom.
  unfold Social.build_twitter_post. rewrite Htags.
  destruct (_pick_hook post_type data today) as [hook|];
    cbv beta iota zeta delta [bind]; [|discriminate].
  set (link := Social.choose_link py_str slug resolved_url) in *.
  set (tail := Str.nl ++ Str.nl ++ link ++ Str.nl ++ Str.nl ++ hashtags).
  assert (Htail : Str.len tail = 4 + Str.len link + Str.len hashtags).
  { unfold tail. rewrite !len_append.
    assert (Hnl : Str.len Str.nl = 1) by reflexivity. lia. }
  destruct (280 <? Str.len (hook ++ tail)) eqn:E; intros H;
    apply (f_equal (fun r => match r with Ok x => x | Raise _ => post end))
      in H; cbv beta iota in H; subst post.
  - split; [|eexists; reflexivity].
    rewrite !len_append.
    pose proof (rsplit_head_length
                  (Str.slice_to hook (280 - Str.len tail - 3))) as Hr.
    pose proof (slice_to_length hook (280 - Str.len tail - 3)) as Hs.
    unfold Str.len in *. cbn [String.length]. lia.
  - split; [|eexists; reflexivity]. apply Z.ltb_ge in E. exact E.
Qed.

Lemma resolve_url_some (post_url : pyval) (u : string) :
  Social.resolve_url post_url = Ok (Some u) -> truthy (VStr u) = true.
Proof.
  unfold Social.resolve_url. destruct (truthy post_url); [|discriminate].
  destruct post_url; try discriminate.
  destruct (truthy (VStr (Str.strip s))) eqn:E; [|discriminate].
  intros [= <-]. exact E.
Qed.

Lemma choose_link_resolved (slug : pyval) (u : string) :
  truthy (VStr u) = true -> Social.choose_link py_str slug (Some u) = u.
Proof. unfold Social.choose_link. intros ->. reflexivity. Qed.

(** X28. The slug of the SEO metadata never reaches a social post: for
    any two readable SEO payloads [run] returns the same three texts (or
    raises alike), because a slug is only passed on together with a
    resolved URL, which then takes precedence. *)
Theorem social_run_ignores_slug :
  forall (post_type : string) (data : pyval) (today : datetime)
         (seo_data1 seo_data2 post_url : pyval),
    seo_readable seo_data1 = true ->
    seo_readable seo_data2 = true ->
    run' post_type data today seo_data1 post_url
    = run' post_type data today seo_data2 post_url.
Proof.
  intros post_type data today seo1 seo2 post_url H1 H2. unfold Social.run.
  destruct (slug_readable seo1 H1) as [slug1 ->].
  destruct (slug_readable seo2 H2) as [slug2 ->]. cbn [bind].
  destruct (Social.resolve_url post_url) as [[u|]|] eqn:E; cbn [bind];
    try reflexivity.
  apply resolve_url_some in E.
  unfold Social.build_twitter_post, Social.build_linkedin_post,
    Social.build_whatsapp_message.
  rewrite !(choose_link_resolved _ u E). reflexivity.
Qed.

(** X29. With a locator that is not blank the three posts link exactly
    the stripped locator: the tweet ends with it and the hashtags, the
    LinkedIn post and the WhatsApp message carry it in their closing
    lines, whatever the SEO metadata says. *)
Theorem social_posts_link_the_locator :
  forall (post_type : string) (data : pyval) (today : datetime)
         (seo_data : pyval) (url hook tags body : string)
         (head : list string),
    Str.strip url <> "" ->
    seo_readable seo_data = true ->
    _pick_hook post_type data today = Ok hook ->
    twitter_hashtags post_type data = Ok tags ->
    linkedin_body post_type data today = Ok body ->
    whatsapp_head post_type data today = Ok head ->
    exists lead,
      run' post_type data today seo_data (VStr url)
      = Ok {| Social.twitter :=
                lead ++ Str.nl ++ Str.nl ++ Str.strip url
                ++ Str.nl ++ Str.nl ++ tags;
              Social.linkedin :=
                body ++ "Read the full briefing → " ++ Str.strip url
                ++ Str.nl ++ Str.nl ++ Social.linkedin_hashtags;
              Social.whatsapp :=
                Str.join Str.nl
                  (head ++ [ ""; "📖 Full briefing (free + premium):";
                             Str.strip url; "";
                             "_Reply STOP to unsubscribe_" ])%list |}.
Proof.
  intros post_type data today seo_data url hook tags body head
         Hurl Hseo Hhook Htags Hbody Hhead.
  assert (Hstrip : truthy (VStr (Str.strip url)) = true).
  { cbn [truthy]. destruct (String.eqb (Str.strip url) "") eqn:E;
      [|reflexivity]. apply String.eqb_eq in E. contradiction. }
  assert (Hraw : truthy (VStr url) = true).
  { cbn [truthy]. destruct url; [|reflexivity].
    exfalso. apply Hurl. reflexivity. }
  unfold Social.run.
  destruct (slug_readable seo_data Hseo) as [slug ->]. cbn [bind].
  unfold Social.resolve_url. rewrite Hraw, Hstrip. cbn [bind].
  unfold Social.build_twitter_post, Social.build_linkedin_post,
    Social.build_whatsapp_message.
  rewrite Hhook, Htags, Hbody, Hhead.
  rewrite !(choose_link_resolved _ _ Hstrip). cbn [bind].
  match goal with
  | |- context [if ?c then _ else _] => destruct c
  end; cbn [bind]; eexists; reflexivity.
Qed.

End SocialPosts.

(** X27, witness: the quiet-day tweet with the homepage link. *)
Lemma tweet_fits_witness :
  exists post,
    Social.build_twitter_post Examples.hook_of Examples.tags_of Examples.show
      "aggregator" Examples.snapshot_c4 Examples.today_march VNone None
    = Ok post
    /\ Str.len post <= 280.
Proof.
  eexists. split; [vm_compute; reflexivity|].
  refine (proj1
    (tweet_fits_280 Examples.hook_of Examples.tags_of Examples.show
       "aggregator" Examples.snapshot_c4 Examples.today_march VNone None
       "#Gold #AfricaGoldIntelligence" _ _ _ _)).
  - reflexivity.
  - vm_compute. discriminate.
  - vm_compute. reflexivity.
Defined.

(** X28, witness: with and without a slug, the same posts. *)
Lemma social_run_ignores_slug_witness :
  Social.run Examples.hook_of Examples.tags_of Examples.body_of
    Examples.head_of Examples.show "aggregator" Examples.snapshot_c4
    Examples.today_march
    (VDict [ ("slug", VStr "gold-market-digest-2026-03-05") ])
    (VStr "https://www.africagoldintelligence.com/p/briefing")
  = Social.run Examples.hook_of Examples.tags_of Examples.body_of
      Examples.head_of Examples.show "aggregator" Examples.snapshot_c4
      Examples.today_march VNone
      (VStr "https://www.africagoldintelligence.com/p/briefing").
Proof.
  apply (social_run_ignores_slug Examples.hook_of Examples.tags_of
           Examples.body_of Examples.head_of Examples.show "aggregator"
           Examples.snapshot_c4 Examples.today_march
           (VDict [ ("slug", VStr "gold-market-digest-2026-03-05") ]) VNone
           (VStr "https://www.africagoldintelligence.com/p/briefing"));
    reflexivity.
Defined.

(** X29, witness: a locator with a trailing space. *)
Lemma social_posts_link_witness :
  exists lead,
    Social.twitter
      (try_except
         (Social.run Examples.hook_of Examples.tags_of Examples.body_of
            Examples.head_of Examples.show "aggregator" Examples.snapshot_c4
            Examples.today_march VNone
            (VStr "https://www.africagoldintelligence.com/p/briefing "))
         {| Social.twitter := ""; Social.linkedin := "";
            Social.whatsapp := "" |})
    = lead ++ Str.nl ++ Str.nl
      ++ "https://www.africagoldintelligence.com/p/briefing"
      ++ Str.nl ++ Str.nl ++ "#Gold #AfricaGoldIntelligence".
Proof.
  destruct (social_posts_link_the_locator Examples.hook_of Examples.tags_of
              Examples.body_of Examples.head_of Examples.show "aggregator"
              Examples.snapshot_c4 Examples.today_march VNone
              "https://www.africagoldintelligence.com/p/briefing "
              "Gold at $2,950 today." "#Gold #AfricaGoldIntelligence"
              "Gold Market Digest. " [ "*Africa Gold Intelligence*"; "" ])
    as [lead Hrun].
  - vm_compute. discriminate.
  - reflexivity.
  - reflexivity.
  - reflexivity.
  - reflexivity.
  - reflexivity.
  - exists lead. rewrite Hrun. reflexivity.
Defined.
